(** * Bolt (MedReminder): dose-schedule expansion and adherence reconciliation

    A shallow embedding of the scheduling and reconciliation code of the
    application:

    - [generateScheduledTimes]           (src/lib/supabase.ts)
    - [generateScheduledDoses], [getStats], [getTimeDifference],
      [getTimeDifferenceColor] and the correction indicator
                                         (src/components/DailyPrescriptionsModal.tsx)
    - [getTodaysDoses]                   (src/components/PrescriptionCard.tsx)
    - [getTimeDifferenceColor], [getStats], [handleSaveEdit]
                                         (src/components/PrescriptionHistoryModal.tsx)
    - [getAdherenceRate]                 (Dashboard)

    followed by the properties of the specification, stated on these
    definitions. *)

From Stdlib Require Import ZArith QArith Qround Qabs List String Ascii Bool Lia.
From Stdlib Require Import Permutation Sorted DecimalString.
From stdpp Require Import gmap strings.
Import ListNotations.
Open Scope Z_scope.

(* ===================================================================== *)
(** * JavaScript dates *)
(* ===================================================================== *)

(** A JavaScript [Date] is a count of milliseconds.  Every calendar
    operation the code uses ([getDay], [setHours], date-fns [format] and
    [addDays]) works in the local time zone, so a date is represented by its
    millisecond count on the local time line: local midnight of 1970-01-01
    is 0 and every local day has [msPerDay] milliseconds (a zone with a
    constant UTC offset).  [getTime] differs from this count by that
    constant, which cancels in every difference and comparison the code
    makes.  An invalid date ([NaN]) is [None] where the code can build
    one.  Zones in which the clocks are set forward and back are the matter
    of module [TimeZone] below, where the methods are taken on time values
    in UTC and the operations of this module are the computations on local
    time values between [LocalTime] and [UTC]. *)
Module JSDate.

Definition t := Z.

Definition msPerSecond : Z := 1000.
Definition msPerMinute : Z := 60000.
Definition msPerHour : Z := 3600000.
Definition msPerDay : Z := 86400000.

(** Days since 1970-01-01 and milliseconds since local midnight. *)
Definition dayNumber (d : t) : Z := d / msPerDay.
Definition msOfDay (d : t) : Z := d mod msPerDay.

(** [Date.prototype.getDay]: 0 = Sunday .. 6 = Saturday; 1970-01-01 was a
    Thursday. *)
Definition getDay (d : t) : Z := (dayNumber d + 4) mod 7.

Definition getHours (d : t) : Z := msOfDay d / msPerHour.
Definition getMinutes (d : t) : Z := (msOfDay d / msPerMinute) mod 60.
Definition getSeconds (d : t) : Z := (msOfDay d / msPerSecond) mod 60.
Definition getMilliseconds (d : t) : Z := msOfDay d mod 1000.

(** [d.setHours(h, m, s, ms)]: the local day of [d] is kept, the time of
    day is replaced; values out of range roll over into the next days. *)
Definition setHours (d : t) (h m s ms : Z) : t :=
  dayNumber d * msPerDay + h * msPerHour + m * msPerMinute + s * msPerSecond + ms.

(** date-fns [addDays]. *)
Definition addDays (d : t) (n : Z) : t := d + n * msPerDay.

(** The proleptic Gregorian date of a day number: (year, month, day). *)
Definition civil (z0 : Z) : Z * Z * Z :=
  let z := z0 + 719468 in
  let era := z / 146097 in
  let doe := z - era * 146097 in
  let yoe := (doe - doe / 1460 + doe / 36524 - doe / 146096) / 365 in
  let y := yoe + era * 400 in
  let doy := doe - (365 * yoe + yoe / 4 - yoe / 100) in
  let mp := (5 * doy + 2) / 153 in
  let d := doy - (153 * mp + 2) / 5 + 1 in
  let m := if mp <? 10 then mp + 3 else mp - 9 in
  (if m <=? 2 then y + 1 else y, m, d).

(** The day number of a Gregorian date; used to write dates down. *)
Definition daysFromCivil (y0 m d : Z) : Z :=
  let y := if m <=? 2 then y0 - 1 else y0 in
  let era := y / 400 in
  let yoe := y - era * 400 in
  let doy := (153 * (if m >? 2 then m - 3 else m + 9) + 2) / 5 + d - 1 in
  let doe := yoe * 365 + yoe / 4 - yoe / 100 + doy in
  era * 146097 + doe - 719468.

(** [new Date(y, m - 1, d, hh, mm, ss)], months counted from 1. *)
Definition make (y m d hh mm ss : Z) : t :=
  daysFromCivil y m d * msPerDay + hh * msPerHour + mm * msPerMinute + ss * msPerSecond.

Definition getFullYear (d : t) : Z := fst (fst (civil (dayNumber d))).
(** [d.getMonth() + 1] *)
Definition getMonth1 (d : t) : Z := snd (fst (civil (dayNumber d))).
Definition getDate (d : t) : Z := snd (civil (dayNumber d)).

(** date-fns [addLeadingZeros]: the decimal numeral of [|n|], padded on
    the left with zeros to [width] characters, after the sign. *)
Fixpoint zeros (n : nat) : string :=
  match n with
  | O => EmptyString
  | S k => String "0"%char (zeros k)
  end.

Definition decimal (n : Z) : string := NilZero.string_of_uint (N.to_uint (Z.to_N n)).

Definition addLeadingZeros (n : Z) (width : nat) : string :=
  let sign := if n <? 0 then "-"%string else EmptyString in
  let digits := decimal (Z.abs n) in
  sign +:+ zeros (width - String.length digits) +:+ digits.

(** [format(d, 'yyyy-MM-dd')]. *)
Definition format_yyyy_MM_dd (d : t) : string :=
  let signedYear := getFullYear d in
  let year := if signedYear >? 0 then signedYear else 1 - signedYear in
  addLeadingZeros year 4 +:+ "-" +:+ addLeadingZeros (getMonth1 d) 2
    +:+ "-" +:+ addLeadingZeros (getDate d) 2.

(** [format(d, 'HH:mm:ss')]. *)
Definition format_HH_mm_ss (d : t) : string :=
  addLeadingZeros (getHours d) 2 +:+ ":" +:+ addLeadingZeros (getMinutes d) 2
    +:+ ":" +:+ addLeadingZeros (getSeconds d) 2.

End JSDate.

(* ===================================================================== *)
(** * Database types (src/lib/supabase.ts) *)
(* ===================================================================== *)

(** The status column of [medication_logs]. *)
Module Status.

Inductive t := pending | taken | missed | skipped.

Definition eqb (a b : t) : bool :=
  match a, b with
  | pending, pending | taken, taken | missed, missed | skipped, skipped => true
  | _, _ => false
  end.

Definition to_string (s : t) : string :=
  match s with
  | pending => "pending"
  | taken => "taken"
  | missed => "missed"
  | skipped => "skipped"
  end.

End Status.

(** A value of a Postgres [time] column, which the client receives as the
    text [HH:MM:SS].  [dose_time.split(':').map(Number)] yields the three
    components. *)
Module TimeOfDay.

Record t := mk { hours : Z; minutes : Z; seconds : Z }.

Definition text (x : t) : string :=
  JSDate.addLeadingZeros (hours x) 2 +:+ ":" +:+ JSDate.addLeadingZeros (minutes x) 2
    +:+ ":" +:+ JSDate.addLeadingZeros (seconds x) 2.

(** What the column can hold. *)
Definition valid (x : t) : Prop :=
  0 <= hours x < 24 /\ 0 <= minutes x < 60 /\ 0 <= seconds x < 60.

End TimeOfDay.

Module Prescription.
Record t := mk {
  id : string;
  user_id : string;
  name : string;
  dosage : string;
  notes : string;
  is_active : bool
}.
End Prescription.

Module DoseSchedule.
Record t := mk {
  id : string;
  prescription_id : string;
  dose_time : TimeOfDay.t;
  quantity : Z;
  days_of_week : list Z;
  is_active : bool
}.
End DoseSchedule.

(** [scheduled_time] is a [timestamptz] column read as text; the field holds
    the date [new Date(l.scheduled_time)] builds from it, [None] when that
    is an invalid date.  The same holds for [taken_time]. *)
Module MedicationLog.
Record t := mk {
  id : string;
  prescription_id : string;
  user_id : string;
  scheduled_time : option JSDate.t;
  taken_time : option JSDate.t;
  quantity_taken : option Z;
  status : Status.t;
  is_time_corrected : bool;
  notes : string
}.
End MedicationLog.

(** [scheduled_date] and [scheduled_time] are the texts of a [date] and a
    [time] column, which the code only compares with [===];
    [actual_taken_datetime] holds the date [new Date(..)] builds from the
    stored text. *)
Module MedicationHistory.
Record t := mk {
  id : string;
  user_id : string;
  prescription_id : string;
  prescription_name : string;
  dosage : string;
  scheduled_date : string;
  scheduled_time : string;
  actual_taken_datetime : option JSDate.t;
  quantity_taken : Z;
  is_corrected : bool;
  notes : string
}.
End MedicationHistory.

(* ===================================================================== *)
(** * Arrays *)
(* ===================================================================== *)

(** [Array.prototype.sort(compare)]: a stable sort; [compare a b <= 0] keeps
    [a] before [b]. *)
Section ArraySort.
Context {A : Type} (compare : A -> A -> Z).

Fixpoint sort_insert (x : A) (l : list A) : list A :=
  match l with
  | [] => [x]
  | y :: l' => if compare x y <=? 0 then x :: l else y :: sort_insert x l'
  end.

Definition Array_sort (l : list A) : list A := fold_right sort_insert [] l.

End ArraySort.

(** [Array.prototype.includes] on numbers. *)
Definition includes (l : list Z) (x : Z) : bool := existsb (Z.eqb x) l.

(* ===================================================================== *)
(** * The schedule expander (src/lib/supabase.ts) *)
(* ===================================================================== *)

(** [date.getDay() === 0 ? 7 : date.getDay()] *)
Definition dayOfWeek (date : JSDate.t) : Z :=
  if JSDate.getDay date =? 0 then 7 else JSDate.getDay date.

(** The filter predicate of [generateScheduledTimes]. *)
Definition scheduleApplies (date : JSDate.t) (schedule : DoseSchedule.t) : bool :=
  DoseSchedule.is_active schedule
  && includes (DoseSchedule.days_of_week schedule) (dayOfWeek date).

(** The map function of [generateScheduledTimes]:
    [const [hours, minutes] = schedule.dose_time.split(':').map(Number);
     const time = new Date(date); time.setHours(hours, minutes, 0, 0)]. *)
Definition scheduledTimeOf (date : JSDate.t) (schedule : DoseSchedule.t) : JSDate.t :=
  let hours := TimeOfDay.hours (DoseSchedule.dose_time schedule) in
  let minutes := TimeOfDay.minutes (DoseSchedule.dose_time schedule) in
  JSDate.setHours date hours minutes 0 0.

Definition generateScheduledTimes (schedules : list DoseSchedule.t) (date : JSDate.t)
  : list JSDate.t :=
  Array_sort (fun a b => a - b)
    (map (scheduledTimeOf date) (List.filter (scheduleApplies date) schedules)).

(* ===================================================================== *)
(** * Reconciliation (src/components/DailyPrescriptionsModal.tsx) *)
(* ===================================================================== *)

Module ScheduledDose.
Record t := mk {
  prescription : Prescription.t;
  scheduledDateTime : JSDate.t;
  quantity : Z;
  status : Status.t;
  log : option MedicationLog.t;
  historyEntry : option MedicationHistory.t
}.
End ScheduledDose.

(** The predicate of [prescriptionSchedules.find(..)]:
    [ds.dose_time === format(scheduledTime, 'HH:mm:ss')]. *)
Definition sameDoseTime (scheduledTime : JSDate.t) (ds : DoseSchedule.t) : bool :=
  String.eqb (TimeOfDay.text (DoseSchedule.dose_time ds))
             (JSDate.format_HH_mm_ss scheduledTime).

(** [prescriptionSchedules.find(..)?.quantity || 1] *)
Definition quantityFor (prescriptionSchedules : list DoseSchedule.t)
    (scheduledTime : JSDate.t) : Z :=
  match find (sameDoseTime scheduledTime) prescriptionSchedules with
  | Some ds => if DoseSchedule.quantity ds =? 0 then 1 else DoseSchedule.quantity ds
  | None => 1
  end.

(** The predicate of [history.find(..)]. *)
Definition historyMatches (prescription : Prescription.t)
    (date scheduledTime : JSDate.t) (h : MedicationHistory.t) : bool :=
  String.eqb (MedicationHistory.prescription_id h) (Prescription.id prescription)
  && String.eqb (MedicationHistory.scheduled_date h) (JSDate.format_yyyy_MM_dd date)
  && String.eqb (MedicationHistory.scheduled_time h) (JSDate.format_HH_mm_ss scheduledTime).

(** The predicate of [logs.find(..)]:
    [Math.abs(logTime.getTime() - scheduledTime.getTime()) < 60000];
    a comparison with [NaN] is false. *)
Definition logMatches (scheduledTime : JSDate.t) (l : MedicationLog.t) : bool :=
  match MedicationLog.scheduled_time l with
  | Some logTime => Z.abs (logTime - scheduledTime) <? 60000
  | None => false
  end.

(** The body of the [scheduledTimes.forEach] callback of
    [generateScheduledDoses]: the dose pushed for one scheduled time.
    [now] is the value of [new Date()]. *)
Definition reconcile (prescription : Prescription.t)
    (prescriptionSchedules : list DoseSchedule.t)
    (history : list MedicationHistory.t) (logs : list MedicationLog.t)
    (now date scheduledTime : JSDate.t) : ScheduledDose.t :=
  let quantity := quantityFor prescriptionSchedules scheduledTime in
  let historyEntry := find (historyMatches prescription date scheduledTime) history in
  let '(status, log) :=
    match historyEntry with
    | Some _ => (Status.taken, None)
    | None =>
        let log := find (logMatches scheduledTime) logs in
        match log with
        | Some l => (MedicationLog.status l, log)
        | None =>
            if scheduledTime <? now
            then (Status.pending, log)
            else (Status.pending, log)
        end
    end in
  ScheduledDose.mk prescription scheduledTime quantity status log historyEntry.

Inductive SortOrder := asc | desc.

(** The [for (let date = new Date(start); date <= end; date = addDays(date, 1))]
    loop; [fuel] bounds the number of iterations. *)
Fixpoint forEachDay {A : Type} (fuel : nat) (date end_ : JSDate.t)
    (body : JSDate.t -> list A) : list A :=
  match fuel with
  | O => []
  | S fuel' =>
      if date <=? end_
      then body date ++ forEachDay fuel' (JSDate.addDays date 1) end_ body
      else []
  end.

(** The number of iterations the loop can make. *)
Definition daysFuel (start end_ : JSDate.t) : nat :=
  Z.to_nat ((end_ - start) / JSDate.msPerDay + 1).

(** The component state read by [generateScheduledDoses].  [startDate] and
    [endDate] are the values of two date inputs: the day number of the
    chosen day, [None] for the empty text. *)
Record DailyState := {
  prescriptions : list Prescription.t;
  doseSchedules : list DoseSchedule.t;
  logs : list MedicationLog.t;
  history : list MedicationHistory.t;
  startDate : option Z;
  endDate : option Z;
  selectedPrescription : string;
  statusFilter : string;
  sortOrder : SortOrder
}.

(** The doses of one prescription on one day. *)
Definition dosesOfPrescription (st : DailyState) (now date : JSDate.t)
    (prescription : Prescription.t) : list ScheduledDose.t :=
  let prescriptionSchedules :=
    List.filter (fun ds => String.eqb (DoseSchedule.prescription_id ds)
                                      (Prescription.id prescription))
                (doseSchedules st) in
  let scheduledTimes := generateScheduledTimes prescriptionSchedules date in
  map (reconcile prescription prescriptionSchedules (history st) (logs st) now date)
      scheduledTimes.

(** [generateScheduledDoses]: the value passed to [setScheduledDoses], or
    [None] when the function returns early. *)
Definition generateScheduledDoses (st : DailyState) (now : JSDate.t)
  : option (list ScheduledDose.t) :=
  match startDate st, endDate st with
  | Some startDay, Some endDay =>
      let start := startDay * JSDate.msPerDay in
      let end_ := endDay * JSDate.msPerDay + 86399000 in
      let doses :=
        forEachDay (daysFuel start end_) start end_
          (fun date => flat_map (dosesOfPrescription st now date) (prescriptions st)) in
      let filteredDoses :=
        if negb (String.eqb (selectedPrescription st) "all")
        then List.filter
               (fun dose => String.eqb (Prescription.name (ScheduledDose.prescription dose))
                                       (selectedPrescription st))
               doses
        else doses in
      let filteredDoses :=
        if negb (String.eqb (statusFilter st) "all")
        then List.filter
               (fun dose => String.eqb (Status.to_string (ScheduledDose.status dose))
                                       (statusFilter st))
               filteredDoses
        else filteredDoses in
      Some (Array_sort
              (fun a b =>
                 let comparison :=
                   ScheduledDose.scheduledDateTime a - ScheduledDose.scheduledDateTime b in
                 match sortOrder st with asc => comparison | desc => - comparison end)
              filteredDoses)
  | _, _ => None
  end.

(* ===================================================================== *)
(** * Today's doses of a prescription card (src/components/PrescriptionCard.tsx) *)
(* ===================================================================== *)

Module TodaysDose.
Record t := mk {
  time : JSDate.t;
  log : option MedicationLog.t;
  status : Status.t
}.
End TodaysDose.

(** [getTodaysDoses]; [today] is the value of [new Date()].  A status is a
    non-empty text, so [log?.status || 'pending'] is the status of the log
    when there is one. *)
Definition getTodaysDoses (doseSchedules : list DoseSchedule.t)
    (logs : list MedicationLog.t) (today : JSDate.t) : list TodaysDose.t :=
  let scheduledTimes := generateScheduledTimes doseSchedules today in
  map (fun time =>
         let log := find (logMatches time) logs in
         TodaysDose.mk time log
           (match log with
            | Some l => MedicationLog.status l
            | None => Status.pending
            end))
      scheduledTimes.

(* ===================================================================== *)
(** * Numbers and date texts *)
(* ===================================================================== *)

(** JavaScript numbers are modelled by exact rationals.  [Math.round] rounds
    to the nearest integer, a tie towards plus infinity.  The quotients of
    milliseconds by 60000 that the code rounds or compares are decided as
    the floating-point ones are; a percentage [(a / b) * 100] can differ
    from the floating-point product in its last bits, which shows only when
    the exact percentage ends in .5. *)
Definition Math_round (x : Q) : Z := Qfloor (x + (1 # 2))%Q.

(** [x > y] on numbers. *)
Definition Qgtb (x y : Q) : bool := negb (Qle_bool x y).

(** [(actual.getTime() - scheduled.getTime()) / (1000 * 60)] *)
Definition minutesBetween (scheduled actual : JSDate.t) : Q :=
  (inject_Z (actual - scheduled) / inject_Z (1000 * 60))%Q.

(** [new Date(text)] for the date-time texts without a zone, which are read
    as local time: [yyyy-MM-ddTHH:mm] (the value of a [datetime-local]
    input) and [yyyy-MM-ddTHH:mm:ss] (a [date] column, a [T] and a [time]
    column).  Any other text, such as one with a fraction of a second or a
    zone designator, is outside this model and yields [None], as an invalid
    date does.  The result is a local time value; in a zone with
    transitions the date built is [TimeZone.UTC] of it, which for a text of
    a repeated hour is the first occurrence. *)
Module DateText.

Definition digitOf (c : ascii) : option Z :=
  let n := Z.of_nat (nat_of_ascii c) in
  if (48 <=? n) && (n <=? 57) then Some (n - 48) else None.

Fixpoint number (cs : list ascii) (acc : Z) : option Z :=
  match cs with
  | [] => Some acc
  | c :: rest =>
      match digitOf c with
      | Some d => number rest (10 * acc + d)
      | None => None
      end
  end.

Definition build (y m d hh mm ss : option Z) : option JSDate.t :=
  match y, m, d, hh, mm, ss with
  | Some y, Some m, Some d, Some hh, Some mm, Some ss =>
      if (1 <=? m) && (m <=? 12) && (1 <=? d) && (d <=? 31)
         && ((hh <=? 23) || ((hh =? 24) && (mm =? 0) && (ss =? 0)))
         && (mm <=? 59) && (ss <=? 59)
      then Some (JSDate.make y m d hh mm ss)
      else None
  | _, _, _, _, _, _ => None
  end.

Definition parse (text : string) : option JSDate.t :=
  match list_ascii_of_string text with
  | y1 :: y2 :: y3 :: y4 :: "-" :: m1 :: m2 :: "-" :: d1 :: d2 :: "T"
      :: h1 :: h2 :: ":" :: n1 :: n2 :: rest =>
      let date_part hh_mm_ss :=
        build (number [y1; y2; y3; y4] 0) (number [m1; m2] 0) (number [d1; d2] 0)
              (number [h1; h2] 0) (number [n1; n2] 0) hh_mm_ss in
      match rest with
      | [] => date_part (Some 0)
      | [":"; s1; s2] => date_part (number [s1; s2] 0)
      | _ => None
      end
  | _ => None
  end%char.

End DateText.

(* ===================================================================== *)
(** * Timing and statistics of the daily view
      (src/components/DailyPrescriptionsModal.tsx) *)
(* ===================================================================== *)

Module DailyPrescriptionsModal.

(** [getTimeDifference(scheduled, actual)]; [actual] is the date
    [new Date(actual)] builds. *)
Definition getTimeDifference (scheduled : JSDate.t) (actual : option JSDate.t)
  : string :=
  match actual with
  | Some actualDateTime =>
      let diffMinutes := Math_round (minutesBetween scheduled actualDateTime) in
      if diffMinutes =? 0 then "On time"
      else if diffMinutes >? 0 then JSDate.decimal diffMinutes +:+ " min late"
      else JSDate.decimal (Z.abs diffMinutes) +:+ " min early"
  | None => "NaN min early"
  end.

Definition getTimeDifferenceColor (scheduled : JSDate.t) (actual : option JSDate.t)
  : string :=
  match actual with
  | Some actualDateTime =>
      let diffMinutes := Qabs (minutesBetween scheduled actualDateTime) in
      if Qle_bool diffMinutes 15 then "text-green-600"
      else if Qle_bool diffMinutes 60 then "text-yellow-600"
      else "text-red-600"
  | None => "text-red-600"
  end.

(** The condition under which the badge "Time was corrected after initial
    entry" is rendered for a dose. *)
Definition correctionIndicator (dose : ScheduledDose.t) : bool :=
  match ScheduledDose.historyEntry dose with
  | Some historyEntry =>
      match MedicationHistory.actual_taken_datetime historyEntry with
      | Some actualDateTime =>
          let scheduledDateTime := ScheduledDose.scheduledDateTime dose in
          let timeDiffMinutes := Qabs (minutesBetween scheduledDateTime actualDateTime) in
          Qgtb timeDiffMinutes 1
      | None => false
      end
  | None => false
  end.

Record Stats := { total : Z; taken : Z; missed : Z; pending : Z }.

Definition countStatus (s : Status.t) (scheduledDoses : list ScheduledDose.t) : Z :=
  Z.of_nat (List.length
    (List.filter (fun d => Status.eqb (ScheduledDose.status d) s) scheduledDoses)).

Definition getStats (scheduledDoses : list ScheduledDose.t) : Stats :=
  {| total := Z.of_nat (List.length scheduledDoses);
     taken := countStatus Status.taken scheduledDoses;
     missed := countStatus Status.missed scheduledDoses;
     pending := countStatus Status.pending scheduledDoses |}.

End DailyPrescriptionsModal.

(* ===================================================================== *)
(** * The dashboard *)
(* ===================================================================== *)

Module Dashboard.

(** [getAdherenceRate], over the log events the dashboard has loaded. *)
Definition getAdherenceRate (logs : list MedicationLog.t) : Z :=
  if Z.of_nat (List.length logs) =? 0 then 0
  else
    let takenLogs :=
      Z.of_nat (List.length
        (List.filter (fun l => Status.eqb (MedicationLog.status l) Status.taken) logs)) in
    Math_round ((inject_Z takenLogs / inject_Z (Z.of_nat (List.length logs))) * 100)%Q.

End Dashboard.

(* ===================================================================== *)
(** * The history view (src/components/PrescriptionHistoryModal.tsx) *)
(* ===================================================================== *)

Module PrescriptionHistoryModal.

(** [new Date(`${scheduled}T${scheduledTime}`)] *)
Definition scheduledDateTimeOf (scheduled scheduledTime : string) : option JSDate.t :=
  DateText.parse (scheduled +:+ "T" +:+ scheduledTime).

(** [Math.round((actualDateTime.getTime() - scheduledDateTime.getTime()) / (1000 * 60))],
    [None] for [NaN]. *)
Definition diffMinutesOf (scheduled scheduledTime : string) (actual : option JSDate.t)
  : option Z :=
  match scheduledDateTimeOf scheduled scheduledTime, actual with
  | Some scheduledDateTime, Some actualDateTime =>
      Some (Math_round (minutesBetween scheduledDateTime actualDateTime))
  | _, _ => None
  end.

Definition getTimeDifference (scheduled scheduledTime : string)
    (actual : option JSDate.t) : string :=
  match diffMinutesOf scheduled scheduledTime actual with
  | Some diffMinutes =>
      if diffMinutes =? 0 then "On time"
      else if diffMinutes >? 0 then JSDate.decimal diffMinutes +:+ " min late"
      else JSDate.decimal (Z.abs diffMinutes) +:+ " min early"
  | None => "NaN min early"
  end.

Definition getTimeDifferenceColor (scheduled scheduledTime : string)
    (actual : option JSDate.t) : string :=
  match diffMinutesOf scheduled scheduledTime actual with
  | Some diffMinutes =>
      if Z.abs diffMinutes <=? 15 then "text-green-600 bg-green-50"
      else if Z.abs diffMinutes <=? 60 then "text-yellow-600 bg-yellow-50"
      else "text-red-600 bg-red-50"
  | None => "text-red-600 bg-red-50"
  end.

Record Stats := { total : Z; onTime : Z; corrected : Z }.

(** The predicate of the [onTime] filter of [getStats]. *)
Definition isOnTime (entry : MedicationHistory.t) : bool :=
  match scheduledDateTimeOf (MedicationHistory.scheduled_date entry)
                            (MedicationHistory.scheduled_time entry),
        MedicationHistory.actual_taken_datetime entry with
  | Some scheduledDateTime, Some actualDateTime =>
      Qle_bool (Qabs (minutesBetween scheduledDateTime actualDateTime)) 15
  | _, _ => false
  end.

Definition getStats (filteredHistory : list MedicationHistory.t) : Stats :=
  {| total := Z.of_nat (List.length filteredHistory);
     onTime := Z.of_nat (List.length (List.filter isOnTime filteredHistory));
     corrected :=
       Z.of_nat (List.length (List.filter MedicationHistory.is_corrected filteredHistory)) |}.

(** The percentage of the stats bar:
    [stats.total > 0 ? Math.round((stats.onTime / stats.total) * 100) : 0]. *)
Definition onTimePercent (stats : Stats) : Z :=
  if total stats >? 0
  then Math_round ((inject_Z (onTime stats) / inject_Z (total stats)) * 100)%Q
  else 0.

(** ** Editing an entry *)

(** The [medication_history] table, keyed by its primary key [id], and the
    editing state of the component. *)
Record EditState := {
  table : gmap string MedicationHistory.t;
  editingEntry : option string;
  editDateTime : string;
  editNotes : string
}.

(** [.update({ actual_taken_datetime, notes, is_corrected: true })] *)
Definition applyEdit (actual : JSDate.t) (notes : string) (row : MedicationHistory.t)
  : MedicationHistory.t :=
  MedicationHistory.mk
    (MedicationHistory.id row) (MedicationHistory.user_id row)
    (MedicationHistory.prescription_id row) (MedicationHistory.prescription_name row)
    (MedicationHistory.dosage row) (MedicationHistory.scheduled_date row)
    (MedicationHistory.scheduled_time row) (Some actual)
    (MedicationHistory.quantity_taken row) true notes.

Inductive SaveOutcome := NotAttempted | Saved | Failed.

(** [handleSaveEdit].  [refused] tells whether the data store answers the
    update with an error; an invalid date makes [toISOString] throw, which
    the [catch] handles like a refused update.  [fetchHistory] reloads
    the table, which this model holds itself. *)
Definition handleSaveEdit (refused : bool) (st : EditState) : EditState * SaveOutcome :=
  match editingEntry st with
  | None => (st, NotAttempted)
  | Some entryId =>
      if String.eqb entryId EmptyString || String.eqb (editDateTime st) EmptyString
      then (st, NotAttempted)
      else
        match DateText.parse (editDateTime st) with
        | None => (st, Failed)
        | Some localDateTime =>
            if refused then (st, Failed)
            else
              ({| table := alter (applyEdit localDateTime (editNotes st)) entryId (table st);
                  editingEntry := None;
                  editDateTime := EmptyString;
                  editNotes := EmptyString |},
               Saved)
        end
  end.

End PrescriptionHistoryModal.

(* ===================================================================== *)
(** * The vocabulary of the specification *)
(* ===================================================================== *)

(** The weekday of a date in the 1 = Monday .. 7 = Sunday convention of the
    recurrence rules (day 0, 1970-01-01, was a Thursday). *)
Definition isoWeekday (date : JSDate.t) : Z := (JSDate.dayNumber date + 3) mod 7 + 1.

(** A log event is within the tolerance window of a dose instant: its
    scheduled timestamp is less than 60 seconds away. *)
Definition withinTolerance (scheduledTime : JSDate.t) (l : MedicationLog.t) : Prop :=
  exists logTime,
    MedicationLog.scheduled_time l = Some logTime
    /\ Z.abs (logTime - scheduledTime) < 60 * JSDate.msPerSecond.

(** A history event records the calendar date and the time of day of a dose
    instant in its scheduled fields. *)
Definition recordsInstant (scheduledTime : JSDate.t) (h : MedicationHistory.t) : Prop :=
  MedicationHistory.scheduled_date h = JSDate.format_yyyy_MM_dd scheduledTime
  /\ MedicationHistory.scheduled_time h = JSDate.format_HH_mm_ss scheduledTime.

(** [offsetMinutes = round((actual - scheduled) / 60s)] *)
Definition offsetMinutes (scheduled actual : JSDate.t) : Z :=
  Math_round (minutesBetween scheduled actual).

(** The qualitative buckets of the timing classifier and their fixed
    thresholds. *)
Inductive Bucket := OnTime | ModerateDeviation | LargeDeviation.

Definition bucketOf (offset : Z) : Bucket :=
  if Z.abs offset <=? 15 then OnTime
  else if Z.abs offset <=? 60 then ModerateDeviation
  else LargeDeviation.

(** The bucket of the unrounded distance, with the thresholds in
    milliseconds. *)
Definition bucketOfMilliseconds (distance : Z) : Bucket :=
  if distance <=? 15 * 60000 then OnTime
  else if distance <=? 60 * 60000 then ModerateDeviation
  else LargeDeviation.

(** The bucket a colour class of the views stands for: green is on time,
    yellow a moderate and red a large deviation. *)
Definition bucketOfColor (color : string) : option Bucket :=
  if String.eqb color "text-green-600" || String.eqb color "text-green-600 bg-green-50"
  then Some OnTime
  else if String.eqb color "text-yellow-600" || String.eqb color "text-yellow-600 bg-yellow-50"
  then Some ModerateDeviation
  else if String.eqb color "text-red-600" || String.eqb color "text-red-600 bg-red-50"
  then Some LargeDeviation
  else None.

#[global] Instance Status_eq_dec : EqDecision Status.t.
Proof. solve_decision. Defined.

(** The number of doses of a status. *)
Definition dosesWithStatus (s : Status.t) (doses : list ScheduledDose.t) : Z :=
  Z.of_nat (count_occ Status_eq_dec (map ScheduledDose.status doses) s).

(** The number of log events recorded as taken. *)
Definition logsTaken (logs : list MedicationLog.t) : Z :=
  Z.of_nat (count_occ Status_eq_dec (map MedicationLog.status logs) Status.taken).

(** A percentage [p] is [part / whole] rounded to a nearest integer. *)
Definition nearestPercent (p part whole : Z) : Prop :=
  2 * Z.abs (p * whole - 100 * part) <= whole.

(* ===================================================================== *)
(** * Sample data *)
(* ===================================================================== *)

Module Sample.

Definition aspirin : Prescription.t :=
  Prescription.mk "p1" "u1" "Aspirin" "100mg" EmptyString true.

Definition ibuprofen : Prescription.t :=
  Prescription.mk "p2" "u1" "Ibuprofen" "200mg" EmptyString true.

(** Wednesday 2024-01-10, local midnight, and the 08:00 instant of that
    day. *)
Definition day : JSDate.t := JSDate.make 2024 1 10 0 0 0.
Definition at_0800 : JSDate.t := JSDate.make 2024 1 10 8 0 0.

(** Aspirin every day at 08:00:00, two units. *)
Definition rule_0800 : DoseSchedule.t :=
  DoseSchedule.mk "s0" "p1" (TimeOfDay.mk 8 0 0) 2 [1; 2; 3; 4; 5; 6; 7] true.

(** Aspirin every day at 08:00:30. *)
Definition rule_0800_30 : DoseSchedule.t :=
  DoseSchedule.mk "s1" "p1" (TimeOfDay.mk 8 0 30) 2 [1; 2; 3; 4; 5; 6; 7] true.

(** Aspirin on Sundays only, at 21:30:00. *)
Definition rule_sunday : DoseSchedule.t :=
  DoseSchedule.mk "s2" "p1" (TimeOfDay.mk 21 30 0) 1 [7] true.

Definition historyAt (id prescription_id : string) (actual : JSDate.t)
  : MedicationHistory.t :=
  MedicationHistory.mk id "u1" prescription_id EmptyString EmptyString
    "2024-01-10" "08:00:00" (Some actual) 1 false EmptyString.

(** The 08:00 dose of 2024-01-10 recorded as taken: of aspirin (twice) and
    of ibuprofen. *)
Definition aspirin_taken : MedicationHistory.t :=
  historyAt "h1" "p1" (JSDate.make 2024 1 10 8 10 0).
Definition aspirin_taken_again : MedicationHistory.t :=
  historyAt "h2" "p1" (JSDate.make 2024 1 10 9 0 0).
Definition ibuprofen_taken : MedicationHistory.t :=
  historyAt "h3" "p2" (JSDate.make 2024 1 10 8 2 0).

Definition logAt (id prescription_id : string) (scheduled : JSDate.t)
    (status : Status.t) : MedicationLog.t :=
  MedicationLog.mk id prescription_id "u1" (Some scheduled) None None status false
    EmptyString.

(** Log events of aspirin 30 seconds, exactly 60 seconds and 5 minutes
    after 08:00, and one of ibuprofen at 08:00. *)
Definition log_30s : MedicationLog.t :=
  logAt "l1" "p1" (JSDate.make 2024 1 10 8 0 30) Status.skipped.
Definition log_60s : MedicationLog.t :=
  logAt "l2" "p1" (JSDate.make 2024 1 10 8 1 0) Status.taken.
Definition log_5min : MedicationLog.t :=
  logAt "l3" "p1" (JSDate.make 2024 1 10 8 5 0) Status.taken.
Definition log_ibuprofen_missed : MedicationLog.t :=
  logAt "l4" "p2" at_0800 Status.missed.
Definition log_aspirin_taken : MedicationLog.t :=
  logAt "l5" "p1" at_0800 Status.taken.

(** A later moment, from which the 08:00 instant lies in the past. *)
Definition evening : JSDate.t := JSDate.make 2024 1 10 20 0 0.

(** Doses taken at a given moment, the state of the daily view and of an
    edit in the history view. *)
Definition takenAt (actual : JSDate.t) : ScheduledDose.t :=
  ScheduledDose.mk aspirin at_0800 2 Status.taken None
    (Some (historyAt "h1" "p1" actual)).

(** 61 seconds, 10 minutes, 15 minutes 20 seconds and 45 minutes after
    08:00. *)
Definition at_0801_01 : JSDate.t := JSDate.make 2024 1 10 8 1 1.
Definition at_0810 : JSDate.t := JSDate.make 2024 1 10 8 10 0.
Definition at_0815_20 : JSDate.t := JSDate.make 2024 1 10 8 15 20.
Definition at_0845 : JSDate.t := JSDate.make 2024 1 10 8 45 0.

(** Aspirin every day at 20:00:00. *)
Definition rule_2000 : DoseSchedule.t :=
  DoseSchedule.mk "s3" "p1" (TimeOfDay.mk 20 0 0) 1 [1; 2; 3; 4; 5; 6; 7] true.

(** The daily view of 2024-01-10: aspirin at 08:00 and 20:00; the 08:00
    dose was marked taken, which wrote a history event and a log event. *)
Definition dailyState : DailyState :=
  {| prescriptions := [aspirin];
     doseSchedules := [rule_0800; rule_2000];
     logs := [log_aspirin_taken];
     history := [aspirin_taken];
     startDate := Some (JSDate.dayNumber day);
     endDate := Some (JSDate.dayNumber day);
     selectedPrescription := "all";
     statusFilter := "all";
     sortOrder := asc |}.

(** The history entry [h1] (taken at 08:10, never corrected) under edit:
    the time is left as it is, a note is added. *)
Definition editState : PrescriptionHistoryModal.EditState :=
  {| PrescriptionHistoryModal.table := {[ "h1"%string := aspirin_taken ]};
     PrescriptionHistoryModal.editingEntry := Some "h1"%string;
     PrescriptionHistoryModal.editDateTime := "2024-01-10T08:10";
     PrescriptionHistoryModal.editNotes := "with food" |}.

End Sample.

(* ===================================================================== *)
(** * The prescription card (src/components/PrescriptionCard.tsx) *)
(* ===================================================================== *)

(** [format(d, "yyyy-MM-dd'T'HH:mm")], the text of a [datetime-local]
    input.  For the years 1 to 9999 it is also what
    [new Date(d.getTime() - d.getTimezoneOffset() * 60000).toISOString().slice(0, 16)]
    yields. *)
Definition format_datetime_local (d : JSDate.t) : string :=
  JSDate.format_yyyy_MM_dd d +:+ "T"
    +:+ (JSDate.addLeadingZeros (JSDate.getHours d) 2 +:+ ":"
         +:+ JSDate.addLeadingZeros (JSDate.getMinutes d) 2).

Module PrescriptionCard.

(** [todaysDoses.find(dose => dose.status === 'pending')] *)
Definition nextDose (todaysDoses : list TodaysDose.t) : option TodaysDose.t :=
  find (fun dose => Status.eqb (TodaysDose.status dose) Status.pending) todaysDoses.

Record TakenDialog := {
  prescriptionId : string;
  prescriptionName : string;
  dosage : string;
  scheduledTime : JSDate.t;
  quantity : Z
}.

(** The state the mark-taken dialog works on. *)
Record State := {
  showTakenDialog : option TakenDialog;
  actualDateTime : string;
  correctedScheduledDateTime : string;
  showScheduleCorrection : bool
}.

(** [handleMarkTaken]: opens the dialog with the present local time, to the
    minute, as the time taken.  [now] is the value of [new Date()]. *)
Definition handleMarkTaken (prescription : Prescription.t) (now : JSDate.t)
    (prescriptionId : string) (scheduledTime : JSDate.t) (quantity : Z) (st : State)
  : State :=
  {| showTakenDialog :=
       Some {| prescriptionId := prescriptionId;
               prescriptionName := Prescription.name prescription;
               dosage := Prescription.dosage prescription;
               scheduledTime := scheduledTime;
               quantity := quantity |};
     actualDateTime := format_datetime_local now;
     correctedScheduledDateTime := correctedScheduledDateTime st;
     showScheduleCorrection := showScheduleCorrection st |}.

(** The arguments of a call of [onMarkTaken].  [callActualDateTime] is the
    optional last argument: the date its ISO text denotes. *)
Record MarkTakenCall := {
  callPrescriptionId : string;
  callPrescriptionName : string;
  callDosage : string;
  callScheduledDate : string;
  callScheduledTime : string;
  callQuantity : Z;
  callActualDateTime : option JSDate.t
}.

Inductive ConfirmResult :=
| Ignored                                   (* the condition of the [if] is false *)
| Thrown                                    (* [format] or [toISOString] throws on an invalid date *)
| Called (call : MarkTakenCall) (st : State).

(** [confirmMarkTaken] *)
Definition confirmMarkTaken (st : State) : ConfirmResult :=
  match showTakenDialog st with
  | None => Ignored
  | Some dialog =>
      if String.eqb (actualDateTime st) EmptyString then Ignored
      else
        let localDateTime := DateText.parse (actualDateTime st) in
        let finalScheduled :=
          if negb (String.eqb (correctedScheduledDateTime st) EmptyString)
          then DateText.parse (correctedScheduledDateTime st)
          else Some (scheduledTime dialog) in
        match finalScheduled, localDateTime with
        | Some scheduled, Some actual =>
            Called
              {| callPrescriptionId := prescriptionId dialog;
                 callPrescriptionName := prescriptionName dialog;
                 callDosage := dosage dialog;
                 callScheduledDate := JSDate.format_yyyy_MM_dd scheduled;
                 callScheduledTime := JSDate.format_HH_mm_ss scheduled;
                 callQuantity := quantity dialog;
                 callActualDateTime := Some actual |}
              {| showTakenDialog := None;
                 actualDateTime := EmptyString;
                 correctedScheduledDateTime := EmptyString;
                 showScheduleCorrection := false |}
        | _, _ => Thrown
        end
  end.

End PrescriptionCard.

(* ===================================================================== *)
(** * The handlers of the dashboard *)
(* ===================================================================== *)

Module DashboardHandlers.

(** The two tables the handlers write to. *)
Record Store := {
  historyTable : list MedicationHistory.t;
  logTable : list MedicationLog.t
}.

(** The row [handleMarkTaken] inserts into [medication_history]; the data
    store supplies [id], and [notes] takes its default. *)
Definition historyRow (id user_id : string) (now : JSDate.t)
    (call : PrescriptionCard.MarkTakenCall) : MedicationHistory.t :=
  MedicationHistory.mk id user_id
    (PrescriptionCard.callPrescriptionId call)
    (PrescriptionCard.callPrescriptionName call)
    (PrescriptionCard.callDosage call)
    (PrescriptionCard.callScheduledDate call)
    (PrescriptionCard.callScheduledTime call)
    (Some (match PrescriptionCard.callActualDateTime call with
           | Some actual => actual
           | None => now
           end))
    (PrescriptionCard.callQuantity call)
    (match PrescriptionCard.callActualDateTime call with
     | Some _ => true
     | None => false
     end)
    EmptyString.

(** [handleMarkTaken].  [historyRefused] and [logRefused] tell whether the
    data store answers the insert and the upsert with an error; an upsert
    without [id] inserts a row.  [timestamptz] is the reading the data store
    makes of a date-time text without zone, [None] when it rejects the
    text. *)
Definition handleMarkTaken (timestamptz : string -> option JSDate.t)
    (historyRefused logRefused : bool) (now : JSDate.t)
    (historyId logId user_id : string) (call : PrescriptionCard.MarkTakenCall)
    (db : Store) : Store :=
  if historyRefused then db
  else
    let row := historyRow historyId user_id now call in
    let db1 := {| historyTable := historyTable db ++ [row]; logTable := logTable db |} in
    let text := PrescriptionCard.callScheduledDate call +:+ "T"
                  +:+ PrescriptionCard.callScheduledTime call in
    match timestamptz text with
    | Some scheduled =>
        if logRefused then db1
        else
          {| historyTable := historyTable db1;
             logTable :=
               logTable db1
               ++ [MedicationLog.mk logId (PrescriptionCard.callPrescriptionId call) user_id
                     (Some scheduled) (MedicationHistory.actual_taken_datetime row)
                     (Some (PrescriptionCard.callQuantity call)) Status.taken false
                     EmptyString] |}
    | None => db1
    end.

(** [handleMarkMissed]; [scheduledTime] is the date the ISO text passed by
    the card denotes. *)
Definition handleMarkMissed (refused : bool) (logId user_id prescriptionId : string)
    (scheduledTime : JSDate.t) (db : Store) : Store :=
  if refused then db
  else
    {| historyTable := historyTable db;
       logTable :=
         logTable db
         ++ [MedicationLog.mk logId prescriptionId user_id (Some scheduledTime) None None
               Status.missed false EmptyString] |}.

End DashboardHandlers.

(* ===================================================================== *)
(** * More of the history view (src/components/PrescriptionHistoryModal.tsx) *)
(* ===================================================================== *)

Module HistoryView.

Inductive SortBy := scheduled | actual.

(** The state read by [applyFilters]; the dates are those of two date
    inputs, as in the daily view. *)
Record FilterState := {
  history : list MedicationHistory.t;
  startDate : option Z;
  endDate : option Z;
  selectedPrescription : string;
  sortBy : SortBy;
  sortOrder : SortOrder
}.

(** The test of the date filter: [entryDate >= start && entryDate <= end]
    with [start = startOfDay(..)] and [end = endOfDay(..)]. *)
Definition inDateRange (startDay endDay : Z) (entry : MedicationHistory.t) : bool :=
  let start := startDay * JSDate.msPerDay in
  let end_ := endDay * JSDate.msPerDay + (JSDate.msPerDay - 1) in
  match MedicationHistory.actual_taken_datetime entry with
  | Some entryDate => (start <=? entryDate) && (entryDate <=? end_)
  | None => false
  end.

(** The date an entry is sorted by. *)
Definition sortDate (by_ : SortBy) (entry : MedicationHistory.t) : option JSDate.t :=
  match by_ with
  | scheduled =>
      PrescriptionHistoryModal.scheduledDateTimeOf
        (MedicationHistory.scheduled_date entry) (MedicationHistory.scheduled_time entry)
  | actual => MedicationHistory.actual_taken_datetime entry
  end.

(** [applyFilters]: the value passed to [setFilteredHistory].  A comparison
    that yields [NaN] counts as 0 in [sort]. *)
Definition applyFilters (st : FilterState) : list MedicationHistory.t :=
  let filtered := history st in
  let filtered :=
    match startDate st, endDate st with
    | Some startDay, Some endDay => List.filter (inDateRange startDay endDay) filtered
    | _, _ => filtered
    end in
  let filtered :=
    if negb (String.eqb (selectedPrescription st) "all")
    then List.filter
           (fun entry => String.eqb (MedicationHistory.prescription_name entry)
                                    (selectedPrescription st))
           filtered
    else filtered in
  Array_sort
    (fun a b =>
       match sortDate (sortBy st) a, sortDate (sortBy st) b with
       | Some dateA, Some dateB =>
           let comparison := dateA - dateB in
           match sortOrder st with asc => comparison | desc => - comparison end
       | _, _ => 0
       end)
    filtered.

(** [handleEditEntry]; [None] when [format] throws on an invalid date. *)
Definition handleEditEntry (entry : MedicationHistory.t)
    (st : PrescriptionHistoryModal.EditState) : option PrescriptionHistoryModal.EditState :=
  match MedicationHistory.actual_taken_datetime entry with
  | Some actualDateTime =>
      Some {| PrescriptionHistoryModal.table := PrescriptionHistoryModal.table st;
              PrescriptionHistoryModal.editingEntry := Some (MedicationHistory.id entry);
              PrescriptionHistoryModal.editDateTime := format_datetime_local actualDateTime;
              PrescriptionHistoryModal.editNotes := MedicationHistory.notes entry |}
  | None => None
  end.

End HistoryView.

(* ===================================================================== *)
(** * The prescription form and the schedule screen
      (src/components/PrescriptionForm.tsx) *)
(* ===================================================================== *)

Module PrescriptionForm.

(** A dosing time under edit; [dose_time] is the text [HH:mm] of a time
    input. *)
Record Schedule := {
  dose_time : string;
  quantity : Z;
  days_of_week : list Z
}.

(** What [handleSubmit] passes on for a dosing time. *)
Record ScheduleData := {
  data_dose_time : string;
  data_quantity : Z;
  data_days_of_week : list Z;
  data_is_active : bool
}.

(** [String(n)] for an integer. *)
Definition Number_toString (n : Z) : string :=
  if n <? 0 then "-" +:+ JSDate.decimal (- n) else JSDate.decimal n.

(** [Array.prototype.sort()] without a comparison function: the elements
    are ordered by their texts. *)
Definition compareText (a b : string) : Z :=
  match String.compare a b with
  | Lt => -1
  | Eq => 0
  | Gt => 1
  end.

Definition sortDefault (l : list Z) : list Z :=
  Array_sort (fun a b => compareText (Number_toString a) (Number_toString b)) l.

(** The schedules the form starts from when a prescription with dose
    schedules is edited: [ds.dose_time.substring(0, 5)]. *)
Definition schedulesOf (doseSchedules : list DoseSchedule.t) : list Schedule :=
  map (fun ds =>
         {| dose_time := String.substring 0 5 (TimeOfDay.text (DoseSchedule.dose_time ds));
            quantity := DoseSchedule.quantity ds;
            days_of_week := DoseSchedule.days_of_week ds |})
      doseSchedules.

(** The [scheduleData] of [handleSubmit]. *)
Definition scheduleData (schedules : list Schedule) : list ScheduleData :=
  map (fun s =>
         {| data_dose_time := dose_time s +:+ ":00";
            data_quantity := quantity s;
            data_days_of_week := days_of_week s;
            data_is_active := true |})
      schedules.

(** [toggleDay]; [None] when [timeIndex] is not an index of [schedules],
    where reading [days_of_week] of [undefined] throws. *)
Definition toggleDay (timeIndex : nat) (day : Z) (schedules : list Schedule)
  : option (list Schedule) :=
  match schedules !! timeIndex with
  | None => None
  | Some s =>
      let currentDays := days_of_week s in
      let days :=
        if includes currentDays day
        then List.filter (fun d => negb (d =? day)) currentDays
        else sortDefault (currentDays ++ [day]) in
      Some (<[timeIndex := {| dose_time := dose_time s; quantity := quantity s;
                              days_of_week := days |}]> schedules)
  end.

End PrescriptionForm.

Module DoseScheduleScreen.

Record ScheduledDose := {
  prescription : Prescription.t;
  scheduledDateTime : JSDate.t;
  quantity : Z;
  taken : bool;
  historyEntry : option MedicationHistory.t
}.

(** The doses of one prescription in [generateDosesForDate]. *)
Definition dosesOfPrescription (doseSchedules : list DoseSchedule.t)
    (history : list MedicationHistory.t) (selectedDate : JSDate.t)
    (prescription : Prescription.t) : list ScheduledDose :=
  let prescriptionSchedules :=
    List.filter (fun ds => String.eqb (DoseSchedule.prescription_id ds)
                                      (Prescription.id prescription))
                doseSchedules in
  map (fun scheduledTime =>
         let historyEntry :=
           find (historyMatches prescription selectedDate scheduledTime) history in
         {| prescription := prescription;
            scheduledDateTime := scheduledTime;
            quantity := quantityFor prescriptionSchedules scheduledTime;
            taken := match historyEntry with Some _ => true | None => false end;
            historyEntry := historyEntry |})
      (generateScheduledTimes prescriptionSchedules selectedDate).

(** [generateDosesForDate]: the value passed to [setScheduledDoses]. *)
Definition generateDosesForDate (prescriptions : list Prescription.t)
    (doseSchedules : list DoseSchedule.t) (history : list MedicationHistory.t)
    (selectedDate : JSDate.t) : list ScheduledDose :=
  Array_sort (fun a b => scheduledDateTime a - scheduledDateTime b)
    (flat_map (dosesOfPrescription doseSchedules history selectedDate) prescriptions).

Record Stats := { total : Z; statsTaken : Z; pending : Z }.

(** [getStats] *)
Definition getStats (scheduledDoses : list ScheduledDose) : Stats :=
  let total := Z.of_nat (List.length scheduledDoses) in
  let taken := Z.of_nat (List.length (List.filter taken scheduledDoses)) in
  {| total := total; statsTaken := taken; pending := total - taken |}.

End DoseScheduleScreen.

(* ===================================================================== *)
(** * Checks by computation *)
(* ===================================================================== *)

(** [f] holds of [lo], [lo + 1], .., [lo + n - 1]. *)
Fixpoint checkFrom (f : Z -> bool) (lo : Z) (n : nat) : bool :=
  match n with
  | O => true
  | S k => f lo && checkFrom f (lo + 1) k
  end.

(** The part of [JSDate.civil] and of [JSDate.daysFromCivil] that works
    within an era of 400 years (146097 days). *)
Definition civilOfDoe (doe : Z) : Z * Z * Z :=
  let yoe := (doe - doe / 1460 + doe / 36524 - doe / 146096) / 365 in
  let doy := doe - (365 * yoe + yoe / 4 - yoe / 100) in
  let mp := (5 * doy + 2) / 153 in
  let d := doy - (153 * mp + 2) / 5 + 1 in
  let m := if mp <? 10 then mp + 3 else mp - 9 in
  (yoe, m, d).

Definition doeOfCivil (yoe m d : Z) : Z :=
  let doy := (153 * (if m >? 2 then m - 3 else m + 9) + 2) / 5 + d - 1 in
  yoe * 365 + yoe / 4 - yoe / 100 + doy.

Definition doeOk (doe : Z) : bool :=
  let '(yoe, m, d) := civilOfDoe doe in
  (0 <=? yoe) && (yoe <? 400) && (1 <=? m) && (m <=? 12) && (1 <=? d) && (d <=? 31)
  && (doeOfCivil yoe m d =? doe).

(** A number below 100 (below 10000) is written with two (four) digits
    that read back as the number. *)
Definition pad2Ok (n : Z) : bool :=
  match list_ascii_of_string (JSDate.addLeadingZeros n 2) with
  | [a; b] => match DateText.number [a; b] 0 with Some k => k =? n | None => false end
  | _ => false
  end.

Definition pad4Ok (n : Z) : bool :=
  match list_ascii_of_string (JSDate.addLeadingZeros n 4) with
  | [a; b; c; d] =>
      match DateText.number [a; b; c; d] 0 with Some k => k =? n | None => false end
  | _ => false
  end.

(** The texts of two numbers below 10 compare as the numbers do. *)
Definition digitOrderOk (a : Z) : bool :=
  checkFrom
    (fun b => PrescriptionForm.compareText (PrescriptionForm.Number_toString a)
                (PrescriptionForm.Number_toString b) =? Z.sgn (a - b))
    0 10.

(** A date in the years the four-digit year texts cover. *)
Definition fourDigitYear (d : JSDate.t) : Prop := 1 <= JSDate.getFullYear d <= 9999.

(** The doses of every day from [startDay] to [endDay] and of every
    prescription, before the filters of the daily view. *)
Definition dosesOfRange (st : DailyState) (now : JSDate.t) (startDay endDay : Z)
  : list ScheduledDose.t :=
  flat_map
    (fun k =>
       flat_map (dosesOfPrescription st now ((startDay + Z.of_nat k) * JSDate.msPerDay))
                (prescriptions st))
    (seq 0 (Z.to_nat (endDay - startDay + 1))).

(** A dose passes the two filters of the daily view. *)
Definition passesFilters (st : DailyState) (dose : ScheduledDose.t) : Prop :=
  (selectedPrescription st <> "all"%string ->
   Prescription.name (ScheduledDose.prescription dose) = selectedPrescription st)
  /\ (statusFilter st <> "all"%string ->
      Status.to_string (ScheduledDose.status dose) = statusFilter st).

(** The order of the doses of the daily view. *)
Definition inSortOrder (order : SortOrder) (a b : ScheduledDose.t) : Prop :=
  match order with
  | asc => ScheduledDose.scheduledDateTime a <= ScheduledDose.scheduledDateTime b
  | desc => ScheduledDose.scheduledDateTime b <= ScheduledDose.scheduledDateTime a
  end.

(** A dose is coherent: linked to a history event it is taken and carries
    no log event; linked to a log event only, it has the status of the log
    event; linked to nothing, it is pending. *)
Definition coherentDose (dose : ScheduledDose.t) : Prop :=
  match ScheduledDose.historyEntry dose, ScheduledDose.log dose with
  | Some h, None =>
      ScheduledDose.status dose = Status.taken
      /\ MedicationHistory.prescription_id h
         = Prescription.id (ScheduledDose.prescription dose)
  | None, Some l =>
      ScheduledDose.status dose = MedicationLog.status l
      /\ withinTolerance (ScheduledDose.scheduledDateTime dose) l
  | None, None => ScheduledDose.status dose = Status.pending
  | Some _, Some _ => False
  end.

(** More sample data: the daily view of the week from Monday 2024-01-08 to
    Sunday 2024-01-14, filtered to the pending doses, latest first. *)
Module Sample2.

Definition weekState : DailyState :=
  {| prescriptions := [Sample.aspirin; Sample.ibuprofen];
     doseSchedules := [Sample.rule_0800; Sample.rule_2000; Sample.rule_sunday];
     logs := [Sample.log_aspirin_taken];
     history := [Sample.aspirin_taken];
     startDate := Some (JSDate.daysFromCivil 2024 1 8);
     endDate := Some (JSDate.daysFromCivil 2024 1 14);
     selectedPrescription := "Aspirin";
     statusFilter := "pending";
     sortOrder := desc |}.

(** One prescription with one rule for every day, seen over the week. *)
Definition everyDayState : DailyState :=
  {| prescriptions := [Sample.aspirin];
     doseSchedules := [Sample.rule_0800];
     logs := [];
     history := [Sample.aspirin_taken];
     startDate := Some (JSDate.daysFromCivil 2024 1 8);
     endDate := Some (JSDate.daysFromCivil 2024 1 14);
     selectedPrescription := "all";
     statusFilter := "all";
     sortOrder := asc |}.

End Sample2.

(** A card on which no dialog is open. *)
Module Sample3.

Definition idleCard : PrescriptionCard.State :=
  {| PrescriptionCard.showTakenDialog := None;
     PrescriptionCard.actualDateTime := EmptyString;
     PrescriptionCard.correctedScheduledDateTime := EmptyString;
     PrescriptionCard.showScheduleCorrection := false |}.

(** The dialog for the 08:00 aspirin dose, with 08:10 entered as the time
    taken and the scheduled time corrected to 09:00. *)
Definition correctingCard : PrescriptionCard.State :=
  {| PrescriptionCard.showTakenDialog :=
       Some {| PrescriptionCard.prescriptionId := "p1";
               PrescriptionCard.prescriptionName := "Aspirin";
               PrescriptionCard.dosage := "100mg";
               PrescriptionCard.scheduledTime := Sample.at_0800;
               PrescriptionCard.quantity := 2 |};
     PrescriptionCard.actualDateTime := "2024-01-10T08:10";
     PrescriptionCard.correctedScheduledDateTime := "2024-01-10T09:00";
     PrescriptionCard.showScheduleCorrection := true |}.

Definition emptyStore : DashboardHandlers.Store :=
  {| DashboardHandlers.historyTable := []; DashboardHandlers.logTable := [] |}.

(** A moment with seconds: 2024-01-10 20:00:42. *)
Definition evening_42 : JSDate.t := JSDate.make 2024 1 10 20 0 42.

End Sample3.

(** The dose the schedule screen of a day shows for a dose of the daily
    view: the same prescription, instant, quantity and history event, and
    taken exactly when a history event is linked. *)
Definition screenDoseOf (dose : ScheduledDose.t) : DoseScheduleScreen.ScheduledDose :=
  {| DoseScheduleScreen.prescription := ScheduledDose.prescription dose;
     DoseScheduleScreen.scheduledDateTime := ScheduledDose.scheduledDateTime dose;
     DoseScheduleScreen.quantity := ScheduledDose.quantity dose;
     DoseScheduleScreen.taken :=
       match ScheduledDose.historyEntry dose with Some _ => true | None => false end;
     DoseScheduleScreen.historyEntry := ScheduledDose.historyEntry dose |}.

(** The daily view of the single day of [selectedDate], without filters and
    in ascending order. *)
Definition singleDayState (prescriptions : list Prescription.t)
    (doseSchedules : list DoseSchedule.t) (logs : list MedicationLog.t)
    (history : list MedicationHistory.t) (selectedDate : JSDate.t) : DailyState :=
  {| prescriptions := prescriptions;
     doseSchedules := doseSchedules;
     logs := logs;
     history := history;
     startDate := Some (JSDate.dayNumber selectedDate);
     endDate := Some (JSDate.dayNumber selectedDate);
     selectedPrescription := "all";
     statusFilter := "all";
     sortOrder := asc |}.

(** A weekday number of the recurrence rules. *)
Definition isWeekdayNumber (d : Z) : Prop := 1 <= d <= 7.

(* ===================================================================== *)
(** * Time zones with transitions *)
(* ===================================================================== *)

(** The definitions above compute on local time values, which is all there
    is to a zone of constant offset.  In general a [Date] holds a time value
    in UTC, and a method that works in local time reads the time value with
    [LocalTime], computes on the local time value as module [JSDate] does,
    and goes back with [UTC].  Where the clocks are set forward or back the
    two are not inverse of each other: a local time that the transition
    skips or repeats is read with the offset in force before the
    transition, so a skipped time comes out later by the size of the gap and
    a repeated time is its first occurrence. *)
Module TimeZone.

(** [offsetAt] is the offset of local time from UTC in force at a time
    value, [offsetOfLocal] the offset a local time value is read with, both
    in milliseconds. *)
Record t := mk {
  offsetAt : Z -> Z;
  offsetOfLocal : Z -> Z
}.

Definition LocalTime (zone : t) (time : Z) : JSDate.t := time + offsetAt zone time.

Definition UTC (zone : t) (local : JSDate.t) : Z := local - offsetOfLocal zone local.

(** A zone without transitions. *)
Definition fixed (offset : Z) : t := mk (fun _ => offset) (fun _ => offset).

(** America/New_York during 2024: five hours behind UTC, four from
    2024-03-10 07:00 UTC (local 02:00, set forward to 03:00) to 2024-11-03
    06:00 UTC (local 02:00, set back to 01:00). *)
Definition newYork2024 : t :=
  let standard := -5 * JSDate.msPerHour in
  let daylight := -4 * JSDate.msPerHour in
  mk (fun time =>
        if time <? JSDate.make 2024 3 10 7 0 0 then standard
        else if time <? JSDate.make 2024 11 3 6 0 0 then daylight
        else standard)
     (fun local =>
        if local <? JSDate.make 2024 3 10 3 0 0 then standard
        else if local <? JSDate.make 2024 11 3 2 0 0 then daylight
        else standard).

(** The offsets of the zone are whole minutes. *)
Definition wholeMinutes (zone : t) : Prop :=
  forall x, offsetAt zone x mod JSDate.msPerMinute = 0
            /\ offsetOfLocal zone x mod JSDate.msPerMinute = 0.

(** A local time is shown by the clocks of the zone: read as a time value,
    it is the local time of that time value.  The times that a transition
    skips are the ones that are not. *)
Definition wallClockExists (zone : t) (local : JSDate.t) : Prop :=
  LocalTime zone (UTC zone local) = local.

End TimeZone.

(** The methods of [Date] on a time value, in a zone. *)
Module ZonedDate.

Definition dayNumber (zone : TimeZone.t) (d : Z) : Z :=
  JSDate.dayNumber (TimeZone.LocalTime zone d).
Definition getDay (zone : TimeZone.t) (d : Z) : Z :=
  JSDate.getDay (TimeZone.LocalTime zone d).
Definition getHours (zone : TimeZone.t) (d : Z) : Z :=
  JSDate.getHours (TimeZone.LocalTime zone d).
Definition getMinutes (zone : TimeZone.t) (d : Z) : Z :=
  JSDate.getMinutes (TimeZone.LocalTime zone d).
Definition getSeconds (zone : TimeZone.t) (d : Z) : Z :=
  JSDate.getSeconds (TimeZone.LocalTime zone d).
Definition getMilliseconds (zone : TimeZone.t) (d : Z) : Z :=
  JSDate.getMilliseconds (TimeZone.LocalTime zone d).

(** [d.setHours(h, m, s, ms)]: the local time value with the time of day
    replaced, read back as a time value. *)
Definition setHours (zone : TimeZone.t) (d : Z) (h m s ms : Z) : Z :=
  TimeZone.UTC zone (JSDate.setHours (TimeZone.LocalTime zone d) h m s ms).

(** date-fns [format], which reads the date with the local getters. *)
Definition format_yyyy_MM_dd (zone : TimeZone.t) (d : Z) : string :=
  JSDate.format_yyyy_MM_dd (TimeZone.LocalTime zone d).
Definition format_HH_mm_ss (zone : TimeZone.t) (d : Z) : string :=
  JSDate.format_HH_mm_ss (TimeZone.LocalTime zone d).

End ZonedDate.

(** [generateScheduledTimes] on time values, in a zone
    (src/lib/supabase.ts). *)
Definition dayOfWeekIn (zone : TimeZone.t) (date : Z) : Z :=
  if ZonedDate.getDay zone date =? 0 then 7 else ZonedDate.getDay zone date.

Definition scheduleAppliesIn (zone : TimeZone.t) (date : Z) (schedule : DoseSchedule.t)
  : bool :=
  DoseSchedule.is_active schedule
  && includes (DoseSchedule.days_of_week schedule) (dayOfWeekIn zone date).

Definition scheduledTimeOfIn (zone : TimeZone.t) (date : Z) (schedule : DoseSchedule.t)
  : Z :=
  let hours := TimeOfDay.hours (DoseSchedule.dose_time schedule) in
  let minutes := TimeOfDay.minutes (DoseSchedule.dose_time schedule) in
  ZonedDate.setHours zone date hours minutes 0 0.

Definition generateScheduledTimesIn (zone : TimeZone.t) (schedules : list DoseSchedule.t)
    (date : Z) : list Z :=
  Array_sort (fun a b => a - b)
    (map (scheduledTimeOfIn zone date)
         (List.filter (scheduleAppliesIn zone date) schedules)).

(** The local time a rule asks for on the local day of [date]. *)
Definition wallClockOf (zone : TimeZone.t) (date : Z) (schedule : DoseSchedule.t)
  : JSDate.t :=
  scheduledTimeOf (TimeZone.LocalTime zone date) schedule.

(** The quantity lookups of the daily view and of the card
    ([getQuantityForTime], src/components/PrescriptionCard.tsx), in a zone:
    [prescriptionSchedules.find(ds => ds.dose_time === format(scheduledTime,
    'HH:mm:ss'))?.quantity || 1]. *)
Definition quantityForIn (zone : TimeZone.t) (prescriptionSchedules : list DoseSchedule.t)
    (scheduledTime : Z) : Z :=
  match find (fun ds => String.eqb (TimeOfDay.text (DoseSchedule.dose_time ds))
                                   (ZonedDate.format_HH_mm_ss zone scheduledTime))
             prescriptionSchedules with
  | Some ds => if DoseSchedule.quantity ds =? 0 then 1 else DoseSchedule.quantity ds
  | None => 1
  end.

Definition getQuantityForTimeIn (zone : TimeZone.t) (doseSchedules : list DoseSchedule.t)
    (time : Z) : Z :=
  let timeStr := ZonedDate.format_HH_mm_ss zone time in
  match find (fun ds => String.eqb (TimeOfDay.text (DoseSchedule.dose_time ds)) timeStr)
             doseSchedules with
  | Some schedule =>
      if DoseSchedule.quantity schedule =? 0 then 1 else DoseSchedule.quantity schedule
  | None => 1
  end.

(** Sample data in New York: local midnight of Sunday 2024-03-10, the day
    the clocks are set forward, and a rule for 02:30 of every day, three
    units. *)
Module SampleZone.

Definition springForwardDay : Z := JSDate.make 2024 3 10 5 0 0.
Definition winterDay : Z := JSDate.make 2024 1 10 5 0 0.

Definition rule_0230 : DoseSchedule.t :=
  DoseSchedule.mk "s9" "p1" (TimeOfDay.mk 2 30 0) 3 [1; 2; 3; 4; 5; 6; 7] true.

End SampleZone.

(** A dose passes the two filters of the daily view, as the code tests
    it. *)
Definition passesFiltersb (st : DailyState) (dose : ScheduledDose.t) : bool :=
  (String.eqb (selectedPrescription st) "all"
   || String.eqb (Prescription.name (ScheduledDose.prescription dose))
                 (selectedPrescription st))
  && (String.eqb (statusFilter st) "all"
      || String.eqb (Status.to_string (ScheduledDose.status dose)) (statusFilter st)).

(* ===================================================================== *)
(** * Sanity checks of the date model *)
(* ===================================================================== *)

Example format_date_ex :
  JSDate.format_yyyy_MM_dd (JSDate.make 2024 1 10 8 0 0) = "2024-01-10"%string.
Proof. vm_compute. reflexivity. Qed.

Example format_time_ex :
  JSDate.format_HH_mm_ss (JSDate.make 2024 1 10 8 0 30) = "08:00:30"%string.
Proof. vm_compute. reflexivity. Qed.

(** 2024-01-14 was a Sunday, 2024-01-10 a Wednesday. *)
Example getDay_ex :
  JSDate.getDay (JSDate.make 2024 1 14 0 0 0) = 0
  /\ JSDate.getDay (JSDate.make 2024 1 10 23 59 59) = 3.
Proof. vm_compute. split; reflexivity. Qed.

Example parse_ex :
  DateText.parse "2024-01-10T08:15:20" = Some (JSDate.make 2024 1 10 8 15 20)
  /\ DateText.parse "2024-01-10T08:15" = Some (JSDate.make 2024 1 10 8 15 0)
  /\ DateText.parse "yesterday" = None.
Proof. vm_compute. repeat split; reflexivity. Qed.

Lemma Status_eqb_eq (a b : Status.t) : Status.eqb a b = true <-> a = b.
Proof. destruct a, b; simpl; split; intros H; congruence. Qed.

(* ===================================================================== *)
(** * Facts about dates *)
(* ===================================================================== *)

Section DateFacts.
Import JSDate.

Lemma msOfDay_range (d : t) : 0 <= msOfDay d < msPerDay.
Proof. unfold msOfDay, msPerDay. apply Z.mod_pos_bound. lia. Qed.

Lemma getDay_range (d : t) : 0 <= getDay d <= 6.
Proof.
  unfold getDay.
  pose proof (Z.mod_pos_bound (dayNumber d + 4) 7 ltac:(lia)). lia.
Qed.

(** The time of day [h:m:00.000] written onto the day of [d]. *)
Lemma setHours_split (d : t) (h m : Z) :
  0 <= h < 24 -> 0 <= m < 60 ->
  dayNumber (setHours d h m 0 0) = dayNumber d
  /\ msOfDay (setHours d h m 0 0) = h * msPerHour + m * msPerMinute.
Proof.
  intros Hh Hm. unfold setHours, msOfDay, dayNumber, msPerDay, msPerHour,
    msPerMinute, msPerSecond.
  generalize (d / 86400000). intros q.
  split.
  - symmetry. apply Z.div_unique with (r := h * 3600000 + m * 60000); lia.
  - symmetry. apply Z.mod_unique with (q := q); lia.
Qed.

Lemma setHours_components (d : t) (h m : Z) :
  0 <= h < 24 -> 0 <= m < 60 ->
  getHours (setHours d h m 0 0) = h
  /\ getMinutes (setHours d h m 0 0) = m
  /\ getSeconds (setHours d h m 0 0) = 0
  /\ getMilliseconds (setHours d h m 0 0) = 0.
Proof.
  intros Hh Hm.
  destruct (setHours_split d h m Hh Hm) as [_ Hms].
  unfold getHours, getMinutes, getSeconds, getMilliseconds.
  rewrite Hms. unfold msPerHour, msPerMinute, msPerSecond.
  repeat split.
  - symmetry. apply Z.div_unique with (r := m * 60000); lia.
  - replace ((h * 3600000 + m * 60000) / 60000) with (h * 60 + m)
      by (apply Z.div_unique with (r := 0); lia).
    symmetry. apply Z.mod_unique with (q := h); lia.
  - replace ((h * 3600000 + m * 60000) / 1000) with (h * 3600 + m * 60)
      by (apply Z.div_unique with (r := 0); lia).
    symmetry. apply Z.mod_unique with (q := h * 60 + m); lia.
  - symmetry. apply Z.mod_unique with (q := h * 3600 + m * 60); lia.
Qed.

(** Dates of the same day have the same [yyyy-MM-dd] text. *)
Lemma format_date_same_day (a b : t) :
  dayNumber a = dayNumber b -> format_yyyy_MM_dd a = format_yyyy_MM_dd b.
Proof.
  intros H. unfold format_yyyy_MM_dd, getFullYear, getMonth1, getDate.
  now rewrite H.
Qed.

Lemma getDay_same_day (a b : t) : dayNumber a = dayNumber b -> getDay a = getDay b.
Proof. intros H. unfold getDay. now rewrite H. Qed.

End DateFacts.

(** The code's remapping of [getDay] is the weekday in the convention of the
    rules. *)
Lemma dayOfWeek_isoWeekday (date : JSDate.t) : dayOfWeek date = isoWeekday date.
Proof.
  unfold dayOfWeek, isoWeekday, JSDate.getDay.
  set (n := JSDate.dayNumber date).
  destruct ((n + 4) mod 7 =? 0) eqn:E.
  - apply Z.eqb_eq in E. Z.to_euclidean_division_equations. lia.
  - apply Z.eqb_neq in E. Z.to_euclidean_division_equations. lia.
Qed.

Lemma dayOfWeek_range (date : JSDate.t) : 1 <= dayOfWeek date <= 7.
Proof.
  unfold dayOfWeek. pose proof (getDay_range date).
  destruct (JSDate.getDay date =? 0) eqn:E; [lia|].
  apply Z.eqb_neq in E. lia.
Qed.

(* ===================================================================== *)
(** * Facts about arrays *)
(* ===================================================================== *)

Section ArraySortFacts.
Context {A : Type} (compare : A -> A -> Z).

Lemma sort_insert_perm (x : A) (l : list A) :
  Permutation (sort_insert compare x l) (x :: l).
Proof.
  induction l as [|y l IH]; simpl.
  - reflexivity.
  - destruct (compare x y <=? 0).
    + reflexivity.
    + rewrite IH. apply perm_swap.
Qed.

Lemma Array_sort_perm (l : list A) : Permutation (Array_sort compare l) l.
Proof.
  induction l as [|x l IH]; simpl.
  - constructor.
  - rewrite sort_insert_perm. now constructor.
Qed.

Lemma Array_sort_In (l : list A) (x : A) : In x (Array_sort compare l) <-> In x l.
Proof.
  split; apply Permutation_in; [|symmetry]; apply Array_sort_perm.
Qed.

Lemma Array_sort_length (l : list A) :
  List.length (Array_sort compare l) = List.length l.
Proof. apply Permutation_length, Array_sort_perm. Qed.

End ArraySortFacts.

(** Sorting dates by [a.getTime() - b.getTime()] yields an ascending
    array. *)
Lemma sort_insert_sorted (x : Z) (l : list Z) :
  Sorted Z.le l -> Sorted Z.le (sort_insert (fun a b => a - b) x l).
Proof.
  induction l as [|y l IH]; simpl; intros Hs.
  - repeat constructor.
  - destruct (x - y <=? 0) eqn:E.
    + apply Z.leb_le in E. constructor; [assumption|]. constructor. lia.
    + apply Z.leb_gt in E. inversion Hs as [|? ? Hs' Hhd]; subst.
      constructor; [now apply IH|].
      destruct l as [|z l]; simpl.
      * constructor. lia.
      * destruct (x - z <=? 0); constructor; [lia|].
        inversion Hhd; subst. assumption.
Qed.

Lemma Array_sort_sorted (l : list Z) : Sorted Z.le (Array_sort (fun a b => a - b) l).
Proof.
  induction l as [|x l IH]; simpl.
  - constructor.
  - now apply sort_insert_sorted.
Qed.

Lemma includes_In (l : list Z) (x : Z) : includes l x = true <-> In x l.
Proof.
  unfold includes. rewrite existsb_exists. split.
  - intros [y [Hy E]]. apply Z.eqb_eq in E. now subst.
  - intros H. exists x. split; [assumption|apply Z.eqb_refl].
Qed.

(* ===================================================================== *)
(** * The schedule expander *)
(* ===================================================================== *)

Lemma scheduleApplies_iff (date : JSDate.t) (rule : DoseSchedule.t) :
  scheduleApplies date rule = true <->
  DoseSchedule.is_active rule = true
  /\ In (isoWeekday date) (DoseSchedule.days_of_week rule).
Proof.
  unfold scheduleApplies.
  now rewrite andb_true_iff, includes_In, dayOfWeek_isoWeekday.
Qed.

Lemma generateScheduledTimes_In (schedules : list DoseSchedule.t) (date t : JSDate.t) :
  In t (generateScheduledTimes schedules date) <->
  exists rule, In rule schedules /\ scheduleApplies date rule = true
               /\ t = scheduledTimeOf date rule.
Proof.
  unfold generateScheduledTimes.
  rewrite Array_sort_In, in_map_iff.
  split.
  - intros [rule [E Hin]]. apply filter_In in Hin as [Hin Happ]. eauto.
  - intros [rule [Hin [Happ E]]]. exists rule. split; [easy|].
    apply filter_In. auto.
Qed.

Lemma generateScheduledTimes_sorted (schedules : list DoseSchedule.t) (date : JSDate.t) :
  Sorted Z.le (generateScheduledTimes schedules date).
Proof. apply Array_sort_sorted. Qed.

Lemma isoWeekday_sunday (date : JSDate.t) :
  JSDate.getDay date = 0 <-> isoWeekday date = 7.
Proof.
  rewrite <- dayOfWeek_isoWeekday. unfold dayOfWeek.
  pose proof (getDay_range date).
  destruct (JSDate.getDay date =? 0) eqn:E.
  - apply Z.eqb_eq in E. tauto.
  - apply Z.eqb_neq in E. split; intros; lia.
Qed.

(** C3.  A rule contributes a dose instant for a date exactly when it is
    active and the weekday of the date, in the 1 = Monday .. 7 = Sunday
    convention, is in its weekday set: the instants produced are, up to
    their order, the instants of exactly these rules, one for each.  A
    Sunday has weekday 7, so an active rule whose set contains 7 produces
    its instant on a Sunday. *)
Theorem expander_rule_contributes_iff (schedules : list DoseSchedule.t) (date : JSDate.t) :
  (forall rule,
     scheduleApplies date rule = true <->
     DoseSchedule.is_active rule = true
     /\ In (isoWeekday date) (DoseSchedule.days_of_week rule))
  /\ Permutation (generateScheduledTimes schedules date)
       (map (scheduledTimeOf date) (List.filter (scheduleApplies date) schedules))
  /\ (forall t,
        In t (generateScheduledTimes schedules date) <->
        exists rule,
          In rule schedules
          /\ DoseSchedule.is_active rule = true
          /\ In (isoWeekday date) (DoseSchedule.days_of_week rule)
          /\ t = scheduledTimeOf date rule)
  /\ (JSDate.getDay date = 0 <-> isoWeekday date = 7)
  /\ (forall rule,
        JSDate.getDay date = 0 ->
        In rule schedules ->
        DoseSchedule.is_active rule = true ->
        In 7 (DoseSchedule.days_of_week rule) ->
        In (scheduledTimeOf date rule) (generateScheduledTimes schedules date)).
Proof.
  split; [intros rule; apply scheduleApplies_iff|].
  split; [apply Array_sort_perm|].
  split.
  { intros t. rewrite generateScheduledTimes_In.
    split; intros [rule [Hin H]]; exists rule; split; try assumption.
    - destruct H as [Happ E]. apply scheduleApplies_iff in Happ. tauto.
    - destruct H as [Hact [Hday E]]. split; [|assumption].
      apply scheduleApplies_iff. tauto. }
  split; [apply isoWeekday_sunday|].
  intros rule Hsun Hin Hact H7.
  apply generateScheduledTimes_In. exists rule.
  split; [assumption|]. split; [|reflexivity].
  apply scheduleApplies_iff. split; [assumption|].
  apply isoWeekday_sunday in Hsun. now rewrite Hsun.
Qed.

(** A rule for Sundays only produces its instant on Sunday 2024-01-14 and
    nothing on Wednesday 2024-01-10; an inactive rule produces nothing. *)
Example sunday_rule_example :
  generateScheduledTimes [Sample.rule_sunday] (JSDate.make 2024 1 14 0 0 0)
    = [JSDate.make 2024 1 14 21 30 0]
  /\ generateScheduledTimes [Sample.rule_sunday] Sample.day = []
  /\ generateScheduledTimes
       [DoseSchedule.mk "s" "p1" (TimeOfDay.mk 21 30 0) 1 [7] false]
       (JSDate.make 2024 1 14 0 0 0) = [].
Proof. vm_compute. repeat split; reflexivity. Qed.


(** ** The instant in a zone with transitions *)

Lemma scheduledTimeOfIn_eq (zone : TimeZone.t) (date : Z) (rule : DoseSchedule.t) :
  scheduledTimeOfIn zone date rule = TimeZone.UTC zone (wallClockOf zone date rule).
Proof. reflexivity. Qed.

Lemma generateScheduledTimesIn_In (zone : TimeZone.t) (schedules : list DoseSchedule.t)
    (date t : Z) :
  In t (generateScheduledTimesIn zone schedules date) <->
  exists rule, In rule schedules /\ scheduleAppliesIn zone date rule = true
               /\ t = scheduledTimeOfIn zone date rule.
Proof.
  unfold generateScheduledTimesIn.
  rewrite Array_sort_In, in_map_iff.
  split.
  - intros [rule [E Hin]]. apply filter_In in Hin as [Hin Happ]. eauto.
  - intros [rule [Hin [Happ E]]]. exists rule. split; [easy|].
    apply filter_In. auto.
Qed.

(** A local time value that is a whole minute has seconds and milliseconds
    0. *)
Lemma whole_minute_seconds (x : JSDate.t) :
  x mod 60000 = 0 -> JSDate.getSeconds x = 0 /\ JSDate.getMilliseconds x = 0.
Proof.
  intros H. unfold JSDate.getSeconds, JSDate.getMilliseconds, JSDate.msOfDay,
    JSDate.msPerDay, JSDate.msPerSecond.
  assert (Hm : (x mod 86400000) mod 60000 = 0).
  { rewrite <- (Z.mod_mod_divide x 86400000 60000) in H; [exact H|].
    exists 1440. reflexivity. }
  split; Z.to_euclidean_division_equations; lia.
Qed.

(** In a zone of whole-minute offsets the local time of an instant of the
    expander is a whole minute. *)
Lemma zoned_instant_whole_minute (zone : TimeZone.t) (date : Z) (rule : DoseSchedule.t) :
  TimeZone.wholeMinutes zone ->
  TimeZone.LocalTime zone (scheduledTimeOfIn zone date rule) mod 60000 = 0.
Proof.
  intros Hz. rewrite scheduledTimeOfIn_eq.
  set (w := wallClockOf zone date rule).
  assert (Hw : w mod 60000 = 0).
  { unfold w, wallClockOf, scheduledTimeOf, JSDate.setHours, JSDate.msPerDay,
      JSDate.msPerHour, JSDate.msPerMinute, JSDate.msPerSecond. cbv zeta.
    Z.to_euclidean_division_equations; lia. }
  unfold TimeZone.LocalTime, TimeZone.UTC.
  destruct (Hz w) as [_ H1].
  destruct (Hz (w - TimeZone.offsetOfLocal zone w)) as [H2 _].
  unfold JSDate.msPerMinute in H1, H2.
  Z.to_euclidean_division_equations; lia.
Qed.

Lemma sort_insert_shift (c x : Z) (l : list Z) :
  sort_insert (fun a b => a - b) (x + c) (map (fun t => t + c) l)
  = map (fun t => t + c) (sort_insert (fun a b => a - b) x l).
Proof.
  induction l as [|y l IH]; simpl; [reflexivity|].
  replace (x + c - (y + c)) with (x - y) by lia.
  destruct (x - y <=? 0); simpl; [reflexivity|]. now rewrite IH.
Qed.

Lemma Array_sort_shift (c : Z) (l : list Z) :
  Array_sort (fun a b => a - b) (map (fun t => t + c) l)
  = map (fun t => t + c) (Array_sort (fun a b => a - b) l).
Proof.
  induction l as [|x l IH]; simpl; [reflexivity|].
  now rewrite IH, sort_insert_shift.
Qed.

(** In a zone without transitions every local time is shown by the clocks,
    and the expander on time values is the expander on local time values,
    moved by the offset. *)
Lemma fixed_zone_wallClockExists (offset : Z) (local : JSDate.t) :
  TimeZone.wallClockExists (TimeZone.fixed offset) local.
Proof. unfold TimeZone.wallClockExists, TimeZone.LocalTime, TimeZone.UTC. simpl. lia. Qed.

Lemma fixed_zone_expander (offset : Z) (schedules : list DoseSchedule.t) (date : Z) :
  generateScheduledTimesIn (TimeZone.fixed offset) schedules date
  = map (fun local => local + - offset) (generateScheduledTimes schedules (date + offset)).
Proof.
  unfold generateScheduledTimesIn, generateScheduledTimes.
  rewrite <- Array_sort_shift, map_map. reflexivity.
Qed.

Lemma newYork2024_wholeMinutes : TimeZone.wholeMinutes TimeZone.newYork2024.
Proof.
  intros x. unfold TimeZone.newYork2024. cbn [TimeZone.offsetAt TimeZone.offsetOfLocal].
  split.
  - destruct (x <? JSDate.make 2024 3 10 7 0 0); [reflexivity|].
    destruct (x <? JSDate.make 2024 11 3 6 0 0); reflexivity.
  - destruct (x <? JSDate.make 2024 3 10 3 0 0); [reflexivity|].
    destruct (x <? JSDate.make 2024 11 3 2 0 0); reflexivity.
Qed.



(** The 08:00 rule in New York on 2024-01-10: the clocks show 08:00 and the
    instant is 13:00 UTC.  The 02:30 rule on 2024-03-10, when the clocks go
    from 02:00 to 03:00: no clock shows 02:30, and the instant is 03:30
    local time, 07:30 UTC. *)
Example skipped_time_moves_forward :
  let zone := TimeZone.newYork2024 in
  (TimeZone.wallClockExists zone (wallClockOf zone SampleZone.winterDay Sample.rule_0800)
   /\ generateScheduledTimesIn zone [Sample.rule_0800] SampleZone.winterDay
      = [JSDate.make 2024 1 10 13 0 0])
  /\ ~ TimeZone.wallClockExists zone
         (wallClockOf zone SampleZone.springForwardDay SampleZone.rule_0230)
  /\ generateScheduledTimesIn zone [SampleZone.rule_0230] SampleZone.springForwardDay
     = [JSDate.make 2024 3 10 7 30 0]
  /\ ZonedDate.format_HH_mm_ss zone
       (scheduledTimeOfIn zone SampleZone.springForwardDay SampleZone.rule_0230)
     = "03:30:00"%string.
Proof.
  cbv zeta. split; [split; vm_compute; reflexivity|].
  split; [intros H; vm_compute in H; discriminate|].
  split; vm_compute; reflexivity.
Qed.

(* ===================================================================== *)
(** * Reconciliation *)
(* ===================================================================== *)

Section FindFacts.
Context {A : Type} (P : A -> bool).

Lemma find_first (before after : list A) (x : A) :
  (forall y, In y before -> P y = false) -> P x = true ->
  find P (before ++ x :: after) = Some x.
Proof.
  intros Hb Hx. induction before as [|y before IH]; simpl.
  - now rewrite Hx.
  - rewrite (Hb y) by (simpl; auto). apply IH. intros z Hz. apply Hb. simpl. auto.
Qed.

Lemma find_is_Some (l : list A) :
  (exists x, In x l /\ P x = true) -> exists y, find P l = Some y.
Proof.
  intros [x [Hin Hx]]. destruct (find P l) as [y|] eqn:E; [eauto|].
  pose proof (find_none P l E x Hin). congruence.
Qed.

Lemma find_is_None (l : list A) :
  (forall x, In x l -> P x = false) -> find P l = None.
Proof.
  intros H. destruct (find P l) as [y|] eqn:E; [|reflexivity].
  apply find_some in E as [Hin Hy]. rewrite (H y Hin) in Hy. discriminate.
Qed.

End FindFacts.

Lemma historyMatches_iff (prescription : Prescription.t) (date scheduledTime : JSDate.t)
    (h : MedicationHistory.t) :
  historyMatches prescription date scheduledTime h = true <->
  MedicationHistory.prescription_id h = Prescription.id prescription
  /\ MedicationHistory.scheduled_date h = JSDate.format_yyyy_MM_dd date
  /\ MedicationHistory.scheduled_time h = JSDate.format_HH_mm_ss scheduledTime.
Proof.
  unfold historyMatches. rewrite !andb_true_iff, !String.eqb_eq. tauto.
Qed.

Lemma logMatches_iff (scheduledTime : JSDate.t) (l : MedicationLog.t) :
  logMatches scheduledTime l = true <-> withinTolerance scheduledTime l.
Proof.
  unfold logMatches, withinTolerance, JSDate.msPerSecond.
  destruct (MedicationLog.scheduled_time l) as [logTime|].
  - rewrite Z.ltb_lt. split.
    + intros H. exists logTime. split; [reflexivity|assumption].
    + intros [t [E H]]. injection E as <-. assumption.
  - split; [discriminate|]. intros [t [E _]]. discriminate.
Qed.

(** The three fields of a reconciled dose that depend on the events. *)
Lemma reconcile_historyEntry prescription prescriptionSchedules history logs
    now date scheduledTime :
  ScheduledDose.historyEntry
    (reconcile prescription prescriptionSchedules history logs now date scheduledTime)
  = find (historyMatches prescription date scheduledTime) history.
Proof.
  unfold reconcile.
  destruct (find (historyMatches prescription date scheduledTime) history);
    [reflexivity|].
  destruct (find (logMatches scheduledTime) logs); [reflexivity|].
  destruct (scheduledTime <? now); reflexivity.
Qed.

Lemma reconcile_linked prescription prescriptionSchedules history logs
    now date scheduledTime h :
  find (historyMatches prescription date scheduledTime) history = Some h ->
  reconcile prescription prescriptionSchedules history logs now date scheduledTime
  = ScheduledDose.mk prescription scheduledTime
      (quantityFor prescriptionSchedules scheduledTime) Status.taken None (Some h).
Proof. intros E. unfold reconcile. now rewrite E. Qed.

Lemma reconcile_unlinked prescription prescriptionSchedules history logs
    now date scheduledTime :
  find (historyMatches prescription date scheduledTime) history = None ->
  reconcile prescription prescriptionSchedules history logs now date scheduledTime
  = ScheduledDose.mk prescription scheduledTime
      (quantityFor prescriptionSchedules scheduledTime)
      (match find (logMatches scheduledTime) logs with
       | Some l => MedicationLog.status l
       | None => Status.pending
       end)
      (find (logMatches scheduledTime) logs) None.
Proof.
  intros E. unfold reconcile. rewrite E.
  destruct (find (logMatches scheduledTime) logs); [reflexivity|].
  destruct (scheduledTime <? now); reflexivity.
Qed.

(** An instant the expander produces from well-formed rules lies on the
    target date. *)
Lemma generated_instant_same_day (schedules : list DoseSchedule.t)
    (date scheduledTime : JSDate.t) :
  Forall (fun ds => TimeOfDay.valid (DoseSchedule.dose_time ds)) schedules ->
  In scheduledTime (generateScheduledTimes schedules date) ->
  JSDate.dayNumber scheduledTime = JSDate.dayNumber date.
Proof.
  intros Hvalid Hin.
  apply generateScheduledTimes_In in Hin as [rule [Hrule [_ ->]]].
  rewrite List.Forall_forall in Hvalid. destruct (Hvalid rule Hrule) as (Hh & Hm & _).
  now apply setHours_split.
Qed.

(** The history events reconciliation is given for a dose are those of the
    prescription of the dose; among the events of all the prescriptions of
    the user, which the daily view loads, it looks at these alone.  An event
    of another prescription that records the date and the time of day of
    the instant links nothing. *)
Lemma other_prescription_history_ignored :
  let dose :=
    reconcile Sample.aspirin [Sample.rule_0800] [Sample.ibuprofen_taken] []
      Sample.evening Sample.day Sample.at_0800 in
  In Sample.at_0800 (generateScheduledTimes [Sample.rule_0800] Sample.day)
  /\ In Sample.ibuprofen_taken [Sample.ibuprofen_taken]
  /\ recordsInstant Sample.at_0800 Sample.ibuprofen_taken
  /\ ~ (ScheduledDose.status dose = Status.taken
        /\ exists h, ScheduledDose.historyEntry dose = Some h).
Proof.
  cbv zeta. split; [vm_compute; auto|]. split; [simpl; auto|].
  split; [split; vm_compute; reflexivity|].
  intros [H _]. vm_compute in H. discriminate.
Qed.

(** C1.  For an instant the expander produced for a date, the dose is taken
    and linked to a history event exactly when some history event of the
    instant's prescription records the instant's calendar date and time of
    day in its scheduled fields; the linked event is such an event, and
    when one exists the status is taken whatever the log events are.  The
    actual-taken timestamp plays no part.  Given the history events of its
    prescription, as the specification has it, the dose is taken and linked
    exactly when some history event records the instant's date and time of
    day. *)
Theorem history_match_decides_taken (prescription : Prescription.t)
    (prescriptionSchedules : list DoseSchedule.t)
    (history : list MedicationHistory.t) (logs : list MedicationLog.t)
    (now date scheduledTime : JSDate.t) :
  Forall (fun ds => TimeOfDay.valid (DoseSchedule.dose_time ds)) prescriptionSchedules ->
  In scheduledTime (generateScheduledTimes prescriptionSchedules date) ->
  let dose :=
    reconcile prescription prescriptionSchedules history logs now date scheduledTime in
  let matching h :=
    In h history
    /\ MedicationHistory.prescription_id h = Prescription.id prescription
    /\ recordsInstant scheduledTime h in
  ((ScheduledDose.status dose = Status.taken
    /\ exists h, ScheduledDose.historyEntry dose = Some h)
   <-> exists h, matching h)
  /\ (forall h, ScheduledDose.historyEntry dose = Some h -> matching h)
  /\ ((exists h, matching h) ->
      ScheduledDose.status dose = Status.taken /\ ScheduledDose.log dose = None)
  /\ ((forall h, In h history ->
         MedicationHistory.prescription_id h = Prescription.id prescription) ->
      ((ScheduledDose.status dose = Status.taken
        /\ exists h, ScheduledDose.historyEntry dose = Some h)
       <-> exists h, In h history /\ recordsInstant scheduledTime h)).
Proof.
  intros Hvalid Hgen dose matching.
  pose proof (generated_instant_same_day _ _ _ Hvalid Hgen) as Hday.
  apply format_date_same_day in Hday.
  assert (Hm : forall h, In h history ->
             (historyMatches prescription date scheduledTime h = true <->
              MedicationHistory.prescription_id h = Prescription.id prescription
              /\ recordsInstant scheduledTime h)).
  { intros h _. rewrite historyMatches_iff. unfold recordsInstant.
    rewrite Hday. tauto. }
  assert (Hlinked : forall h, ScheduledDose.historyEntry dose = Some h -> matching h).
  { intros h E. unfold dose in E. rewrite reconcile_historyEntry in E.
    apply find_some in E as [Hin Hh]. split; [assumption|]. now apply Hm. }
  assert (Htaken : (exists h, matching h) ->
            ScheduledDose.status dose = Status.taken /\ ScheduledDose.log dose = None
            /\ exists h, ScheduledDose.historyEntry dose = Some h).
  { intros [h [Hin Hh]].
    destruct (find_is_Some (historyMatches prescription date scheduledTime) history)
      as [h' E].
    { exists h. split; [assumption|]. now apply Hm. }
    unfold dose. rewrite (reconcile_linked _ _ _ _ _ _ _ _ E). simpl. eauto. }
  split; [split|split; [|split]].
  - intros [_ [h E]]. exists h. now apply Hlinked.
  - intros H. destruct (Htaken H) as (Hs & _ & Hh). now split.
  - exact Hlinked.
  - intros H. destruct (Htaken H) as (Hs & Hl & _). now split.
  - intros Hown. split.
    + intros [_ [h E]]. exists h. destruct (Hlinked h E) as (Hin & _ & Hr). now split.
    + intros [h [Hin Hr]].
      assert (H : exists h, matching h).
      { exists h. split; [assumption|]. split; [now apply Hown|assumption]. }
      destruct (Htaken H) as (Hs & _ & Hh). now split.
Qed.

Lemma history_match_decides_taken_witness :
  let dose :=
    reconcile Sample.aspirin [Sample.rule_0800]
      [Sample.ibuprofen_taken; Sample.aspirin_taken] [Sample.log_30s]
      Sample.evening Sample.day Sample.at_0800 in
  ScheduledDose.status dose = Status.taken /\ ScheduledDose.log dose = None.
Proof.
  apply (history_match_decides_taken Sample.aspirin [Sample.rule_0800]
           [Sample.ibuprofen_taken; Sample.aspirin_taken] [Sample.log_30s]
           Sample.evening Sample.day Sample.at_0800).
  - repeat constructor; simpl; lia.
  - vm_compute. auto.
  - exists Sample.aspirin_taken. split; [simpl; auto|].
    split; [reflexivity|]. split; vm_compute; reflexivity.
Defined.

(** The examples of the specification for the history rule. *)
Example history_match_example :
  ScheduledDose.status
    (reconcile Sample.aspirin [Sample.rule_0800] [Sample.aspirin_taken]
       [Sample.logAt "l" "p1" Sample.at_0800 Status.missed]
       Sample.evening Sample.day Sample.at_0800) = Status.taken.
Proof. vm_compute. reflexivity. Qed.

Lemma getTodaysDoses_log (doseSchedules : list DoseSchedule.t)
    (logs : list MedicationLog.t) (today : JSDate.t) (d : TodaysDose.t) :
  In d (getTodaysDoses doseSchedules logs today) ->
  In (TodaysDose.time d) (generateScheduledTimes doseSchedules today)
  /\ TodaysDose.log d = find (logMatches (TodaysDose.time d)) logs
  /\ TodaysDose.status d =
       match TodaysDose.log d with
       | Some l => MedicationLog.status l
       | None => Status.pending
       end.
Proof.
  unfold getTodaysDoses. rewrite in_map_iff. intros [time [<- Hin]]. simpl. auto.
Qed.

(** C2.  Let no history event of the prescription record the instant.  If
    some log event has its scheduled timestamp within the tolerance (less
    than 60 seconds away), the dose carries such a log event, the first one
    of the collection, and its stored status.  If no log event is within
    the tolerance, the status is pending, wherever the instant lies with
    respect to the present moment [now]: a past instant is not turned into
    a missed one.  The doses of a prescription card take their status from
    the log events in the same way. *)
Theorem log_within_tolerance_gives_status (prescription : Prescription.t)
    (prescriptionSchedules : list DoseSchedule.t)
    (history : list MedicationHistory.t) (logs : list MedicationLog.t)
    (now date scheduledTime : JSDate.t) :
  Forall (fun ds => TimeOfDay.valid (DoseSchedule.dose_time ds)) prescriptionSchedules ->
  In scheduledTime (generateScheduledTimes prescriptionSchedules date) ->
  (forall h, In h history ->
             MedicationHistory.prescription_id h = Prescription.id prescription ->
             ~ recordsInstant scheduledTime h) ->
  let dose :=
    reconcile prescription prescriptionSchedules history logs now date scheduledTime in
  ((exists l, In l logs /\ withinTolerance scheduledTime l) ->
   exists l, In l logs /\ withinTolerance scheduledTime l
             /\ ScheduledDose.log dose = Some l
             /\ ScheduledDose.status dose = MedicationLog.status l)
  /\ ((forall l, In l logs -> ~ withinTolerance scheduledTime l) ->
      ScheduledDose.status dose = Status.pending /\ ScheduledDose.log dose = None)
  /\ ScheduledDose.log dose = find (logMatches scheduledTime) logs
  /\ ScheduledDose.historyEntry dose = None
  /\ (forall d, In d (getTodaysDoses prescriptionSchedules logs date) ->
        ((exists l, In l logs /\ withinTolerance (TodaysDose.time d) l) ->
         exists l, In l logs /\ withinTolerance (TodaysDose.time d) l
                   /\ TodaysDose.log d = Some l
                   /\ TodaysDose.status d = MedicationLog.status l)
        /\ ((forall l, In l logs -> ~ withinTolerance (TodaysDose.time d) l) ->
            TodaysDose.status d = Status.pending)).
Proof.
  intros Hvalid Hgen Hnone dose.
  pose proof (generated_instant_same_day _ _ _ Hvalid Hgen) as Hday.
  apply format_date_same_day in Hday.
  assert (E : find (historyMatches prescription date scheduledTime) history = None).
  { apply find_is_None. intros h Hin.
    destruct (historyMatches prescription date scheduledTime h) eqn:Hh; [|reflexivity].
    apply historyMatches_iff in Hh as (Hp & Hd & Ht).
    exfalso. apply (Hnone h Hin Hp). split; [now rewrite Hday|assumption]. }
  unfold dose. rewrite (reconcile_unlinked _ _ _ _ _ _ _ E). simpl.
  split; [|split; [|split; [reflexivity|split; [reflexivity|]]]].
  - intros Hex.
    destruct (find_is_Some (logMatches scheduledTime) logs) as [l El].
    { destruct Hex as [l [Hin Hl]]. exists l. now rewrite logMatches_iff. }
    rewrite El. apply find_some in El as [Hin Hl]. apply logMatches_iff in Hl.
    exists l. auto.
  - intros Hall. rewrite find_is_None; [auto|].
    intros l Hin. destruct (logMatches scheduledTime l) eqn:Hl; [|reflexivity].
    apply logMatches_iff in Hl. now destruct (Hall l Hin).
  - intros d Hd. apply getTodaysDoses_log in Hd as (_ & Hlog & Hstatus).
    rewrite Hstatus, Hlog. split.
    + intros Hex.
      destruct (find_is_Some (logMatches (TodaysDose.time d)) logs) as [l El].
      { destruct Hex as [l [Hin Hl]]. exists l. now rewrite logMatches_iff. }
      rewrite El. apply find_some in El as [Hin Hl]. apply logMatches_iff in Hl.
      exists l. auto.
    + intros Hall. rewrite find_is_None; [reflexivity|].
      intros l Hin. destruct (logMatches (TodaysDose.time d) l) eqn:Hl; [|reflexivity].
      apply logMatches_iff in Hl. now destruct (Hall l Hin).
Qed.

Lemma log_within_tolerance_gives_status_witness :
  let dose :=
    reconcile Sample.aspirin [Sample.rule_0800] [Sample.ibuprofen_taken]
      [Sample.log_5min; Sample.log_60s] Sample.evening Sample.day Sample.at_0800 in
  ScheduledDose.status dose = Status.pending /\ ScheduledDose.log dose = None.
Proof.
  apply (log_within_tolerance_gives_status Sample.aspirin [Sample.rule_0800]
           [Sample.ibuprofen_taken] [Sample.log_5min; Sample.log_60s]
           Sample.evening Sample.day Sample.at_0800).
  - repeat constructor; simpl; lia.
  - vm_compute. auto.
  - intros h [<-|[]] Hp. vm_compute in Hp. discriminate.
  - intros l [<-|[<-|[]]] [t [E H]]; injection E as <-; vm_compute in H; discriminate.
Defined.

(** The examples of the specification for the log rule: a log event 30
    seconds after the instant gives its status to the dose, one 5 minutes
    away leaves it pending; so does one exactly 60 seconds away. *)
Example log_tolerance_examples :
  let statusWith logs :=
    ScheduledDose.status
      (reconcile Sample.aspirin [Sample.rule_0800] [] logs
         Sample.evening Sample.day Sample.at_0800) in
  statusWith [Sample.log_30s] = Status.skipped
  /\ statusWith [Sample.log_5min] = Status.pending
  /\ statusWith [Sample.log_60s] = Status.pending
  /\ statusWith [] = Status.pending
  /\ Sample.at_0800 < Sample.evening.
Proof. vm_compute. repeat split; reflexivity. Qed.

(** C5, as stated, fails: two history events of the prescription record the
    same instant; the dose links the first one and is the very dose computed
    from the first one alone, so the second match is reported nowhere. *)
Lemma duplicate_history_silently_dropped :
  let reconcileWith history :=
    reconcile Sample.aspirin [Sample.rule_0800] history []
      Sample.evening Sample.day Sample.at_0800 in
  historyMatches Sample.aspirin Sample.day Sample.at_0800 Sample.aspirin_taken = true
  /\ historyMatches Sample.aspirin Sample.day Sample.at_0800 Sample.aspirin_taken_again = true
  /\ Sample.aspirin_taken <> Sample.aspirin_taken_again
  /\ ScheduledDose.historyEntry
       (reconcileWith [Sample.aspirin_taken; Sample.aspirin_taken_again])
     = Some Sample.aspirin_taken
  /\ reconcileWith [Sample.aspirin_taken; Sample.aspirin_taken_again]
     = reconcileWith [Sample.aspirin_taken].
Proof.
  cbv zeta. repeat split; try (vm_compute; reflexivity).
  intros H. vm_compute in H. discriminate.
Qed.

(** C5, amended.  When several history events match a dose instant, the
    dose links the first match of the collection with status taken; the
    history events after it do not enter the result, and nothing signals
    that there were several. *)
Theorem first_history_match_linked (prescription : Prescription.t)
    (prescriptionSchedules : list DoseSchedule.t)
    (before after : list MedicationHistory.t) (h : MedicationHistory.t)
    (logs : list MedicationLog.t) (now date scheduledTime : JSDate.t) :
  (forall x, In x before -> historyMatches prescription date scheduledTime x = false) ->
  historyMatches prescription date scheduledTime h = true ->
  let dose :=
    reconcile prescription prescriptionSchedules (before ++ h :: after) logs
      now date scheduledTime in
  ScheduledDose.historyEntry dose = Some h
  /\ ScheduledDose.status dose = Status.taken
  /\ dose = reconcile prescription prescriptionSchedules [h] logs now date scheduledTime.
Proof.
  intros Hbefore Hh dose.
  pose proof (find_first _ before after h Hbefore Hh) as E.
  unfold dose. rewrite (reconcile_linked _ _ _ _ _ _ _ _ E).
  rewrite (reconcile_linked _ _ [h] _ _ _ _ h) by (simpl; now rewrite Hh).
  auto.
Qed.

Lemma first_history_match_linked_witness :
  let dose :=
    reconcile Sample.aspirin [Sample.rule_0800]
      ([Sample.ibuprofen_taken] ++ Sample.aspirin_taken :: [Sample.aspirin_taken_again])
      [] Sample.evening Sample.day Sample.at_0800 in
  ScheduledDose.historyEntry dose = Some Sample.aspirin_taken
  /\ ScheduledDose.status dose = Status.taken
  /\ dose = reconcile Sample.aspirin [Sample.rule_0800] [Sample.aspirin_taken] []
              Sample.evening Sample.day Sample.at_0800.
Proof.
  apply (first_history_match_linked Sample.aspirin [Sample.rule_0800]
           [Sample.ibuprofen_taken] [Sample.aspirin_taken_again] Sample.aspirin_taken
           [] Sample.evening Sample.day Sample.at_0800).
  - intros x [<-|[]]. vm_compute. reflexivity.
  - vm_compute. reflexivity.
Defined.

(** C9.  The history event linked to a dose belongs to the prescription of
    the dose.  The log event of a dose without history event is the first
    one of the collection whose scheduled timestamp is within the tolerance
    of the instant, a test that reads nothing but that timestamp; and there
    is a snapshot in which the log event of another prescription gives the
    dose its status. *)
Theorem log_selected_by_time_alone :
  (forall prescription prescriptionSchedules history logs now date scheduledTime h,
     ScheduledDose.historyEntry
       (reconcile prescription prescriptionSchedules history logs now date scheduledTime)
     = Some h ->
     MedicationHistory.prescription_id h = Prescription.id prescription)
  /\ (forall prescription prescriptionSchedules history logs now date scheduledTime,
        let dose :=
          reconcile prescription prescriptionSchedules history logs now date scheduledTime in
        ScheduledDose.historyEntry dose = None ->
        ScheduledDose.log dose = find (logMatches scheduledTime) logs
        /\ forall l, ScheduledDose.log dose = Some l ->
                     ScheduledDose.status dose = MedicationLog.status l
                     /\ withinTolerance scheduledTime l)
  /\ (forall scheduledTime l l',
        MedicationLog.scheduled_time l = MedicationLog.scheduled_time l' ->
        logMatches scheduledTime l = logMatches scheduledTime l')
  /\ (let dose :=
        reconcile Sample.aspirin [Sample.rule_0800] []
          [Sample.log_ibuprofen_missed; Sample.log_aspirin_taken]
          Sample.evening Sample.day Sample.at_0800 in
      ScheduledDose.log dose = Some Sample.log_ibuprofen_missed
      /\ MedicationLog.prescription_id Sample.log_ibuprofen_missed
           <> Prescription.id (ScheduledDose.prescription dose)
      /\ ScheduledDose.status dose = Status.missed).
Proof.
  split; [|split; [|split]].
  - intros prescription prescriptionSchedules history logs now date scheduledTime h E.
    rewrite reconcile_historyEntry in E. apply find_some in E as [_ E].
    now apply historyMatches_iff in E.
  - intros prescription prescriptionSchedules history logs now date scheduledTime dose E.
    unfold dose in *. rewrite reconcile_historyEntry in E.
    rewrite (reconcile_unlinked _ _ _ _ _ _ _ E). simpl.
    split; [reflexivity|]. intros l El. rewrite El.
    apply find_some in El as [_ El]. apply logMatches_iff in El. auto.
  - intros scheduledTime l l' E. unfold logMatches. now rewrite E.
  - cbv zeta. split; [vm_compute; reflexivity|].
    split; [vm_compute; discriminate|vm_compute; reflexivity].
Qed.

(* ===================================================================== *)
(** * Timing classification *)
(* ===================================================================== *)

Lemma minutesBetween_eq (scheduled actual : JSDate.t) :
  minutesBetween scheduled actual = (((actual - scheduled) * 1) # 60000)%Q.
Proof. reflexivity. Qed.

(** Rounding the minutes between two dates, in integer arithmetic on the
    milliseconds. *)
Lemma offsetMinutes_eq (scheduled actual : JSDate.t) :
  offsetMinutes scheduled actual = (actual - scheduled + 30000) / 60000.
Proof.
  unfold offsetMinutes, Math_round. rewrite minutesBetween_eq.
  unfold Qplus, Qfloor. cbn [Qnum Qden].
  change (Z.pos (60000 * 2)) with (2 * 60000).
  replace ((actual - scheduled) * 1 * 2 + 1 * 60000)
    with (2 * (actual - scheduled + 30000)) by lia.
  apply Z.div_mul_cancel_l; lia.
Qed.

(** Comparing the unrounded minutes with a whole number of minutes. *)
Lemma minutes_le_iff (scheduled actual : JSDate.t) (k : Z) :
  Qle_bool (Qabs (minutesBetween scheduled actual)) (inject_Z k)
  = (Z.abs (actual - scheduled) <=? k * 60000).
Proof.
  rewrite minutesBetween_eq. unfold Qle_bool, Qabs, inject_Z. cbn [Qnum Qden].
  now rewrite !Z.mul_1_r.
Qed.

(** The daily view classifies the unrounded distance. *)
Lemma daily_color_bucket (scheduled actual : JSDate.t) :
  bucketOfColor (DailyPrescriptionsModal.getTimeDifferenceColor scheduled (Some actual))
  = Some (bucketOfMilliseconds (Z.abs (actual - scheduled))).
Proof.
  unfold DailyPrescriptionsModal.getTimeDifferenceColor, bucketOfMilliseconds.
  change 15%Q with (inject_Z 15). change 60%Q with (inject_Z 60).
  rewrite !minutes_le_iff.
  destruct (Z.abs (actual - scheduled) <=? 15 * 60000); [reflexivity|].
  destruct (Z.abs (actual - scheduled) <=? 60 * 60000); reflexivity.
Qed.

(** The history view classifies the rounded offset, as the timing
    classifier of the specification does. *)
Lemma history_color_bucket (scheduled scheduledTime : string)
    (scheduledDateTime actual : JSDate.t) :
  PrescriptionHistoryModal.scheduledDateTimeOf scheduled scheduledTime
    = Some scheduledDateTime ->
  bucketOfColor
    (PrescriptionHistoryModal.getTimeDifferenceColor scheduled scheduledTime (Some actual))
  = Some (bucketOf (offsetMinutes scheduledDateTime actual)).
Proof.
  intros E.
  unfold PrescriptionHistoryModal.getTimeDifferenceColor,
    PrescriptionHistoryModal.diffMinutesOf, bucketOf.
  rewrite E. fold (offsetMinutes scheduledDateTime actual).
  destruct (Z.abs (offsetMinutes scheduledDateTime actual) <=? 15); [reflexivity|].
  destruct (Z.abs (offsetMinutes scheduledDateTime actual) <=? 60); reflexivity.
Qed.

(** Where the two classifications part: the rounded offset is within a
    threshold that the unrounded distance exceeds by less than half a
    minute. *)
Lemma bucket_rounded_vs_unrounded (scheduled actual : JSDate.t) :
  bucketOf (offsetMinutes scheduled actual)
    = bucketOfMilliseconds (Z.abs (actual - scheduled))
  \/ 15 * 60000 < Z.abs (actual - scheduled) <= 15 * 60000 + 30000
  \/ 60 * 60000 < Z.abs (actual - scheduled) <= 60 * 60000 + 30000.
Proof.
  rewrite offsetMinutes_eq. unfold bucketOf, bucketOfMilliseconds.
  set (d := actual - scheduled).
  destruct (Z.abs ((d + 30000) / 60000) <=? 15) eqn:E1;
  destruct (Z.abs d <=? 15 * 60000) eqn:E2;
  destruct (Z.abs ((d + 30000) / 60000) <=? 60) eqn:E3;
  destruct (Z.abs d <=? 60 * 60000) eqn:E4; auto;
  repeat match goal with
         | H : (_ <=? _) = true |- _ => apply Z.leb_le in H
         | H : (_ <=? _) = false |- _ => apply Z.leb_gt in H
         end;
  Z.to_euclidean_division_equations; lia.
Qed.

(** C6 at the input 08:00:00 scheduled, 08:15:20 taken.  The offset is
    round(15.33) = 15 minutes, which the classifier puts in the on-time
    bucket, and so does the history view; the daily view compares the
    unrounded 15.33 minutes with 15 and shows a moderate deviation, next to
    the label "15 min late". *)
Theorem daily_color_skips_rounding :
  let scheduled := Sample.at_0800 in
  let actual := Sample.at_0815_20 in
  offsetMinutes scheduled actual = 15
  /\ bucketOf (offsetMinutes scheduled actual) = OnTime
  /\ DailyPrescriptionsModal.getTimeDifferenceColor scheduled (Some actual)
     = "text-yellow-600"%string
  /\ bucketOfColor (DailyPrescriptionsModal.getTimeDifferenceColor scheduled (Some actual))
     = Some ModerateDeviation
  /\ DailyPrescriptionsModal.getTimeDifference scheduled (Some actual)
     = "15 min late"%string
  /\ bucketOfColor
       (PrescriptionHistoryModal.getTimeDifferenceColor "2024-01-10" "08:00:00" (Some actual))
     = Some OnTime.
Proof. cbv zeta. repeat split; vm_compute; reflexivity. Qed.

(** The examples of the specification: 10 minutes late is on time, 45
    minutes late a moderate deviation, in both views. *)
Example timing_examples :
  bucketOfColor (DailyPrescriptionsModal.getTimeDifferenceColor Sample.at_0800
                   (Some Sample.at_0810)) = Some OnTime
  /\ bucketOfColor (DailyPrescriptionsModal.getTimeDifferenceColor Sample.at_0800
                      (Some Sample.at_0845)) = Some ModerateDeviation
  /\ bucketOfColor (PrescriptionHistoryModal.getTimeDifferenceColor "2024-01-10" "08:00:00"
                      (Some Sample.at_0810)) = Some OnTime
  /\ bucketOfColor (PrescriptionHistoryModal.getTimeDifferenceColor "2024-01-10" "08:00:00"
                      (Some Sample.at_0845)) = Some ModerateDeviation.
Proof. repeat split; vm_compute; reflexivity. Qed.

(* ===================================================================== *)
(** * The correction signal *)
(* ===================================================================== *)

Lemma correctionIndicator_linked (dose : ScheduledDose.t) (h : MedicationHistory.t)
    (actual : JSDate.t) :
  ScheduledDose.historyEntry dose = Some h ->
  MedicationHistory.actual_taken_datetime h = Some actual ->
  DailyPrescriptionsModal.correctionIndicator dose
  = negb (Z.abs (actual - ScheduledDose.scheduledDateTime dose) <=? 60000).
Proof.
  intros Eh Ea. unfold DailyPrescriptionsModal.correctionIndicator, Qgtb.
  rewrite Eh, Ea. change 1%Q with (inject_Z 1). now rewrite minutes_le_iff.
Qed.

(** C7, as stated, fails: taken 61 seconds after the scheduled time, the
    dose shows the correction badge, while the rounded offset is 1 minute,
    which is not more than 1. *)
Lemma correction_shown_at_rounded_offset_one :
  let dose := Sample.takenAt Sample.at_0801_01 in
  DailyPrescriptionsModal.correctionIndicator dose = true
  /\ offsetMinutes (ScheduledDose.scheduledDateTime dose) Sample.at_0801_01 = 1
  /\ ~ (DailyPrescriptionsModal.correctionIndicator dose = true
        <-> Z.abs (offsetMinutes (ScheduledDose.scheduledDateTime dose)
                     Sample.at_0801_01) > 1).
Proof.
  cbv zeta. split; [vm_compute; reflexivity|]. split; [vm_compute; reflexivity|].
  intros [H _]. specialize (H eq_refl). vm_compute in H. discriminate.
Qed.

(** C7, amended.  For a dose linked to a history event with an actual-taken
    timestamp, the correction signal is true exactly when the actual and
    the scheduled time are more than one minute (60 000 ms) apart, on the
    unrounded difference.  It depends on nothing but the two timestamps,
    so not on the stored corrected flag, and it is true whenever the rounded
    offset exceeds one minute in absolute value. *)
Theorem correction_signal_iff_over_one_minute (dose : ScheduledDose.t)
    (h : MedicationHistory.t) (actual : JSDate.t) :
  ScheduledDose.historyEntry dose = Some h ->
  MedicationHistory.actual_taken_datetime h = Some actual ->
  (DailyPrescriptionsModal.correctionIndicator dose = true
   <-> Z.abs (actual - ScheduledDose.scheduledDateTime dose) > 60 * JSDate.msPerSecond)
  /\ (forall dose' h',
        ScheduledDose.historyEntry dose' = Some h' ->
        MedicationHistory.actual_taken_datetime h' = Some actual ->
        ScheduledDose.scheduledDateTime dose' = ScheduledDose.scheduledDateTime dose ->
        DailyPrescriptionsModal.correctionIndicator dose'
        = DailyPrescriptionsModal.correctionIndicator dose)
  /\ (Z.abs (offsetMinutes (ScheduledDose.scheduledDateTime dose) actual) > 1 ->
      DailyPrescriptionsModal.correctionIndicator dose = true).
Proof.
  intros Eh Ea. rewrite (correctionIndicator_linked dose h actual Eh Ea).
  unfold JSDate.msPerSecond.
  split; [|split].
  - rewrite negb_true_iff, Z.leb_gt. lia.
  - intros dose' h' Eh' Ea' Es.
    rewrite (correctionIndicator_linked dose' h' actual Eh' Ea'). now rewrite Es.
  - rewrite offsetMinutes_eq. intros H.
    rewrite negb_true_iff, Z.leb_gt.
    Z.to_euclidean_division_equations; lia.
Qed.

Lemma correction_signal_iff_over_one_minute_witness :
  DailyPrescriptionsModal.correctionIndicator (Sample.takenAt Sample.at_0810) = true
  <-> Z.abs (Sample.at_0810 - Sample.at_0800) > 60 * JSDate.msPerSecond.
Proof.
  apply (correction_signal_iff_over_one_minute (Sample.takenAt Sample.at_0810)
           (Sample.historyAt "h1" "p1" Sample.at_0810) Sample.at_0810);
    reflexivity.
Defined.

(** Taken 10 minutes or 45 minutes after the scheduled time, the dose shows
    the correction badge; taken 60 seconds after it, it does not. *)
Example correction_examples :
  DailyPrescriptionsModal.correctionIndicator (Sample.takenAt Sample.at_0810) = true
  /\ DailyPrescriptionsModal.correctionIndicator (Sample.takenAt Sample.at_0845) = true
  /\ DailyPrescriptionsModal.correctionIndicator
       (Sample.takenAt (JSDate.make 2024 1 10 8 1 0)) = false.
Proof. repeat split; vm_compute; reflexivity. Qed.

(* ===================================================================== *)
(** * Aggregation *)
(* ===================================================================== *)

(** The day loop ends within [daysFuel] iterations: more fuel yields the
    same doses. *)
Lemma forEachDay_fuel_enough {A : Type} (body : JSDate.t -> list A)
    (end_ : JSDate.t) (fuel : nat) :
  forall start,
    (daysFuel start end_ <= fuel)%nat ->
    forEachDay fuel start end_ body = forEachDay (daysFuel start end_) start end_ body.
Proof.
  induction fuel as [|fuel IH]; intros start Hfuel.
  - replace (daysFuel start end_) with O by lia. reflexivity.
  - destruct (start <=? end_) eqn:E.
    + apply Z.leb_le in E.
      assert (Hstep : daysFuel start end_ = S (daysFuel (JSDate.addDays start 1) end_)).
      { unfold daysFuel, JSDate.addDays, JSDate.msPerDay.
        rewrite <- Z2Nat.inj_succ by (Z.to_euclidean_division_equations; lia).
        f_equal. Z.to_euclidean_division_equations; lia. }
      rewrite Hstep. simpl. apply Z.leb_le in E. rewrite E.
      f_equal. apply IH. lia.
    + simpl. rewrite E. destruct (daysFuel start end_); simpl; [reflexivity|].
      now rewrite E.
Qed.

Lemma filter_length_count {A : Type} (status : A -> Status.t) (s : Status.t)
    (l : list A) :
  List.length (List.filter (fun x => Status.eqb (status x) s) l)
  = count_occ Status_eq_dec (map status l) s.
Proof.
  induction l as [|x l IH]; simpl; [reflexivity|].
  destruct (Status_eq_dec (status x) s) as [E|E].
  - apply Status_eqb_eq in E. rewrite E. simpl. now rewrite IH.
  - destruct (Status.eqb (status x) s) eqn:Eb; [|assumption].
    apply Status_eqb_eq in Eb. contradiction.
Qed.

Lemma count_le_length {A : Type} (P : A -> bool) (l : list A) :
  (List.length (List.filter P l) <= List.length l)%nat.
Proof.
  induction l as [|x l IH]; simpl; [lia|]. destruct (P x); simpl; lia.
Qed.

(** [Math.round((part / whole) * 100)] in integer arithmetic. *)
Lemma round_percent (part whole : Z) :
  0 < whole ->
  Math_round ((inject_Z part / inject_Z whole) * 100)%Q
  = (200 * part + whole) / (2 * whole).
Proof.
  intros Hw. destruct whole as [|p|p]; try lia.
  unfold Math_round, Qfloor, Qplus, Qmult, Qdiv, Qinv, inject_Z. cbn [Qnum Qden].
  unfold Qmult. cbn [Qnum Qden].
  f_equal; lia.
Qed.

Lemma round_percent_nearest (part whole : Z) :
  0 < whole -> 0 <= part <= whole ->
  let p := Math_round ((inject_Z part / inject_Z whole) * 100)%Q in
  nearestPercent p part whole /\ 0 <= p <= 100.
Proof.
  intros Hw Hp p. unfold p, nearestPercent. rewrite (round_percent _ _ Hw).
  split.
  - Z.to_euclidean_division_equations; nia.
  - split.
    + apply Z.div_pos; lia.
    + apply Z.lt_succ_r. apply Z.div_lt_upper_bound; lia.
Qed.

Lemma status_counts_sum {A : Type} (status : A -> Status.t) (l : list A) :
  (count_occ Status_eq_dec (map status l) Status.taken
   + count_occ Status_eq_dec (map status l) Status.missed
   + count_occ Status_eq_dec (map status l) Status.pending
   + count_occ Status_eq_dec (map status l) Status.skipped
   = List.length l)%nat.
Proof.
  induction l as [|x l IH]; [reflexivity|].
  cbn [map List.length count_occ].
  destruct (status x); simpl; lia.
Qed.



(** The example of the specification on the adherence rate, read on log
    events: 7 taken and 3 pending log events give 70. *)
Example adherence_rate_example :
  Dashboard.getAdherenceRate
    (repeat Sample.log_aspirin_taken 7
     ++ repeat (Sample.logAt "l" "p1" Sample.at_0800 Status.pending) 3) = 70.
Proof. vm_compute. reflexivity. Qed.

(* ===================================================================== *)
(** * Editing a history entry *)
(* ===================================================================== *)

Section SaveEdit.
Import PrescriptionHistoryModal.

(** A save is made exactly from an entry under edit and a date text that
    is a date, when the data store accepts the update. *)
Lemma handleSaveEdit_Saved (refused : bool) (st st' : EditState) :
  handleSaveEdit refused st = (st', Saved) ->
  exists entryId actual,
    editingEntry st = Some entryId
    /\ DateText.parse (editDateTime st) = Some actual
    /\ refused = false
    /\ table st' = alter (applyEdit actual (editNotes st)) entryId (table st).
Proof.
  unfold handleSaveEdit. intros H.
  destruct (editingEntry st) as [entryId|]; [|discriminate].
  destruct (String.eqb entryId EmptyString || String.eqb (editDateTime st) EmptyString);
    [discriminate|].
  destruct (DateText.parse (editDateTime st)) as [actual|]; [|discriminate].
  destruct refused; [discriminate|].
  injection H as <-. exists entryId, actual. auto.
Qed.

Lemma handleSaveEdit_succeeds (st : EditState) (entryId : string) (actual : JSDate.t) :
  editingEntry st = Some entryId ->
  entryId <> EmptyString ->
  editDateTime st <> EmptyString ->
  DateText.parse (editDateTime st) = Some actual ->
  handleSaveEdit false st
  = ({| table := alter (applyEdit actual (editNotes st)) entryId (table st);
        editingEntry := None;
        editDateTime := EmptyString;
        editNotes := EmptyString |}, Saved).
Proof.
  intros Ee Hid Hdt Ep. unfold handleSaveEdit. rewrite Ee, Ep.
  apply String.eqb_neq in Hid, Hdt. now rewrite Hid, Hdt.
Qed.

(** Without a save the table is left as it was. *)
Lemma handleSaveEdit_otherwise (refused : bool) (st st' : EditState)
    (outcome : SaveOutcome) :
  handleSaveEdit refused st = (st', outcome) -> outcome <> Saved -> st' = st.
Proof.
  unfold handleSaveEdit. intros H Hne.
  destruct (editingEntry st) as [entryId|]; [|now injection H as <- _].
  destruct (String.eqb entryId EmptyString || String.eqb (editDateTime st) EmptyString);
    [now injection H as <- _|].
  destruct (DateText.parse (editDateTime st)) as [actual|]; [|now injection H as <- _].
  destruct refused; [now injection H as <- _|].
  injection H as _ <-. contradiction.
Qed.

End SaveEdit.

(** C10.  Every save of an edit writes [is_corrected = true] on the edited
    entry, together with the notes and the actual-taken timestamp of the
    edit form, whatever the entry held before: also when the timestamp
    written is the one it already had and only the notes differ.  The
    other entries are left as they were. *)
Theorem save_edit_sets_corrected (refused : bool)
    (st st' : PrescriptionHistoryModal.EditState) :
  PrescriptionHistoryModal.handleSaveEdit refused st
    = (st', PrescriptionHistoryModal.Saved) ->
  exists entryId actual,
    PrescriptionHistoryModal.editingEntry st = Some entryId
    /\ DateText.parse (PrescriptionHistoryModal.editDateTime st) = Some actual
    /\ (forall row,
          PrescriptionHistoryModal.table st !! entryId = Some row ->
          exists row',
            PrescriptionHistoryModal.table st' !! entryId = Some row'
            /\ MedicationHistory.is_corrected row' = true
            /\ MedicationHistory.notes row' = PrescriptionHistoryModal.editNotes st
            /\ MedicationHistory.actual_taken_datetime row' = Some actual
            /\ MedicationHistory.scheduled_date row' = MedicationHistory.scheduled_date row
            /\ MedicationHistory.scheduled_time row' = MedicationHistory.scheduled_time row)
    /\ (forall row',
          PrescriptionHistoryModal.table st' !! entryId = Some row' ->
          MedicationHistory.is_corrected row' = true)
    /\ (forall other,
          other <> entryId ->
          PrescriptionHistoryModal.table st' !! other
          = PrescriptionHistoryModal.table st !! other).
Proof.
  intros H. apply handleSaveEdit_Saved in H as (entryId & actual & Ee & Ep & _ & Et).
  exists entryId, actual. rewrite Et.
  split; [assumption|]. split; [assumption|]. split; [|split].
  - intros row Hrow. rewrite lookup_alter_eq, Hrow. simpl. eauto 10.
  - intros row'. rewrite lookup_alter_eq.
    destruct (PrescriptionHistoryModal.table st !! entryId) as [row|]; simpl;
      intros E; [|discriminate].
    now injection E as <-.
  - intros other Hne. now rewrite lookup_alter_ne.
Qed.

Lemma save_edit_sets_corrected_witness :
  MedicationHistory.is_corrected Sample.aspirin_taken = false
  /\ MedicationHistory.actual_taken_datetime Sample.aspirin_taken
     = DateText.parse (PrescriptionHistoryModal.editDateTime Sample.editState)
  /\ exists entryId actual,
       PrescriptionHistoryModal.editingEntry Sample.editState = Some entryId
       /\ DateText.parse (PrescriptionHistoryModal.editDateTime Sample.editState)
          = Some actual
       /\ (forall row,
             PrescriptionHistoryModal.table Sample.editState !! entryId = Some row ->
             exists row',
               PrescriptionHistoryModal.table
                 (fst (PrescriptionHistoryModal.handleSaveEdit false Sample.editState))
                 !! entryId = Some row'
               /\ MedicationHistory.is_corrected row' = true
               /\ MedicationHistory.notes row'
                  = PrescriptionHistoryModal.editNotes Sample.editState
               /\ MedicationHistory.actual_taken_datetime row' = Some actual
               /\ MedicationHistory.scheduled_date row' = MedicationHistory.scheduled_date row
               /\ MedicationHistory.scheduled_time row' = MedicationHistory.scheduled_time row)
       /\ (forall row',
             PrescriptionHistoryModal.table
               (fst (PrescriptionHistoryModal.handleSaveEdit false Sample.editState))
               !! entryId = Some row' ->
             MedicationHistory.is_corrected row' = true)
       /\ (forall other,
             other <> entryId ->
             PrescriptionHistoryModal.table
               (fst (PrescriptionHistoryModal.handleSaveEdit false Sample.editState))
               !! other
             = PrescriptionHistoryModal.table Sample.editState !! other).
Proof.
  split; [reflexivity|]. split; [vm_compute; reflexivity|].
  apply (save_edit_sets_corrected false Sample.editState
           (fst (PrescriptionHistoryModal.handleSaveEdit false Sample.editState))).
  reflexivity.
Defined.

(** The entry edited in the sample: the timestamp is the one it had, the
    note is new, and the corrected flag has turned true. *)
Example save_edit_example :
  PrescriptionHistoryModal.table
    (fst (PrescriptionHistoryModal.handleSaveEdit false Sample.editState)) !! "h1"%string
  = Some (MedicationHistory.mk "h1" "u1" "p1" EmptyString EmptyString "2024-01-10" "08:00:00"
            (Some Sample.at_0810) 1 true "with food").
Proof. vm_compute. reflexivity. Qed.

(* ===================================================================== *)
(** * Date texts read back *)
(* ===================================================================== *)

Lemma checkFrom_spec (f : Z -> bool) (n : nat) :
  forall lo, checkFrom f lo n = true -> forall x, lo <= x < lo + Z.of_nat n -> f x = true.
Proof.
  induction n as [|n IH]; intros lo H x Hx; [lia|].
  simpl in H. apply andb_true_iff in H as [H0 H1].
  destruct (Z.eq_dec x lo) as [->|Hne]; [assumption|].
  apply (IH (lo + 1) H1). lia.
Qed.

Lemma doe_all : checkFrom doeOk 0 (Z.to_nat 146097) = true.
Proof. vm_cast_no_check (eq_refl true). Qed.

Lemma pad2_all : checkFrom pad2Ok 0 (Z.to_nat 100) = true.
Proof. vm_cast_no_check (eq_refl true). Qed.

Lemma pad4_all : checkFrom pad4Ok 0 (Z.to_nat 10000) = true.
Proof. vm_cast_no_check (eq_refl true). Qed.

Lemma civil_eq (day : Z) :
  JSDate.civil day =
  let z := day + 719468 in
  let era := z / 146097 in
  let doe := z - era * 146097 in
  let '(yoe, m, d) := civilOfDoe doe in
  (if m <=? 2 then yoe + era * 400 + 1 else yoe + era * 400, m, d).
Proof. reflexivity. Qed.

Lemma daysFromCivil_eq (y0 m d : Z) :
  JSDate.daysFromCivil y0 m d =
  let y := if m <=? 2 then y0 - 1 else y0 in
  (y / 400) * 146097 + doeOfCivil (y - (y / 400) * 400) m d - 719468.
Proof. reflexivity. Qed.

(** The Gregorian date of a day number is a date, of that day number. *)
Lemma civil_roundtrip (day : Z) :
  let '(y, m, d) := JSDate.civil day in
  JSDate.daysFromCivil y m d = day /\ 1 <= m <= 12 /\ 1 <= d <= 31.
Proof.
  rewrite civil_eq. cbv zeta.
  set (z := day + 719468). set (era := z / 146097). set (doe := z - era * 146097).
  assert (Hdoe : 0 <= doe < 0 + Z.of_nat (Z.to_nat 146097)).
  { rewrite Z2Nat.id by lia. unfold doe, era. Z.to_euclidean_division_equations; lia. }
  pose proof (checkFrom_spec doeOk _ 0 doe_all doe Hdoe) as Hok.
  unfold doeOk in Hok. destruct (civilOfDoe doe) as [[yoe m] d].
  repeat (apply andb_true_iff in Hok as [Hok ?]).
  repeat match goal with
         | H : (_ <=? _) = true |- _ => apply Z.leb_le in H
         | H : (_ <? _) = true |- _ => apply Z.ltb_lt in H
         | H : (_ =? _) = true |- _ => apply Z.eqb_eq in H
         end.
  split; [|lia].
  rewrite daysFromCivil_eq. cbv zeta.
  assert (Hy : (if m <=? 2
                then (if m <=? 2 then yoe + era * 400 + 1 else yoe + era * 400) - 1
                else (if m <=? 2 then yoe + era * 400 + 1 else yoe + era * 400))
               = yoe + era * 400).
  { destruct (m <=? 2); lia. }
  rewrite Hy.
  assert (He : (yoe + era * 400) / 400 = era).
  { symmetry. apply Z.div_unique with (r := yoe); lia. }
  rewrite He. replace (yoe + era * 400 - era * 400) with yoe by lia.
  unfold doe in *. lia.
Qed.

Lemma civil_fields (d : JSDate.t) :
  JSDate.daysFromCivil (JSDate.getFullYear d) (JSDate.getMonth1 d) (JSDate.getDate d)
    = JSDate.dayNumber d
  /\ 1 <= JSDate.getMonth1 d <= 12 /\ 1 <= JSDate.getDate d <= 31.
Proof.
  unfold JSDate.getFullYear, JSDate.getMonth1, JSDate.getDate.
  pose proof (civil_roundtrip (JSDate.dayNumber d)) as H.
  destruct (JSDate.civil (JSDate.dayNumber d)) as [[y m] dd]. exact H.
Qed.

Lemma time_fields (d : JSDate.t) :
  0 <= JSDate.getHours d < 24 /\ 0 <= JSDate.getMinutes d < 60
  /\ 0 <= JSDate.getSeconds d < 60
  /\ JSDate.getHours d * 3600000 + JSDate.getMinutes d * 60000 + JSDate.getSeconds d * 1000
     = JSDate.msOfDay d - JSDate.msOfDay d mod 1000
  /\ JSDate.getHours d * 3600000 + JSDate.getMinutes d * 60000
     = JSDate.msOfDay d - JSDate.msOfDay d mod 60000.
Proof.
  pose proof (msOfDay_range d) as H. unfold JSDate.msPerDay in H.
  unfold JSDate.getHours, JSDate.getMinutes, JSDate.getSeconds,
    JSDate.msPerHour, JSDate.msPerMinute, JSDate.msPerSecond.
  generalize dependent (JSDate.msOfDay d). intros ms H.
  Z.to_euclidean_division_equations; lia.
Qed.

Lemma string_of_list_eq (s : string) (l : list ascii) :
  list_ascii_of_string s = l -> s = string_of_list_ascii l.
Proof. intros <-. symmetry. apply string_of_list_ascii_of_string. Qed.

Lemma pad2_chars (n : Z) :
  0 <= n < 100 ->
  exists a b, JSDate.addLeadingZeros n 2 = String a (String b EmptyString)
              /\ DateText.number [a; b] 0 = Some n.
Proof.
  intros Hn.
  pose proof (checkFrom_spec pad2Ok _ 0 pad2_all n) as H.
  rewrite Z2Nat.id in H by lia. specialize (H ltac:(lia)).
  unfold pad2Ok in H.
  destruct (list_ascii_of_string (JSDate.addLeadingZeros n 2)) as [|a [|b [|c l]]] eqn:E;
    try discriminate.
  destruct (DateText.number [a; b] 0) as [k|] eqn:Ek; [|discriminate].
  apply Z.eqb_eq in H. subst k.
  exists a, b. split; [|assumption]. now apply string_of_list_eq in E.
Qed.

Lemma pad4_chars (n : Z) :
  0 <= n < 10000 ->
  exists a b c d,
    JSDate.addLeadingZeros n 4 = String a (String b (String c (String d EmptyString)))
    /\ DateText.number [a; b; c; d] 0 = Some n.
Proof.
  intros Hn.
  pose proof (checkFrom_spec pad4Ok _ 0 pad4_all n) as H.
  rewrite Z2Nat.id in H by lia. specialize (H ltac:(lia)).
  unfold pad4Ok in H.
  destruct (list_ascii_of_string (JSDate.addLeadingZeros n 4))
    as [|a [|b [|c [|d [|e l]]]]] eqn:E; try discriminate.
  destruct (DateText.number [a; b; c; d] 0) as [k|] eqn:Ek; [|discriminate].
  apply Z.eqb_eq in H. subst k.
  exists a, b, c, d. split; [|assumption]. now apply string_of_list_eq in E.
Qed.

Ltac range_checks :=
  repeat match goal with
         | |- context [?a <=? ?b] =>
             replace (a <=? b) with true by (symmetry; apply Z.leb_le; lia)
         end.

(** Reading a text made of the digits of six fields. *)
Lemma parse_fields (y1 y2 y3 y4 m1 m2 d1 d2 h1 h2 n1 n2 s1 s2 : ascii)
    (y m d hh mm ss : Z) :
  DateText.number [y1; y2; y3; y4] 0 = Some y ->
  DateText.number [m1; m2] 0 = Some m ->
  DateText.number [d1; d2] 0 = Some d ->
  DateText.number [h1; h2] 0 = Some hh ->
  DateText.number [n1; n2] 0 = Some mm ->
  DateText.number [s1; s2] 0 = Some ss ->
  1 <= m <= 12 -> 1 <= d <= 31 -> 0 <= hh < 24 -> 0 <= mm < 60 -> 0 <= ss < 60 ->
  DateText.parse
    ((String y1 (String y2 (String y3 (String y4 EmptyString))) +:+ "-"
      +:+ String m1 (String m2 EmptyString) +:+ "-" +:+ String d1 (String d2 EmptyString))
     +:+ "T"
     +:+ (String h1 (String h2 EmptyString) +:+ ":" +:+ String n1 (String n2 EmptyString)
          +:+ ":" +:+ String s1 (String s2 EmptyString)))
  = Some (JSDate.make y m d hh mm ss)
  /\ DateText.parse
       ((String y1 (String y2 (String y3 (String y4 EmptyString))) +:+ "-"
         +:+ String m1 (String m2 EmptyString) +:+ "-" +:+ String d1 (String d2 EmptyString))
        +:+ "T"
        +:+ (String h1 (String h2 EmptyString) +:+ ":" +:+ String n1 (String n2 EmptyString)))
     = Some (JSDate.make y m d hh mm 0).
Proof.
  intros Hy Hm Hd Hh Hn Hs Rm Rd Rh Rn Rs.
  unfold DateText.parse. cbv [String.append list_ascii_of_string].
  rewrite Hy, Hm, Hd, Hh, Hn, Hs. unfold DateText.build.
  range_checks. split; reflexivity.
Qed.

Lemma date_of_fields (d : JSDate.t) :
  d = JSDate.dayNumber d * JSDate.msPerDay + JSDate.msOfDay d
  /\ JSDate.msOfDay d mod 1000 = d mod 1000
  /\ JSDate.msOfDay d mod 60000 = d mod 60000.
Proof.
  unfold JSDate.dayNumber, JSDate.msOfDay, JSDate.msPerDay.
  repeat split; Z.to_euclidean_division_equations; lia.
Qed.

(** The date and time texts of a date read back as the date, to the second;
    its [datetime-local] text reads back as the date, to the minute. *)
Lemma format_parse_roundtrip (d : JSDate.t) :
  fourDigitYear d ->
  DateText.parse (JSDate.format_yyyy_MM_dd d +:+ "T" +:+ JSDate.format_HH_mm_ss d)
    = Some (d - d mod 1000)
  /\ DateText.parse (format_datetime_local d) = Some (d - d mod 60000).
Proof.
  intros Hy. unfold fourDigitYear in Hy.
  destruct (civil_fields d) as (Hday & Hm & Hd).
  destruct (time_fields d) as (Hh & Hn & Hs & Hms & Hmin).
  destruct (date_of_fields d) as (E1 & E2 & E3).
  unfold format_datetime_local, JSDate.format_yyyy_MM_dd, JSDate.format_HH_mm_ss.
  replace (JSDate.getFullYear d >? 0) with true by (symmetry; apply Z.gtb_lt; lia).
  destruct (pad4_chars (JSDate.getFullYear d) ltac:(lia)) as (y1 & y2 & y3 & y4 & -> & Ey).
  destruct (pad2_chars (JSDate.getMonth1 d) ltac:(lia)) as (m1 & m2 & -> & Em).
  destruct (pad2_chars (JSDate.getDate d) ltac:(lia)) as (d1 & d2 & -> & Ed).
  destruct (pad2_chars (JSDate.getHours d) ltac:(lia)) as (h1 & h2 & -> & Eh).
  destruct (pad2_chars (JSDate.getMinutes d) ltac:(lia)) as (n1 & n2 & -> & En).
  destruct (pad2_chars (JSDate.getSeconds d) ltac:(lia)) as (s1 & s2 & -> & Es).
  destruct (parse_fields _ _ _ _ _ _ _ _ _ _ _ _ _ _ _ _ _ _ _ _ Ey Em Ed Eh En Es
              Hm Hd Hh Hn Hs) as [-> ->].
  unfold JSDate.make. rewrite Hday.
  unfold JSDate.msPerHour, JSDate.msPerMinute, JSDate.msPerSecond in *.
  split; f_equal; lia.
Qed.

(* ===================================================================== *)
(** * Further properties of the schedule expander *)
(* ===================================================================== *)

Lemma count_occ_map_filter {A : Type} (f : A -> Z) (p : A -> bool) (l : list A) (t : Z) :
  count_occ Z.eq_dec (map f (List.filter p l)) t
  = List.length (List.filter (fun x => p x && (f x =? t)) l).
Proof.
  induction l as [|x l IH]; simpl; [reflexivity|].
  destruct (p x); simpl; [|assumption].
  destruct (Z.eq_dec (f x) t) as [E|E].
  - apply Z.eqb_eq in E. rewrite E. simpl. now rewrite IH.
  - apply Z.eqb_neq in E. now rewrite E.
Qed.

(** X1.  The instants of a date come out in ascending order, and none is
    dropped or merged: an instant occurs as many times as there are rules
    that apply to the date and yield it, so two overlapping rules give two
    equal instants. *)
Theorem scheduled_times_ascending_all_kept (schedules : list DoseSchedule.t)
    (date : JSDate.t) :
  StronglySorted Z.le (generateScheduledTimes schedules date)
  /\ forall t,
       count_occ Z.eq_dec (generateScheduledTimes schedules date) t
       = List.length
           (List.filter
              (fun rule => scheduleApplies date rule && (scheduledTimeOf date rule =? t))
              schedules).
Proof.
  split.
  - apply Sorted_StronglySorted; [intros x y z; apply Z.le_trans|].
    apply generateScheduledTimes_sorted.
  - intros t. unfold generateScheduledTimes.
    rewrite (proj1 (Permutation_count_occ Z.eq_dec _ _) (Array_sort_perm _ _)).
    apply count_occ_map_filter.
Qed.

(** X2.  The expansion is weekly on the clock: for a date a whole number
    of weeks later (or earlier), in any zone, the same rules apply and they
    ask for the same local times, that many weeks later.  In a zone without
    transitions the instants are then those of the date, moved by that many
    weeks. *)
Theorem scheduled_times_weekly (zone : TimeZone.t) (schedules : list DoseSchedule.t)
    (date later weeks : Z) :
  ZonedDate.dayNumber zone later = ZonedDate.dayNumber zone date + 7 * weeks ->
  List.filter (scheduleAppliesIn zone later) schedules
  = List.filter (scheduleAppliesIn zone date) schedules
  /\ (forall rule,
        wallClockOf zone later rule
        = JSDate.addDays (wallClockOf zone date rule) (7 * weeks))
  /\ (forall offset,
        zone = TimeZone.fixed offset ->
        generateScheduledTimesIn zone schedules later
        = map (fun t => JSDate.addDays t (7 * weeks))
              (generateScheduledTimesIn zone schedules date)).
Proof.
  intros Hday. unfold ZonedDate.dayNumber in Hday.
  assert (Hfilter : List.filter (scheduleAppliesIn zone later) schedules
                    = List.filter (scheduleAppliesIn zone date) schedules).
  { apply filter_ext. intros rule.
    unfold scheduleAppliesIn, dayOfWeekIn, ZonedDate.getDay, JSDate.getDay.
    rewrite Hday.
    replace ((JSDate.dayNumber (TimeZone.LocalTime zone date) + 7 * weeks + 4) mod 7)
      with ((JSDate.dayNumber (TimeZone.LocalTime zone date) + 4) mod 7); [reflexivity|].
    Z.to_euclidean_division_equations; lia. }
  assert (Hclock : forall rule,
            wallClockOf zone later rule
            = JSDate.addDays (wallClockOf zone date rule) (7 * weeks)).
  { intros rule. unfold wallClockOf, scheduledTimeOf, JSDate.setHours, JSDate.addDays.
    cbv zeta. rewrite Hday. unfold JSDate.msPerDay. lia. }
  split; [exact Hfilter|]. split; [exact Hclock|].
  intros offset ->. unfold generateScheduledTimesIn. rewrite Hfilter.
  rewrite (map_ext (scheduledTimeOfIn (TimeZone.fixed offset) later)
             (fun rule => scheduledTimeOfIn (TimeZone.fixed offset) date rule
                          + 7 * weeks * JSDate.msPerDay)).
  - rewrite <- (map_map (scheduledTimeOfIn (TimeZone.fixed offset) date)
                  (fun t => t + 7 * weeks * JSDate.msPerDay)).
    apply Array_sort_shift.
  - intros rule. rewrite !scheduledTimeOfIn_eq, Hclock.
    unfold TimeZone.UTC, JSDate.addDays. simpl. lia.
Qed.

Lemma scheduled_times_weekly_witness :
  let zone := TimeZone.newYork2024 in
  let later := JSDate.make 2024 3 17 4 0 0 in
  List.filter (scheduleAppliesIn zone later) [SampleZone.rule_0230]
  = List.filter (scheduleAppliesIn zone SampleZone.springForwardDay) [SampleZone.rule_0230]
  /\ (forall rule,
        wallClockOf zone later rule
        = JSDate.addDays (wallClockOf zone SampleZone.springForwardDay rule) (7 * 1))
  /\ (forall offset,
        zone = TimeZone.fixed offset ->
        generateScheduledTimesIn zone [SampleZone.rule_0230] later
        = map (fun t => JSDate.addDays t (7 * 1))
              (generateScheduledTimesIn zone [SampleZone.rule_0230]
                 SampleZone.springForwardDay)).
Proof.
  apply (scheduled_times_weekly TimeZone.newYork2024 [SampleZone.rule_0230]
           SampleZone.springForwardDay (JSDate.make 2024 3 17 4 0 0) 1).
  vm_compute. reflexivity.
Defined.

(** Across a transition the instants are not a week apart: in New York the
    02:30 rule gives 03:30 on 2024-03-10, when 02:30 is skipped, and 02:30
    a week later, which is an hour less than a week after. *)
Example weekly_instants_across_transition :
  let zone := TimeZone.newYork2024 in
  generateScheduledTimesIn zone [SampleZone.rule_0230] SampleZone.springForwardDay
  = [JSDate.make 2024 3 10 7 30 0]
  /\ generateScheduledTimesIn zone [SampleZone.rule_0230] (JSDate.make 2024 3 17 4 0 0)
     = [JSDate.make 2024 3 17 6 30 0].
Proof. split; vm_compute; reflexivity. Qed.

(* ===================================================================== *)
(** * Further properties of the daily view *)
(* ===================================================================== *)

Section SortedBy.
Context {A : Type} (compare : A -> A -> Z).
Hypothesis compare_total : forall a b, 0 < compare a b -> compare b a <= 0.

Lemma sort_insert_Sorted_by (x : A) (l : list A) :
  Sorted (fun a b => compare a b <= 0) l ->
  Sorted (fun a b => compare a b <= 0) (sort_insert compare x l).
Proof.
  induction l as [|y l IH]; simpl; intros Hs.
  - repeat constructor.
  - destruct (compare x y <=? 0) eqn:E.
    + apply Z.leb_le in E. constructor; [assumption|]. now constructor.
    + apply Z.leb_gt in E. inversion Hs as [|? ? Hs' Hhd]; subst.
      constructor; [now apply IH|].
      destruct l as [|z l]; simpl.
      * constructor. now apply compare_total.
      * destruct (compare x z <=? 0); constructor.
        -- now apply compare_total.
        -- now inversion Hhd.
Qed.

Lemma Array_sort_Sorted_by (l : list A) :
  Sorted (fun a b => compare a b <= 0) (Array_sort compare l).
Proof.
  induction l as [|x l IH]; simpl; [constructor|]. now apply sort_insert_Sorted_by.
Qed.

End SortedBy.

Lemma Sorted_impl {A : Type} (R R' : A -> A -> Prop) (l : list A) :
  (forall a b, R a b -> R' a b) -> Sorted R l -> Sorted R' l.
Proof.
  intros Himp Hs. induction Hs as [|x l Hs IH Hhd]; constructor; [assumption|].
  destruct Hhd; constructor. now apply Himp.
Qed.

(** The day loop visits the days from [start] on, one after the other. *)
Lemma forEachDay_days {A : Type} (body : JSDate.t -> list A) (end_ : JSDate.t) (n : nat) :
  forall start,
    daysFuel start end_ = n ->
    forEachDay n start end_ body
    = flat_map body (map (fun k => JSDate.addDays start (Z.of_nat k)) (seq 0 n)).
Proof.
  induction n as [|n IH]; intros start Hn; [reflexivity|].
  assert (Hle : start <= end_).
  { unfold daysFuel, JSDate.msPerDay in Hn. Z.to_euclidean_division_equations; lia. }
  assert (Hnext : daysFuel (JSDate.addDays start 1) end_ = n).
  { unfold daysFuel, JSDate.addDays, JSDate.msPerDay in *.
    apply Nat2Z.inj. rewrite Z2Nat.id by (Z.to_euclidean_division_equations; lia).
    assert (Hz : Z.of_nat (Z.to_nat ((end_ - start) / 86400000 + 1)) = Z.of_nat (S n))
      by now rewrite Hn.
    rewrite Z2Nat.id in Hz by (Z.to_euclidean_division_equations; lia).
    Z.to_euclidean_division_equations; lia. }
  cbn [forEachDay]. apply Z.leb_le in Hle. rewrite Hle.
  rewrite (IH _ Hnext). cbn [seq map flat_map].
  f_equal.
  - f_equal. unfold JSDate.addDays. simpl. lia.
  - rewrite <- seq_shift, map_map. f_equal. apply map_ext. intros k.
    unfold JSDate.addDays. lia.
Qed.

Lemma daysFuel_of_days (startDay endDay : Z) :
  daysFuel (startDay * JSDate.msPerDay) (endDay * JSDate.msPerDay + 86399000)
  = Z.to_nat (endDay - startDay + 1).
Proof.
  unfold daysFuel, JSDate.msPerDay. f_equal.
  Z.to_euclidean_division_equations; lia.
Qed.

Lemma filter_filter {A : Type} (f g : A -> bool) (l : list A) :
  List.filter g (List.filter f l) = List.filter (fun x => f x && g x) l.
Proof.
  induction l as [|x l IH]; simpl; [reflexivity|].
  destruct (f x); simpl; [|assumption]. destruct (g x); now rewrite IH.
Qed.

(** What [generateScheduledDoses] returns, up to the order. *)
Lemma generateScheduledDoses_perm (st : DailyState) (now : JSDate.t) (startDay endDay : Z) :
  startDate st = Some startDay ->
  endDate st = Some endDay ->
  exists doses,
    generateScheduledDoses st now = Some doses
    /\ Sorted (inSortOrder (sortOrder st)) doses
    /\ forall dose,
         In dose doses <->
         In dose (dosesOfRange st now startDay endDay) /\ passesFilters st dose.
Proof.
  intros Hs He. unfold generateScheduledDoses. rewrite Hs, He.
  eexists. split; [reflexivity|]. split.
  - destruct (sortOrder st); unfold inSortOrder.
    + eapply Sorted_impl; [|apply Array_sort_Sorted_by; intros a b; lia].
      intros a b. cbv beta. lia.
    + eapply Sorted_impl; [|apply Array_sort_Sorted_by; intros a b; lia].
      intros a b. cbv beta. lia.
  - intros dose. rewrite Array_sort_In.
    rewrite daysFuel_of_days, (forEachDay_days _ _ _ _ (daysFuel_of_days startDay endDay)).
    assert (Hall :
      flat_map (fun date => flat_map (dosesOfPrescription st now date) (prescriptions st))
        (map (fun k => JSDate.addDays (startDay * JSDate.msPerDay) (Z.of_nat k))
             (seq 0 (Z.to_nat (endDay - startDay + 1))))
      = dosesOfRange st now startDay endDay).
    { unfold dosesOfRange. rewrite !flat_map_concat_map, map_map. f_equal.
      apply map_ext. intros k. do 2 f_equal. unfold JSDate.addDays. lia. }
    rewrite Hall. unfold passesFilters.
    destruct (String.eqb_spec (selectedPrescription st) "all") as [E1|E1];
    destruct (String.eqb_spec (statusFilter st) "all") as [E2|E2]; cbn [negb];
      rewrite ?filter_In, ?String.eqb_eq; intuition congruence.
Qed.

(** The doses of the view are those of the range that pass the filters,
    each as often as the range has it. *)
Lemma generateScheduledDoses_Permutation (st : DailyState) (now : JSDate.t)
    (startDay endDay : Z) :
  startDate st = Some startDay ->
  endDate st = Some endDay ->
  exists doses,
    generateScheduledDoses st now = Some doses
    /\ Permutation doses
         (List.filter (passesFiltersb st) (dosesOfRange st now startDay endDay)).
Proof.
  intros Hs He. unfold generateScheduledDoses. rewrite Hs, He.
  eexists. split; [reflexivity|].
  rewrite Array_sort_perm.
  rewrite daysFuel_of_days, (forEachDay_days _ _ _ _ (daysFuel_of_days startDay endDay)).
  assert (Hall :
    flat_map (fun date => flat_map (dosesOfPrescription st now date) (prescriptions st))
      (map (fun k => JSDate.addDays (startDay * JSDate.msPerDay) (Z.of_nat k))
           (seq 0 (Z.to_nat (endDay - startDay + 1))))
    = dosesOfRange st now startDay endDay).
  { unfold dosesOfRange. rewrite !flat_map_concat_map, map_map. f_equal.
    apply map_ext. intros k. do 2 f_equal. unfold JSDate.addDays. lia. }
  rewrite Hall. unfold passesFiltersb.
  generalize (dosesOfRange st now startDay endDay). intros l.
  destruct (String.eqb (selectedPrescription st) "all");
    destruct (String.eqb (statusFilter st) "all"); cbn [negb orb];
    induction l as [|x l IH]; simpl; try constructor;
    try exact IH;
    try (destruct (String.eqb (Prescription.name (ScheduledDose.prescription x))
                              (selectedPrescription st)); simpl);
    try (destruct (String.eqb (Status.to_string (ScheduledDose.status x))
                              (statusFilter st)); simpl);
    try exact IH; now constructor.
Qed.

Lemma quantityFor_nonzero (prescriptionSchedules : list DoseSchedule.t)
    (scheduledTime : JSDate.t) :
  quantityFor prescriptionSchedules scheduledTime <> 0.
Proof.
  unfold quantityFor.
  destruct (find (sameDoseTime scheduledTime) prescriptionSchedules) as [ds|]; [|lia].
  destruct (DoseSchedule.quantity ds =? 0) eqn:E; [lia|]. now apply Z.eqb_neq in E.
Qed.

Lemma reconcile_coherent prescription prescriptionSchedules history logs
    now date scheduledTime :
  coherentDose
    (reconcile prescription prescriptionSchedules history logs now date scheduledTime).
Proof.
  unfold coherentDose.
  destruct (find (historyMatches prescription date scheduledTime) history) as [h|] eqn:E.
  - rewrite (reconcile_linked _ _ _ _ _ _ _ _ E). simpl. split; [reflexivity|].
    apply find_some in E as [_ E]. now apply historyMatches_iff in E.
  - rewrite (reconcile_unlinked _ _ _ _ _ _ _ E). simpl.
    destruct (find (logMatches scheduledTime) logs) as [l|] eqn:El; [|reflexivity].
    split; [reflexivity|]. apply find_some in El as [_ El]. now apply logMatches_iff.
Qed.

(** Where a dose of the range comes from. *)
Lemma dosesOfRange_In (st : DailyState) (now : JSDate.t) (startDay endDay : Z)
    (dose : ScheduledDose.t) :
  In dose (dosesOfRange st now startDay endDay) <->
  exists day prescription scheduledTime,
    startDay <= day <= endDay
    /\ In prescription (prescriptions st)
    /\ let prescriptionSchedules :=
         List.filter (fun ds => String.eqb (DoseSchedule.prescription_id ds)
                                           (Prescription.id prescription))
                     (doseSchedules st) in
       In scheduledTime
          (generateScheduledTimes prescriptionSchedules (day * JSDate.msPerDay))
       /\ dose = reconcile prescription prescriptionSchedules (history st) (logs st)
                   now (day * JSDate.msPerDay) scheduledTime.
Proof.
  unfold dosesOfRange. rewrite in_flat_map. split.
  - intros [k [Hk Hin]]. apply in_seq in Hk.
    apply in_flat_map in Hin as [prescription [Hp Hin]].
    unfold dosesOfPrescription in Hin. apply in_map_iff in Hin as [t [<- Ht]].
    exists (startDay + Z.of_nat k), prescription, t.
    split; [lia|]. split; [assumption|]. split; [assumption|reflexivity].
  - intros (day & prescription & t & Hday & Hp & Ht & ->).
    exists (Z.to_nat (day - startDay)). split; [apply in_seq; lia|].
    apply in_flat_map. exists prescription. split; [assumption|].
    unfold dosesOfPrescription. apply in_map_iff. exists t.
    replace (startDay + Z.of_nat (Z.to_nat (day - startDay))) with day by lia.
    split; [reflexivity|assumption].
Qed.

(** X3.  With both dates given, the daily view returns exactly the doses of
    the days from the start day to the end day, both included, that pass
    the prescription filter and the status filter, each as often as the
    rules give it, ordered by their scheduled time in the chosen direction;
    an end day before the start day gives no dose. *)
Theorem daily_view_range_filters_order (st : DailyState) (now : JSDate.t)
    (startDay endDay : Z) :
  startDate st = Some startDay ->
  endDate st = Some endDay ->
  exists doses,
    generateScheduledDoses st now = Some doses
    /\ Permutation doses
         (List.filter (passesFiltersb st) (dosesOfRange st now startDay endDay))
    /\ Sorted (inSortOrder (sortOrder st)) doses
    /\ (forall dose,
          In dose doses <->
          In dose (dosesOfRange st now startDay endDay) /\ passesFilters st dose)
    /\ (forall dose,
          In dose doses ->
          exists day,
            startDay <= day <= endDay
            /\ In dose
                 (flat_map (dosesOfPrescription st now (day * JSDate.msPerDay))
                           (prescriptions st)))
    /\ (endDay < startDay -> doses = []).
Proof.
  intros Hs He.
  destruct (generateScheduledDoses_perm st now startDay endDay Hs He)
    as (doses & Hgen & Hsorted & Hin).
  destruct (generateScheduledDoses_Permutation st now startDay endDay Hs He)
    as (doses' & Hgen' & Hperm).
  rewrite Hgen in Hgen'. injection Hgen' as Heq. subst doses'.
  exists doses. repeat (split; [assumption|]). split.
  - intros dose Hd. apply Hin in Hd as [Hd _].
    apply dosesOfRange_In in Hd as (day & p & t & Hday & Hp & Ht & ->).
    exists day. split; [assumption|]. apply in_flat_map. exists p.
    split; [assumption|]. unfold dosesOfPrescription. apply in_map_iff. eauto.
  - intros Hlt. destruct doses as [|dose doses]; [reflexivity|].
    destruct (proj1 (Hin dose) (or_introl eq_refl)) as [Hd _].
    unfold dosesOfRange in Hd. replace (Z.to_nat (endDay - startDay + 1)) with O in Hd by lia.
    destruct Hd.
Qed.

Lemma daily_view_range_filters_order_witness :
  exists doses,
    generateScheduledDoses Sample2.weekState Sample.evening = Some doses
    /\ Permutation doses
         (List.filter (passesFiltersb Sample2.weekState)
            (dosesOfRange Sample2.weekState Sample.evening
               (JSDate.daysFromCivil 2024 1 8) (JSDate.daysFromCivil 2024 1 14)))
    /\ Sorted (inSortOrder desc) doses
    /\ (forall dose,
          In dose doses <->
          In dose (dosesOfRange Sample2.weekState Sample.evening
                     (JSDate.daysFromCivil 2024 1 8) (JSDate.daysFromCivil 2024 1 14))
          /\ passesFilters Sample2.weekState dose)
    /\ (forall dose,
          In dose doses ->
          exists day,
            JSDate.daysFromCivil 2024 1 8 <= day <= JSDate.daysFromCivil 2024 1 14
            /\ In dose
                 (flat_map (dosesOfPrescription Sample2.weekState Sample.evening
                              (day * JSDate.msPerDay))
                           (prescriptions Sample2.weekState)))
    /\ (JSDate.daysFromCivil 2024 1 14 < JSDate.daysFromCivil 2024 1 8 -> doses = []).
Proof.
  apply (daily_view_range_filters_order Sample2.weekState Sample.evening
           (JSDate.daysFromCivil 2024 1 8) (JSDate.daysFromCivil 2024 1 14));
    reflexivity.
Defined.

(** The week of the sample: of the 15 aspirin doses, 14 are pending (08:00
    of 2024-01-10 is taken), the latest first. *)
Example daily_view_week_example :
  option_map (map ScheduledDose.scheduledDateTime)
    (generateScheduledDoses Sample2.weekState Sample.evening)
  = Some [JSDate.make 2024 1 14 21 30 0; JSDate.make 2024 1 14 20 0 0;
          JSDate.make 2024 1 14 8 0 0; JSDate.make 2024 1 13 20 0 0;
          JSDate.make 2024 1 13 8 0 0; JSDate.make 2024 1 12 20 0 0;
          JSDate.make 2024 1 12 8 0 0; JSDate.make 2024 1 11 20 0 0;
          JSDate.make 2024 1 11 8 0 0; JSDate.make 2024 1 10 20 0 0;
          JSDate.make 2024 1 9 20 0 0; JSDate.make 2024 1 9 8 0 0;
          JSDate.make 2024 1 8 20 0 0; JSDate.make 2024 1 8 8 0 0].
Proof. vm_compute. reflexivity. Qed.

(** X4.  Every dose of the daily view is coherent: linked to a history
    event of its prescription it is taken and carries no log event; linked
    to a log event only, the log event is within the tolerance and gives the
    status; linked to nothing it is pending.  Its quantity is never 0 and
    its prescription is one of the loaded prescriptions. *)
Theorem daily_doses_coherent (st : DailyState) (now : JSDate.t)
    (doses : list ScheduledDose.t) (dose : ScheduledDose.t) :
  generateScheduledDoses st now = Some doses ->
  In dose doses ->
  coherentDose dose
  /\ ScheduledDose.quantity dose <> 0
  /\ In (ScheduledDose.prescription dose) (prescriptions st).
Proof.
  intros Hgen Hd.
  destruct (startDate st) as [startDay|] eqn:Hs;
    [|unfold generateScheduledDoses in Hgen; now rewrite Hs in Hgen].
  destruct (endDate st) as [endDay|] eqn:He;
    [|unfold generateScheduledDoses in Hgen; now rewrite Hs, He in Hgen].
  destruct (generateScheduledDoses_perm st now startDay endDay Hs He)
    as (doses' & Hgen' & _ & Hin).
  rewrite Hgen in Hgen'. injection Hgen' as Heq. subst doses'.
  destruct (proj1 (Hin dose) Hd) as [Hrange _].
  apply dosesOfRange_In in Hrange as (day & p & t & _ & Hp & _ & ->).
  split; [apply reconcile_coherent|]. split.
  - unfold reconcile.
    destruct (find (historyMatches p (day * JSDate.msPerDay) t) (history st));
      [apply quantityFor_nonzero|].
    destruct (find (logMatches t) (logs st)); [apply quantityFor_nonzero|].
    destruct (t <? now); apply quantityFor_nonzero.
  - unfold reconcile.
    destruct (find (historyMatches p (day * JSDate.msPerDay) t) (history st));
      [assumption|].
    destruct (find (logMatches t) (logs st)); [assumption|].
    destruct (t <? now); assumption.
Qed.

Lemma daily_doses_coherent_witness :
  exists doses dose,
    generateScheduledDoses Sample.dailyState Sample.evening = Some doses
    /\ In dose doses
    /\ coherentDose dose
    /\ ScheduledDose.quantity dose <> 0
    /\ In (ScheduledDose.prescription dose) (prescriptions Sample.dailyState).
Proof.
  eexists. eexists.
  assert (Hgen : generateScheduledDoses Sample.dailyState Sample.evening
                 = Some [reconcile Sample.aspirin [Sample.rule_0800; Sample.rule_2000]
                           [Sample.aspirin_taken] [Sample.log_aspirin_taken]
                           Sample.evening Sample.day Sample.at_0800;
                         reconcile Sample.aspirin [Sample.rule_0800; Sample.rule_2000]
                           [Sample.aspirin_taken] [Sample.log_aspirin_taken]
                           Sample.evening Sample.day (JSDate.make 2024 1 10 20 0 0)])
    by (vm_compute; reflexivity).
  split; [exact Hgen|]. split; [left; reflexivity|].
  apply (daily_doses_coherent Sample.dailyState Sample.evening _ _ Hgen).
  left. reflexivity.
Defined.

Lemma filter_map_length {A B : Type} (f : A -> B) (P : B -> bool) (l : list A) :
  List.length (List.filter P (map f l))
  = List.length (List.filter (fun x => P (f x)) l).
Proof.
  induction l as [|x l IH]; simpl; [reflexivity|].
  destruct (P (f x)); simpl; now rewrite IH.
Qed.

Lemma Permutation_filter_length {A : Type} (P : A -> bool) (l l' : list A) :
  Permutation l l' -> List.length (List.filter P l) = List.length (List.filter P l').
Proof.
  induction 1 as [|x l l' _ IH|x y l|l l' l'' _ IH1 _ IH2]; simpl.
  - reflexivity.
  - destruct (P x); simpl; now rewrite IH.
  - destruct (P x); destruct (P y); reflexivity.
  - now rewrite IH1.
Qed.

Lemma map_flat_map_single {A B C : Type} (f : B -> C) (g : A -> list B) (h : A -> C)
    (l : list A) :
  (forall x, In x l -> map f (g x) = [h x]) -> map f (flat_map g l) = map h l.
Proof.
  induction l as [|x l IH]; intros H; simpl; [reflexivity|].
  rewrite map_app, (H x) by (simpl; auto).
  rewrite IH by (intros y Hy; apply H; simpl; auto). reflexivity.
Qed.

Lemma reconcile_scheduledDateTime prescription prescriptionSchedules history logs
    now date scheduledTime :
  ScheduledDose.scheduledDateTime
    (reconcile prescription prescriptionSchedules history logs now date scheduledTime)
  = scheduledTime.
Proof.
  unfold reconcile.
  destruct (find (historyMatches prescription date scheduledTime) history);
    [reflexivity|].
  destruct (find (logMatches scheduledTime) logs); [reflexivity|].
  destruct (scheduledTime <? now); reflexivity.
Qed.

(** X5.  For one prescription with one active rule for all seven weekdays
    and no filter set, the daily view of the days from the start day to the
    end day holds exactly one dose for each day of the range: the days of
    its doses are the days of the range, each once. *)
Theorem every_day_rule_one_dose_per_day (st : DailyState) (now : JSDate.t)
    (prescription : Prescription.t) (rule : DoseSchedule.t) (startDay endDay : Z) :
  prescriptions st = [prescription] ->
  doseSchedules st = [rule] ->
  DoseSchedule.prescription_id rule = Prescription.id prescription ->
  DoseSchedule.is_active rule = true ->
  TimeOfDay.valid (DoseSchedule.dose_time rule) ->
  (forall k, 1 <= k <= 7 -> In k (DoseSchedule.days_of_week rule)) ->
  selectedPrescription st = "all"%string ->
  statusFilter st = "all"%string ->
  startDate st = Some startDay ->
  endDate st = Some endDay ->
  startDay <= endDay ->
  exists doses,
    generateScheduledDoses st now = Some doses
    /\ Z.of_nat (List.length doses) = endDay - startDay + 1
    /\ Permutation
         (map (fun dose => JSDate.dayNumber (ScheduledDose.scheduledDateTime dose)) doses)
         (map (fun k => startDay + Z.of_nat k)
              (seq 0 (Z.to_nat (endDay - startDay + 1))))
    /\ (forall day,
          startDay <= day <= endDay ->
          List.length
            (List.filter
               (fun dose =>
                  JSDate.dayNumber (ScheduledDose.scheduledDateTime dose) =? day)
               doses)
          = 1%nat).
Proof.
  intros Hp Hr Hid Hact Hvalid Hdays Hsel Hsf Hs He Hle.
  destruct (generateScheduledDoses_Permutation st now startDay endDay Hs He)
    as (doses & Hgen & Hperm).
  exists doses. split; [exact Hgen|].
  assert (Hall : List.filter (passesFiltersb st) (dosesOfRange st now startDay endDay)
                 = dosesOfRange st now startDay endDay).
  { generalize (dosesOfRange st now startDay endDay). intros l.
    induction l as [|x l IH]; simpl; [reflexivity|].
    unfold passesFiltersb at 1. rewrite Hsel, Hsf. simpl. now rewrite IH. }
  rewrite Hall in Hperm.
  assert (Hrange :
    map (fun dose => JSDate.dayNumber (ScheduledDose.scheduledDateTime dose))
        (dosesOfRange st now startDay endDay)
    = map (fun k => startDay + Z.of_nat k) (seq 0 (Z.to_nat (endDay - startDay + 1)))).
  { unfold dosesOfRange. apply map_flat_map_single. intros k _.
    rewrite Hp. cbn [flat_map]. rewrite List.app_nil_r.
    unfold dosesOfPrescription. rewrite Hr. cbn [List.filter].
    rewrite Hid, String.eqb_refl.
    unfold generateScheduledTimes. cbn [List.filter].
    replace (scheduleApplies ((startDay + Z.of_nat k) * JSDate.msPerDay) rule) with true.
    - cbn [map Array_sort fold_right sort_insert].
      rewrite reconcile_scheduledDateTime.
      destruct Hvalid as (Hh & Hm & _).
      unfold scheduledTimeOf. cbv zeta.
      rewrite (proj1 (setHours_split _ _ _ Hh Hm)).
      unfold JSDate.dayNumber, JSDate.msPerDay. rewrite Z.div_mul by lia. reflexivity.
    - symmetry. apply scheduleApplies_iff. split; [assumption|].
      apply Hdays. rewrite <- dayOfWeek_isoWeekday. apply dayOfWeek_range. }
  assert (Hdaysperm :
    Permutation
      (map (fun dose => JSDate.dayNumber (ScheduledDose.scheduledDateTime dose)) doses)
      (map (fun k => startDay + Z.of_nat k) (seq 0 (Z.to_nat (endDay - startDay + 1))))).
  { rewrite <- Hrange. now apply Permutation_map. }
  split; [|split; [exact Hdaysperm|]].
  - apply Permutation_length in Hdaysperm.
    rewrite !List.length_map, List.length_seq in Hdaysperm. lia.
  - intros day Hday.
    rewrite <- (filter_map_length
                  (fun dose => JSDate.dayNumber (ScheduledDose.scheduledDateTime dose))
                  (fun d => d =? day) doses).
    rewrite (Permutation_filter_length _ _ _ Hdaysperm).
    assert (Hcount : forall n start,
              start <= day < start + Z.of_nat n ->
              List.length (List.filter (fun d => d =? day)
                             (map (fun k => start + Z.of_nat k) (seq 0 n))) = 1%nat
              ).
    { induction n as [|n IH]; intros start Hr'; [lia|].
      cbn [seq map List.filter]. rewrite <- seq_shift, map_map.
      rewrite (map_ext (fun k => start + Z.of_nat (S k))
                       (fun k => (start + 1) + Z.of_nat k)) by (intros k; lia).
      replace (start + Z.of_nat 0) with start by lia.
      destruct (Z.eqb_spec start day) as [->|Hne]; cbn [List.length].
      - f_equal.
        assert (Hnone : forall m s, day < s ->
                  List.filter (fun d => d =? day)
                    (map (fun k => s + Z.of_nat k) (seq 0 m)) = []).
        { induction m as [|m IHm]; intros s Hs'; [reflexivity|].
          cbn [seq map List.filter]. rewrite <- seq_shift, map_map.
          rewrite (map_ext (fun k => s + Z.of_nat (S k))
                           (fun k => (s + 1) + Z.of_nat k)) by (intros k; lia).
          destruct (Z.eqb_spec (s + Z.of_nat 0) day) as [E|_]; [lia|].
          apply IHm. lia. }
        rewrite Hnone by lia. reflexivity.
      - apply IH. lia. }
    apply Hcount. lia.
Qed.

Lemma every_day_rule_one_dose_per_day_witness :
  exists doses,
    generateScheduledDoses Sample2.everyDayState Sample.evening = Some doses
    /\ Z.of_nat (List.length doses)
       = JSDate.daysFromCivil 2024 1 14 - JSDate.daysFromCivil 2024 1 8 + 1
    /\ Permutation
         (map (fun dose => JSDate.dayNumber (ScheduledDose.scheduledDateTime dose)) doses)
         (map (fun k => JSDate.daysFromCivil 2024 1 8 + Z.of_nat k)
              (seq 0 (Z.to_nat (JSDate.daysFromCivil 2024 1 14
                                - JSDate.daysFromCivil 2024 1 8 + 1))))
    /\ (forall day,
          JSDate.daysFromCivil 2024 1 8 <= day <= JSDate.daysFromCivil 2024 1 14 ->
          List.length
            (List.filter
               (fun dose =>
                  JSDate.dayNumber (ScheduledDose.scheduledDateTime dose) =? day)
               doses)
          = 1%nat).
Proof.
  apply (every_day_rule_one_dose_per_day Sample2.everyDayState Sample.evening
           Sample.aspirin Sample.rule_0800);
    try reflexivity.
  - unfold TimeOfDay.valid. simpl. lia.
  - intros k Hk. simpl.
    assert (H : k = 1 \/ k = 2 \/ k = 3 \/ k = 4 \/ k = 5 \/ k = 6 \/ k = 7) by lia.
    intuition.
  - vm_compute. discriminate.
Defined.

(* ===================================================================== *)
(** * The quantity of a dose *)
(* ===================================================================== *)

(** The time text of an instant made from a rule without seconds is the
    time text of the rule. *)
Lemma instant_text (date : JSDate.t) (rule : DoseSchedule.t) :
  0 <= TimeOfDay.hours (DoseSchedule.dose_time rule) < 24 ->
  0 <= TimeOfDay.minutes (DoseSchedule.dose_time rule) < 60 ->
  JSDate.format_HH_mm_ss (scheduledTimeOf date rule)
  = TimeOfDay.text (TimeOfDay.mk (TimeOfDay.hours (DoseSchedule.dose_time rule))
                                 (TimeOfDay.minutes (DoseSchedule.dose_time rule)) 0).
Proof.
  intros Hh Hm.
  destruct (setHours_components date _ _ Hh Hm) as (H1 & H2 & H3 & _).
  unfold JSDate.format_HH_mm_ss, TimeOfDay.text, scheduledTimeOf. cbv zeta.
  now rewrite H1, H2, H3.
Qed.

(** Times of day with the same text are the same. *)
Lemma time_text_injective (a b : TimeOfDay.t) :
  TimeOfDay.valid a -> TimeOfDay.valid b -> TimeOfDay.text a = TimeOfDay.text b -> a = b.
Proof.
  intros (Ha1 & Ha2 & Ha3) (Hb1 & Hb2 & Hb3). unfold TimeOfDay.text.
  destruct (pad2_chars (TimeOfDay.hours a) ltac:(lia)) as (a1 & a2 & -> & Ea).
  destruct (pad2_chars (TimeOfDay.minutes a) ltac:(lia)) as (a3 & a4 & -> & Ea').
  destruct (pad2_chars (TimeOfDay.seconds a) ltac:(lia)) as (a5 & a6 & -> & Ea'').
  destruct (pad2_chars (TimeOfDay.hours b) ltac:(lia)) as (b1 & b2 & -> & Eb).
  destruct (pad2_chars (TimeOfDay.minutes b) ltac:(lia)) as (b3 & b4 & -> & Eb').
  destruct (pad2_chars (TimeOfDay.seconds b) ltac:(lia)) as (b5 & b6 & -> & Eb'').
  cbv [String.append]. intros E. injection E as -> -> -> -> -> ->.
  destruct a as [ah am asec], b as [bh bm bsec]. simpl in *.
  f_equal; congruence.
Qed.

(** X6.  The quantity shown for a dose is looked up by the time text alone.
    In any zone, for a rule without seconds whose hour and minute the
    clocks show on the date, it is the quantity of the first schedule of the
    list with the time of day of the rule (1 if that quantity is 0),
    whatever the weekdays and the active flag of that schedule are, and so
    not always the quantity of the rule the dose comes from.  The card
    looks the quantity up in the same way. *)
Theorem quantity_from_first_schedule_with_time (zone : TimeZone.t)
    (before after : list DoseSchedule.t) (first rule : DoseSchedule.t) (date : Z) :
  (forall x, In x before ->
             TimeOfDay.text (DoseSchedule.dose_time x)
             <> TimeOfDay.text (DoseSchedule.dose_time first)) ->
  DoseSchedule.dose_time rule = DoseSchedule.dose_time first ->
  0 <= TimeOfDay.hours (DoseSchedule.dose_time rule) < 24 ->
  0 <= TimeOfDay.minutes (DoseSchedule.dose_time rule) < 60 ->
  TimeOfDay.seconds (DoseSchedule.dose_time rule) = 0 ->
  TimeZone.wallClockExists zone (wallClockOf zone date rule) ->
  let quantity :=
    if DoseSchedule.quantity first =? 0 then 1 else DoseSchedule.quantity first in
  quantityForIn zone (before ++ first :: after) (scheduledTimeOfIn zone date rule)
  = quantity
  /\ getQuantityForTimeIn zone (before ++ first :: after)
       (scheduledTimeOfIn zone date rule) = quantity.
Proof.
  intros Hbefore Htime Hh Hm Hs Hexists quantity.
  assert (Htext : ZonedDate.format_HH_mm_ss zone (scheduledTimeOfIn zone date rule)
                  = TimeOfDay.text (DoseSchedule.dose_time first)).
  { unfold ZonedDate.format_HH_mm_ss. rewrite scheduledTimeOfIn_eq, Hexists.
    unfold wallClockOf.
    rewrite (instant_text (TimeZone.LocalTime zone date) rule Hh Hm), <- Htime, <- Hs.
    now destruct (DoseSchedule.dose_time rule). }
  assert (Hfind :
    find (fun ds => String.eqb (TimeOfDay.text (DoseSchedule.dose_time ds))
                      (ZonedDate.format_HH_mm_ss zone (scheduledTimeOfIn zone date rule)))
         (before ++ first :: after)
    = Some first).
  { apply find_first.
    - intros x Hx. apply String.eqb_neq. rewrite Htext. now apply Hbefore.
    - apply String.eqb_eq. now rewrite Htext. }
  split.
  - unfold quantityForIn. now rewrite Hfind.
  - unfold getQuantityForTimeIn. cbv zeta. now rewrite Hfind.
Qed.

Lemma quantity_from_first_schedule_with_time_witness :
  let zone := TimeZone.newYork2024 in
  let monday_0800 :=
    DoseSchedule.mk "m" "p1" (TimeOfDay.mk 8 0 0) 3 [1] false in
  quantityForIn zone ([Sample.rule_2000] ++ monday_0800 :: [Sample.rule_0800])
    (scheduledTimeOfIn zone SampleZone.winterDay Sample.rule_0800) = 3
  /\ getQuantityForTimeIn zone
       ([Sample.rule_2000] ++ monday_0800 :: [Sample.rule_0800])
       (scheduledTimeOfIn zone SampleZone.winterDay Sample.rule_0800) = 3.
Proof.
  apply (quantity_from_first_schedule_with_time TimeZone.newYork2024
           [Sample.rule_2000] [Sample.rule_0800]
           (DoseSchedule.mk "m" "p1" (TimeOfDay.mk 8 0 0) 3 [1] false)
           Sample.rule_0800 SampleZone.winterDay).
  - intros x [<-|[]]. vm_compute. discriminate.
  - reflexivity.
  - simpl. lia.
  - simpl. lia.
  - reflexivity.
  - vm_compute. reflexivity.
Defined.

(** Where the clocks skip the time of the rule the lookup misses the rule:
    in New York on 2024-03-10 the dose of the 02:30 rule, three units, reads
    03:30 and is shown with quantity 1. *)
Example quantity_of_skipped_time :
  let zone := TimeZone.newYork2024 in
  quantityForIn zone [SampleZone.rule_0230]
    (scheduledTimeOfIn zone SampleZone.springForwardDay SampleZone.rule_0230) = 1
  /\ getQuantityForTimeIn zone [SampleZone.rule_0230]
       (scheduledTimeOfIn zone SampleZone.springForwardDay SampleZone.rule_0230) = 1.
Proof. split; vm_compute; reflexivity. Qed.

(** X7.  When every rule of a prescription has a time of day with seconds
    other than 0, every dose of the prescription is shown with quantity 1,
    whatever the quantities of the rules are: the instants are made without
    the seconds, so no rule has the time text of an instant. *)
Theorem quantity_is_one_for_rules_with_seconds (schedules : list DoseSchedule.t)
    (date scheduledTime : JSDate.t) :
  Forall (fun ds => TimeOfDay.valid (DoseSchedule.dose_time ds)) schedules ->
  (forall ds, In ds schedules -> TimeOfDay.seconds (DoseSchedule.dose_time ds) <> 0) ->
  In scheduledTime (generateScheduledTimes schedules date) ->
  quantityFor schedules scheduledTime = 1.
Proof.
  intros Hvalid Hsec Hin. rewrite List.Forall_forall in Hvalid.
  apply generateScheduledTimes_In in Hin as (rule & Hrule & _ & ->).
  destruct (Hvalid rule Hrule) as (Hh & Hm & _).
  unfold quantityFor. rewrite find_is_None; [reflexivity|].
  intros ds Hds. unfold sameDoseTime. apply String.eqb_neq.
  rewrite (instant_text date rule Hh Hm). intros E.
  apply time_text_injective in E.
  - apply (Hsec ds Hds). now rewrite E.
  - now apply Hvalid.
  - unfold TimeOfDay.valid. simpl. lia.
Qed.

Lemma quantity_is_one_for_rules_with_seconds_witness :
  DoseSchedule.quantity Sample.rule_0800_30 = 2
  /\ quantityFor [Sample.rule_0800_30] Sample.at_0800 = 1.
Proof.
  split; [reflexivity|].
  apply (quantity_is_one_for_rules_with_seconds [Sample.rule_0800_30] Sample.day).
  - repeat constructor; simpl; lia.
  - intros ds [<-|[]]. simpl. lia.
  - vm_compute. auto.
Defined.

(* ===================================================================== *)
(** * The prescription card *)
(* ===================================================================== *)

Lemma find_in_sorted_is_least {A : Type} (key : A -> Z) (P : A -> bool) (l : list A)
    (x : A) :
  StronglySorted (fun a b => key a <= key b) l ->
  find P l = Some x ->
  forall y, In y l -> P y = true -> key x <= key y.
Proof.
  intros Hs. induction Hs as [|a l Hs IH Hall]; intros Hfind y Hy Py; [destruct Hy|].
  simpl in Hfind. destruct (P a) eqn:Pa.
  - injection Hfind as <-. destruct Hy as [<-|Hy]; [lia|].
    rewrite List.Forall_forall in Hall. now apply Hall.
  - destruct Hy as [<-|Hy]; [congruence|]. now apply IH.
Qed.

Lemma StronglySorted_map_key {A : Type} (key : A -> Z) (g : Z -> A) (l : list Z) :
  (forall t, key (g t) = t) ->
  StronglySorted Z.le l ->
  StronglySorted (fun a b => key a <= key b) (map g l).
Proof.
  intros Hkey Hs. induction Hs as [|t l Hs IH Hall]; simpl; constructor; [assumption|].
  rewrite List.Forall_forall in *. intros b Hb. apply in_map_iff in Hb as [u [<- Hu]].
  rewrite !Hkey. now apply Hall.
Qed.

(** The instants of a date depend on its day only. *)
Lemma generateScheduledTimes_same_day (schedules : list DoseSchedule.t)
    (a b : JSDate.t) :
  JSDate.dayNumber a = JSDate.dayNumber b ->
  generateScheduledTimes schedules a = generateScheduledTimes schedules b.
Proof.
  intros H. unfold generateScheduledTimes.
  rewrite (filter_ext (scheduleApplies a) (scheduleApplies b)).
  - f_equal. apply map_ext. intros rule. unfold scheduledTimeOf, JSDate.setHours.
    now rewrite H.
  - intros rule. unfold scheduleApplies, dayOfWeek. now rewrite (getDay_same_day a b H).
Qed.

(** X8.  The dose a card announces as the next dose is the pending dose of
    the day with the earliest scheduled time.  The present time of day plays
    no part in it: the doses of the card are the same at every moment of
    the day, so the dose announced can lie in the past. *)
Theorem next_dose_is_earliest_pending (doseSchedules : list DoseSchedule.t)
    (logs : list MedicationLog.t) (today : JSDate.t) (next : TodaysDose.t) :
  PrescriptionCard.nextDose (getTodaysDoses doseSchedules logs today) = Some next ->
  In next (getTodaysDoses doseSchedules logs today)
  /\ TodaysDose.status next = Status.pending
  /\ (forall dose,
        In dose (getTodaysDoses doseSchedules logs today) ->
        TodaysDose.status dose = Status.pending ->
        TodaysDose.time next <= TodaysDose.time dose)
  /\ (forall moment,
        JSDate.dayNumber moment = JSDate.dayNumber today ->
        PrescriptionCard.nextDose (getTodaysDoses doseSchedules logs moment) = Some next).
Proof.
  intros Hnext. unfold PrescriptionCard.nextDose in *.
  pose proof (find_some _ _ Hnext) as [Hin Hp]. apply Status_eqb_eq in Hp.
  repeat (split; [assumption|]). split.
  - intros dose Hd Hs.
    apply (find_in_sorted_is_least TodaysDose.time
             (fun d => Status.eqb (TodaysDose.status d) Status.pending)
             (getTodaysDoses doseSchedules logs today) next);
      [|exact Hnext|assumption|now apply Status_eqb_eq].
    unfold getTodaysDoses. apply StronglySorted_map_key; [reflexivity|].
    apply Sorted_StronglySorted; [intros x y z; apply Z.le_trans|].
    apply generateScheduledTimes_sorted.
  - intros moment Hm. unfold getTodaysDoses in *.
    now rewrite (generateScheduledTimes_same_day doseSchedules moment today Hm).
Qed.

Lemma next_dose_is_earliest_pending_witness :
  let doses :=
    getTodaysDoses [Sample.rule_2000; Sample.rule_0800] [Sample.log_5min] Sample.evening in
  let next := TodaysDose.mk Sample.at_0800 None Status.pending in
  In next doses
  /\ TodaysDose.status next = Status.pending
  /\ (forall dose,
        In dose doses -> TodaysDose.status dose = Status.pending ->
        TodaysDose.time next <= TodaysDose.time dose)
  /\ (forall moment,
        JSDate.dayNumber moment = JSDate.dayNumber Sample.evening ->
        PrescriptionCard.nextDose
          (getTodaysDoses [Sample.rule_2000; Sample.rule_0800] [Sample.log_5min] moment)
        = Some next).
Proof.
  apply (next_dose_is_earliest_pending [Sample.rule_2000; Sample.rule_0800]
           [Sample.log_5min] Sample.evening
           (TodaysDose.mk Sample.at_0800 None Status.pending)).
  vm_compute. reflexivity.
Defined.

(** Without a pending dose there is no next dose. *)
Lemma next_dose_none (todaysDoses : list TodaysDose.t) :
  PrescriptionCard.nextDose todaysDoses = None <->
  forall dose, In dose todaysDoses -> TodaysDose.status dose <> Status.pending.
Proof.
  unfold PrescriptionCard.nextDose. split.
  - intros H dose Hd Hs. pose proof (find_none _ _ H dose Hd) as Hf. simpl in Hf.
    rewrite Hs in Hf. discriminate.
  - intros H. apply find_is_None. intros dose Hd.
    destruct (Status.eqb (TodaysDose.status dose) Status.pending) eqn:E; [|reflexivity].
    apply Status_eqb_eq in E. now destruct (H dose Hd).
Qed.

(** X9.  The card does not consult the history events: the statuses of its
    doses are those the daily view computes for the same instants from the
    same log events and an empty history. *)
Theorem card_status_ignores_history (prescription : Prescription.t)
    (doseSchedules : list DoseSchedule.t) (logs : list MedicationLog.t)
    (now today : JSDate.t) :
  map TodaysDose.status (getTodaysDoses doseSchedules logs today)
  = map (fun time =>
           ScheduledDose.status
             (reconcile prescription doseSchedules [] logs now today time))
        (generateScheduledTimes doseSchedules today).
Proof.
  unfold getTodaysDoses. rewrite map_map. apply map_ext. intros time.
  rewrite (reconcile_unlinked prescription doseSchedules [] logs now today time eq_refl).
  reflexivity.
Qed.

(** A dose recorded in the history alone is shown as taken by the daily
    view and as pending by the card. *)
Example history_only_dose_pending_on_card :
  map TodaysDose.status (getTodaysDoses [Sample.rule_0800] [] Sample.evening)
  = [Status.pending]
  /\ map (fun time =>
            ScheduledDose.status
              (reconcile Sample.aspirin [Sample.rule_0800] [Sample.aspirin_taken] []
                 Sample.evening Sample.day time))
         (generateScheduledTimes [Sample.rule_0800] Sample.day)
     = [Status.taken].
Proof. split; vm_compute; reflexivity. Qed.

(* ===================================================================== *)
(** * Marking a dose *)
(* ===================================================================== *)

Lemma parse_empty : DateText.parse EmptyString = None.
Proof. reflexivity. Qed.

(** The instants of the expander are whole minutes. *)
Lemma generated_instant_whole_minute (schedules : list DoseSchedule.t)
    (date scheduledTime : JSDate.t) :
  In scheduledTime (generateScheduledTimes schedules date) ->
  scheduledTime mod 60000 = 0 /\ scheduledTime mod 1000 = 0.
Proof.
  intros Hin. apply generateScheduledTimes_In in Hin as (rule & _ & _ & ->).
  unfold scheduledTimeOf, JSDate.setHours, JSDate.msPerDay, JSDate.msPerHour,
    JSDate.msPerMinute, JSDate.msPerSecond. cbv zeta.
  split; Z.to_euclidean_division_equations; lia.
Qed.

Lemma handleMarkTaken_history (timestamptz : string -> option JSDate.t)
    (logRefused : bool) (now : JSDate.t) (historyId logId user_id : string)
    (call : PrescriptionCard.MarkTakenCall) (db : DashboardHandlers.Store) :
  DashboardHandlers.historyTable
    (DashboardHandlers.handleMarkTaken timestamptz false logRefused now historyId logId
       user_id call db)
  = DashboardHandlers.historyTable db
    ++ [DashboardHandlers.historyRow historyId user_id now call].
Proof.
  unfold DashboardHandlers.handleMarkTaken. cbv zeta.
  destruct (timestamptz _); [destruct logRefused|]; reflexivity.
Qed.

(** Cutting a date to the minute keeps its text to the minute and sets the
    seconds to 0. *)
Lemma format_floor_minute (d : JSDate.t) :
  format_datetime_local (d - d mod 60000) = format_datetime_local d
  /\ JSDate.getSeconds (d - d mod 60000) = 0
  /\ JSDate.getMilliseconds (d - d mod 60000) = 0.
Proof.
  assert (Hday : JSDate.dayNumber (d - d mod 60000) = JSDate.dayNumber d).
  { unfold JSDate.dayNumber, JSDate.msPerDay. Z.to_euclidean_division_equations; lia. }
  split.
  - unfold format_datetime_local. rewrite (format_date_same_day _ _ Hday).
    unfold JSDate.getHours, JSDate.getMinutes, JSDate.msOfDay, JSDate.msPerDay,
      JSDate.msPerHour, JSDate.msPerMinute.
    replace ((d - d mod 60000) mod 86400000 / 3600000) with (d mod 86400000 / 3600000)
      by (Z.to_euclidean_division_equations; lia).
    replace ((d - d mod 60000) mod 86400000 / 60000) with (d mod 86400000 / 60000)
      by (Z.to_euclidean_division_equations; lia).
    reflexivity.
  - apply whole_minute_seconds. Z.to_euclidean_division_equations; lia.
Qed.

(** X10.  Marking a dose of the card as taken and confirming the dialog as
    it opens stores a history event under which the daily view shows the
    dose as taken and linked to a history event, wherever the stored event
    stands in the loaded history and whatever the log events are.  The
    time taken that is stored reads, to the minute, as the moment of the
    click does on the clock, and has no seconds. *)
Theorem mark_taken_then_daily_view_taken (prescription : Prescription.t)
    (schedules : list DoseSchedule.t) (date scheduledTime now : JSDate.t)
    (quantity : Z) (card : PrescriptionCard.State) :
  Forall (fun ds => TimeOfDay.valid (DoseSchedule.dose_time ds)) schedules ->
  In scheduledTime (generateScheduledTimes schedules date) ->
  fourDigitYear now ->
  PrescriptionCard.correctedScheduledDateTime card = EmptyString ->
  exists call card' actual,
    PrescriptionCard.confirmMarkTaken
      (PrescriptionCard.handleMarkTaken prescription now (Prescription.id prescription)
         scheduledTime quantity card)
    = PrescriptionCard.Called call card'
    /\ PrescriptionCard.showTakenDialog card' = None
    /\ PrescriptionCard.callActualDateTime call = Some actual
    /\ format_datetime_local actual = format_datetime_local now
    /\ JSDate.getSeconds actual = 0
    /\ JSDate.getMilliseconds actual = 0
    /\ forall timestamptz logRefused moment historyId logId user_id db history logs now',
         let db' :=
           DashboardHandlers.handleMarkTaken timestamptz false logRefused moment
             historyId logId user_id call db in
         let row := DashboardHandlers.historyRow historyId user_id moment call in
         DashboardHandlers.historyTable db' = DashboardHandlers.historyTable db ++ [row]
         /\ MedicationHistory.actual_taken_datetime row = Some actual
         /\ (In row history ->
             let dose :=
               reconcile prescription schedules history logs now' date scheduledTime in
             ScheduledDose.status dose = Status.taken
             /\ exists h, ScheduledDose.historyEntry dose = Some h).
Proof.
  intros Hvalid Hgen Hnow Hcorr.
  destruct (format_parse_roundtrip now Hnow) as [_ Hparse].
  pose proof (generated_instant_same_day _ _ _ Hvalid Hgen) as Hday.
  apply format_date_same_day in Hday.
  unfold PrescriptionCard.confirmMarkTaken, PrescriptionCard.handleMarkTaken.
  cbn [PrescriptionCard.showTakenDialog PrescriptionCard.actualDateTime
       PrescriptionCard.correctedScheduledDateTime].
  rewrite Hcorr, Hparse.
  destruct (String.eqb_spec (format_datetime_local now) EmptyString) as [E|_].
  { rewrite E, parse_empty in Hparse. discriminate. }
  cbn [String.eqb negb PrescriptionCard.scheduledTime PrescriptionCard.prescriptionId
       PrescriptionCard.prescriptionName PrescriptionCard.dosage PrescriptionCard.quantity].
  destruct (format_floor_minute now) as (Htext & Hsec & Hms).
  eexists. eexists. exists (now - now mod 60000).
  split; [reflexivity|]. split; [reflexivity|]. split; [reflexivity|].
  split; [exact Htext|]. split; [exact Hsec|]. split; [exact Hms|].
  intros timestamptz logRefused moment historyId logId user_id db history logs now'.
  cbv zeta. split; [apply handleMarkTaken_history|]. split; [reflexivity|].
  intros Hrow.
  destruct (find_is_Some (historyMatches prescription date scheduledTime) history)
    as [h Hfind].
  { eexists. split; [exact Hrow|]. apply historyMatches_iff. simpl.
    split; [reflexivity|]. split; [assumption|reflexivity]. }
  rewrite (reconcile_linked _ _ _ _ _ _ _ _ Hfind). simpl. eauto.
Qed.

Lemma fourDigitYear_sample :
  fourDigitYear Sample.at_0800 /\ fourDigitYear Sample.evening
  /\ fourDigitYear Sample3.evening_42 /\ fourDigitYear (JSDate.make 2024 1 10 9 0 0).
Proof. unfold fourDigitYear. repeat split; vm_compute; discriminate. Qed.

Lemma mark_taken_then_daily_view_taken_witness :
  exists call card' actual,
    PrescriptionCard.confirmMarkTaken
      (PrescriptionCard.handleMarkTaken Sample.aspirin Sample3.evening_42 "p1"
         Sample.at_0800 2 Sample3.idleCard)
    = PrescriptionCard.Called call card'
    /\ PrescriptionCard.callActualDateTime call = Some actual
    /\ format_datetime_local actual = "2024-01-10T20:00"%string
    /\ ScheduledDose.status
         (reconcile Sample.aspirin [Sample.rule_0800]
            (Sample.ibuprofen_taken
             :: DashboardHandlers.historyTable
                  (DashboardHandlers.handleMarkTaken DateText.parse false false
                     Sample3.evening_42 "h9" "l9" "u1" call Sample3.emptyStore))
            [] Sample.evening Sample.day Sample.at_0800)
       = Status.taken.
Proof.
  destruct (mark_taken_then_daily_view_taken Sample.aspirin [Sample.rule_0800]
              Sample.day Sample.at_0800 Sample3.evening_42 2 Sample3.idleCard)
    as (call & card' & actual & Hcall & _ & Hactual & Htext & _ & _ & Hrest).
  - repeat constructor; simpl; lia.
  - vm_compute. auto.
  - unfold fourDigitYear. split; vm_compute; discriminate.
  - reflexivity.
  - exists call, card', actual. split; [exact Hcall|]. split; [exact Hactual|].
    split; [exact Htext|].
    destruct (Hrest DateText.parse false Sample3.evening_42 "h9"%string "l9"%string
                "u1"%string Sample3.emptyStore
                (Sample.ibuprofen_taken
                 :: DashboardHandlers.historyTable
                      (DashboardHandlers.handleMarkTaken DateText.parse false false
                         Sample3.evening_42 "h9" "l9" "u1" call Sample3.emptyStore))
                [] Sample.evening) as (Htable & _ & Htaken).
    apply Htaken. right. rewrite Htable. simpl. auto.
Defined.

(** X11.  Every dose marked as taken through the dialog of the card is
    stored with the corrected flag set, also when the time proposed by the
    dialog was confirmed as it was: the card always passes a time taken,
    and a time taken that is passed sets the flag.  The time stored is the
    one read from the dialog, and the dialog is closed. *)
Theorem card_marks_stored_as_corrected (card card' : PrescriptionCard.State)
    (call : PrescriptionCard.MarkTakenCall) :
  PrescriptionCard.confirmMarkTaken card = PrescriptionCard.Called call card' ->
  (forall historyId user_id now,
     let row := DashboardHandlers.historyRow historyId user_id now call in
     MedicationHistory.is_corrected row = true
     /\ MedicationHistory.actual_taken_datetime row
        = DateText.parse (PrescriptionCard.actualDateTime card)
     /\ MedicationHistory.notes row = EmptyString)
  /\ PrescriptionCard.showTakenDialog card' = None
  /\ PrescriptionCard.actualDateTime card' = EmptyString
  /\ PrescriptionCard.correctedScheduledDateTime card' = EmptyString.
Proof.
  unfold PrescriptionCard.confirmMarkTaken. intros H.
  destruct (PrescriptionCard.showTakenDialog card) as [dialog|]; [|discriminate].
  destruct (String.eqb (PrescriptionCard.actualDateTime card) EmptyString);
    [discriminate|].
  destruct (if negb (String.eqb (PrescriptionCard.correctedScheduledDateTime card)
                       EmptyString)
            then DateText.parse (PrescriptionCard.correctedScheduledDateTime card)
            else Some (PrescriptionCard.scheduledTime dialog)) as [scheduled|];
    [|discriminate].
  destruct (DateText.parse (PrescriptionCard.actualDateTime card)) as [actual|];
    [|discriminate].
  injection H as <- <-. repeat split.
Qed.

Lemma card_marks_stored_as_corrected_witness :
  exists call card',
    PrescriptionCard.confirmMarkTaken
      (PrescriptionCard.handleMarkTaken Sample.aspirin Sample3.evening_42 "p1"
         Sample.at_0800 2 Sample3.idleCard)
    = PrescriptionCard.Called call card'
    /\ MedicationHistory.is_corrected
         (DashboardHandlers.historyRow "h9" "u1" Sample3.evening_42 call) = true.
Proof.
  eexists. eexists.
  assert (H : PrescriptionCard.confirmMarkTaken
                (PrescriptionCard.handleMarkTaken Sample.aspirin Sample3.evening_42 "p1"
                   Sample.at_0800 2 Sample3.idleCard)
              = PrescriptionCard.Called
                  {| PrescriptionCard.callPrescriptionId := "p1";
                     PrescriptionCard.callPrescriptionName := "Aspirin";
                     PrescriptionCard.callDosage := "100mg";
                     PrescriptionCard.callScheduledDate := "2024-01-10";
                     PrescriptionCard.callScheduledTime := "08:00:00";
                     PrescriptionCard.callQuantity := 2;
                     PrescriptionCard.callActualDateTime := Some Sample.evening |}
                  Sample3.idleCard)
    by (vm_compute; reflexivity).
  split; [exact H|].
  apply (card_marks_stored_as_corrected _ _ _ H).
Defined.

(** The date and time texts of a date are those of the date cut to the
    second. *)
Lemma format_floor_second (d : JSDate.t) :
  JSDate.format_yyyy_MM_dd (d - d mod 1000) = JSDate.format_yyyy_MM_dd d
  /\ JSDate.format_HH_mm_ss (d - d mod 1000) = JSDate.format_HH_mm_ss d.
Proof.
  assert (Hday : JSDate.dayNumber (d - d mod 1000) = JSDate.dayNumber d).
  { unfold JSDate.dayNumber, JSDate.msPerDay. Z.to_euclidean_division_equations; lia. }
  split; [now apply format_date_same_day|].
  unfold JSDate.format_HH_mm_ss, JSDate.getHours, JSDate.getMinutes, JSDate.getSeconds,
    JSDate.msOfDay, JSDate.msPerDay, JSDate.msPerHour, JSDate.msPerMinute,
    JSDate.msPerSecond.
  replace ((d - d mod 1000) mod 86400000 / 3600000) with (d mod 86400000 / 3600000)
    by (Z.to_euclidean_division_equations; lia).
  replace ((d - d mod 1000) mod 86400000 / 60000) with (d mod 86400000 / 60000)
    by (Z.to_euclidean_division_equations; lia).
  replace ((d - d mod 1000) mod 86400000 / 1000) with (d mod 86400000 / 1000)
    by (Z.to_euclidean_division_equations; lia).
  reflexivity.
Qed.

(** Two dates have the same date text and the same time text exactly when
    they lie in the same second. *)
Lemma formats_equal_iff (a b : JSDate.t) :
  fourDigitYear a -> fourDigitYear b ->
  (JSDate.format_yyyy_MM_dd a = JSDate.format_yyyy_MM_dd b
   /\ JSDate.format_HH_mm_ss a = JSDate.format_HH_mm_ss b)
  <-> a - a mod 1000 = b - b mod 1000.
Proof.
  intros Ha Hb. split.
  - intros [Hd Ht].
    destruct (format_parse_roundtrip a Ha) as [Ra _].
    destruct (format_parse_roundtrip b Hb) as [Rb _].
    rewrite Hd, Ht, Rb in Ra. now injection Ra.
  - intros E.
    destruct (format_floor_second a) as [<- <-].
    destruct (format_floor_second b) as [<- <-]. now rewrite E.
Qed.

(** X12.  When the scheduled time is corrected in the dialog, the history
    event stored records the corrected date and time in place of those of
    the dose: the daily view links the stored event to the dose the dialog
    was opened for only if the corrected time is, to the second, the time
    of that dose.  Corrected to another time, the event leaves the dose as
    it was. *)
Theorem corrected_schedule_replaces_recorded_time (prescription : Prescription.t)
    (schedules : list DoseSchedule.t) (date scheduledTime corrected actual : JSDate.t)
    (card : PrescriptionCard.State) (dialog : PrescriptionCard.TakenDialog) :
  Forall (fun ds => TimeOfDay.valid (DoseSchedule.dose_time ds)) schedules ->
  In scheduledTime (generateScheduledTimes schedules date) ->
  PrescriptionCard.showTakenDialog card = Some dialog ->
  PrescriptionCard.prescriptionId dialog = Prescription.id prescription ->
  PrescriptionCard.scheduledTime dialog = scheduledTime ->
  DateText.parse (PrescriptionCard.actualDateTime card) = Some actual ->
  DateText.parse (PrescriptionCard.correctedScheduledDateTime card) = Some corrected ->
  fourDigitYear scheduledTime ->
  fourDigitYear corrected ->
  exists call card',
    PrescriptionCard.confirmMarkTaken card = PrescriptionCard.Called call card'
    /\ PrescriptionCard.callScheduledDate call = JSDate.format_yyyy_MM_dd corrected
    /\ PrescriptionCard.callScheduledTime call = JSDate.format_HH_mm_ss corrected
    /\ forall historyId user_id now,
         let row := DashboardHandlers.historyRow historyId user_id now call in
         (historyMatches prescription date scheduledTime row = true
          <-> corrected - corrected mod 1000 = scheduledTime)
         /\ (corrected - corrected mod 1000 <> scheduledTime ->
             forall history logs now',
               reconcile prescription schedules (history ++ [row]) logs now' date
                 scheduledTime
               = reconcile prescription schedules history logs now' date scheduledTime).
Proof.
  intros Hvalid Hgen Hdialog Hid Hst Hactual Hcorr Hy Hyc.
  pose proof (generated_instant_same_day _ _ _ Hvalid Hgen) as Hday.
  apply format_date_same_day in Hday.
  destruct (generated_instant_whole_minute _ _ _ Hgen) as [_ Hms].
  unfold PrescriptionCard.confirmMarkTaken. rewrite Hdialog, Hactual, Hcorr.
  destruct (String.eqb_spec (PrescriptionCard.actualDateTime card) EmptyString) as [E|_].
  { rewrite E, parse_empty in Hactual. discriminate. }
  destruct (String.eqb_spec (PrescriptionCard.correctedScheduledDateTime card) EmptyString)
    as [E|_].
  { rewrite E, parse_empty in Hcorr. discriminate. }
  cbn [negb]. eexists. eexists. split; [reflexivity|].
  split; [reflexivity|]. split; [reflexivity|].
  intros historyId user_id now.
  match goal with |- context [historyMatches _ _ _ ?r] => set (row := r) end.
  assert (Hiff : historyMatches prescription date scheduledTime row = true
                 <-> corrected - corrected mod 1000 = scheduledTime).
  { rewrite historyMatches_iff. unfold row. simpl. rewrite Hid, <- Hday.
    rewrite (formats_equal_iff corrected scheduledTime Hyc Hy), Hms. 
    replace (scheduledTime - 0) with scheduledTime by lia. tauto. }
  split; [exact Hiff|].
  intros Hne history logs now'.
  assert (Hfalse : historyMatches prescription date scheduledTime row = false).
  { destruct (historyMatches prescription date scheduledTime row); [|reflexivity].
    now destruct Hne; apply Hiff. }
  assert (Hfind : find (historyMatches prescription date scheduledTime) (history ++ [row])
                  = find (historyMatches prescription date scheduledTime) history).
  { clear Hiff. induction history as [|h history IH]; simpl.
    - now rewrite Hfalse.
    - destruct (historyMatches prescription date scheduledTime h); [reflexivity|exact IH]. }
  unfold reconcile. now rewrite Hfind.
Qed.

Lemma corrected_schedule_replaces_recorded_time_witness :
  exists call card',
    PrescriptionCard.confirmMarkTaken Sample3.correctingCard
    = PrescriptionCard.Called call card'
    /\ PrescriptionCard.callScheduledTime call = "09:00:00"%string
    /\ ScheduledDose.status
         (reconcile Sample.aspirin [Sample.rule_0800]
            ([] ++ [DashboardHandlers.historyRow "h9" "u1" Sample.evening call])
            [] Sample.evening Sample.day Sample.at_0800)
       = Status.pending.
Proof.
  destruct (corrected_schedule_replaces_recorded_time Sample.aspirin [Sample.rule_0800]
              Sample.day Sample.at_0800 (JSDate.make 2024 1 10 9 0 0) Sample.at_0810
              Sample3.correctingCard
              {| PrescriptionCard.prescriptionId := "p1";
                 PrescriptionCard.prescriptionName := "Aspirin";
                 PrescriptionCard.dosage := "100mg";
                 PrescriptionCard.scheduledTime := Sample.at_0800;
                 PrescriptionCard.quantity := 2 |})
    as (call & card' & Hcall & _ & Htime & Hrow).
  - repeat constructor; simpl; lia.
  - vm_compute. auto.
  - reflexivity.
  - reflexivity.
  - reflexivity.
  - vm_compute. reflexivity.
  - vm_compute. reflexivity.
  - unfold fourDigitYear. split; vm_compute; discriminate.
  - unfold fourDigitYear. split; vm_compute; discriminate.
  - exists call, card'. split; [exact Hcall|]. split; [exact Htime|].
    destruct (Hrow "h9"%string "u1"%string Sample.evening) as [_ Hsame].
    rewrite Hsame; [vm_compute; reflexivity|].
    vm_compute. discriminate.
Defined.

(** X13.  The history view reads the scheduled date and time that the card
    stored for a dose back as the instant of the dose, so it measures the
    timing of the dose from the same instant as the daily view and shows
    the same label. *)
Theorem history_view_reads_back_instant (schedules : list DoseSchedule.t)
    (date scheduledTime : JSDate.t) (actual : option JSDate.t) :
  In scheduledTime (generateScheduledTimes schedules date) ->
  fourDigitYear scheduledTime ->
  let scheduled := JSDate.format_yyyy_MM_dd scheduledTime in
  let time := JSDate.format_HH_mm_ss scheduledTime in
  PrescriptionHistoryModal.scheduledDateTimeOf scheduled time = Some scheduledTime
  /\ PrescriptionHistoryModal.getTimeDifference scheduled time actual
     = DailyPrescriptionsModal.getTimeDifference scheduledTime actual
  /\ (forall a, actual = Some a ->
        PrescriptionHistoryModal.diffMinutesOf scheduled time actual
        = Some (offsetMinutes scheduledTime a)).
Proof.
  intros Hgen Hy scheduled time.
  destruct (generated_instant_whole_minute _ _ _ Hgen) as [_ Hms].
  destruct (format_parse_roundtrip scheduledTime Hy) as [Hparse _].
  rewrite Hms in Hparse. replace (scheduledTime - 0) with scheduledTime in Hparse by lia.
  assert (Hread : PrescriptionHistoryModal.scheduledDateTimeOf scheduled time
                  = Some scheduledTime) by exact Hparse.
  split; [exact Hread|]. split.
  - unfold PrescriptionHistoryModal.getTimeDifference,
      PrescriptionHistoryModal.diffMinutesOf, DailyPrescriptionsModal.getTimeDifference.
    rewrite Hread. now destruct actual.
  - intros a ->. unfold PrescriptionHistoryModal.diffMinutesOf. now rewrite Hread.
Qed.

Lemma history_view_reads_back_instant_witness :
  PrescriptionHistoryModal.scheduledDateTimeOf
    (JSDate.format_yyyy_MM_dd Sample.at_0800) (JSDate.format_HH_mm_ss Sample.at_0800)
  = Some Sample.at_0800.
Proof.
  apply (history_view_reads_back_instant [Sample.rule_0800] Sample.day Sample.at_0800
           (Some Sample.at_0810)).
  - vm_compute. auto.
  - unfold fourDigitYear. split; vm_compute; discriminate.
Defined.

(** X14.  Marking a dose of the card as missed stores a log event at the
    instant of the dose.  If no log event was within the tolerance of the
    instant before, then, whatever part of the stored log events the card
    is given and in whatever order, as long as the new one is among them,
    the card shows the dose as missed, linked to the stored log event. *)
Theorem mark_missed_then_card_shows_missed (schedules : list DoseSchedule.t)
    (today time : JSDate.t) (logId user_id prescriptionId : string)
    (db : DashboardHandlers.Store) (logs : list MedicationLog.t) :
  In time (generateScheduledTimes schedules today) ->
  (forall l, In l (DashboardHandlers.logTable db) -> ~ withinTolerance time l) ->
  let db' := DashboardHandlers.handleMarkMissed false logId user_id prescriptionId time db in
  let row :=
    MedicationLog.mk logId prescriptionId user_id (Some time) None None Status.missed
      false EmptyString in
  In row logs ->
  (forall l, In l logs -> In l (DashboardHandlers.logTable db')) ->
  DashboardHandlers.logTable db' = DashboardHandlers.logTable db ++ [row]
  /\ DashboardHandlers.historyTable db' = DashboardHandlers.historyTable db
  /\ In (TodaysDose.mk time (Some row) Status.missed) (getTodaysDoses schedules logs today).
Proof.
  intros Hgen Hnone db' row Hin Hsub.
  split; [reflexivity|]. split; [reflexivity|].
  assert (Hrow : logMatches time row = true).
  { unfold logMatches. simpl. apply Z.ltb_lt. rewrite Z.sub_diag. simpl. lia. }
  destruct (find_is_Some (logMatches time) logs) as [l Hfind]; [eauto|].
  assert (l = row) as ->.
  { apply find_some in Hfind as [Hl Hm]. apply Hsub in Hl.
    unfold db' in Hl. simpl in Hl. apply in_app_or in Hl as [Hl|[Hl|[]]]; [|now symmetry].
    apply logMatches_iff in Hm. now destruct (Hnone l Hl). }
  unfold getTodaysDoses. apply in_map_iff. exists time. rewrite Hfind. auto.
Qed.

Lemma mark_missed_then_card_shows_missed_witness :
  In (TodaysDose.mk Sample.at_0800
        (Some (MedicationLog.mk "l9" "p1" "u1" (Some Sample.at_0800) None None
                 Status.missed false EmptyString))
        Status.missed)
     (getTodaysDoses [Sample.rule_0800]
        [MedicationLog.mk "l9" "p1" "u1" (Some Sample.at_0800) None None
           Status.missed false EmptyString; Sample.log_5min]
        Sample.evening).
Proof.
  apply (mark_missed_then_card_shows_missed [Sample.rule_0800] Sample.evening
           Sample.at_0800 "l9" "u1" "p1"
           {| DashboardHandlers.historyTable := [];
              DashboardHandlers.logTable := [Sample.log_5min] |}).
  - vm_compute. auto.
  - intros l [<-|[]] [t [E H]]. injection E as <-. vm_compute in H. discriminate.
  - simpl. auto.
  - intros l [<-|[<-|[]]]; simpl; auto.
Defined.

(* ===================================================================== *)
(** * Further properties of the history view *)
(* ===================================================================== *)

(** X15.  Opening an entry for edit and saving it without touching the form
    is not a neutral act: the time taken that is stored is read from the
    text of the form, which holds the time to the minute, so it reads as
    the same minute on the clock and has lost its seconds; and the
    corrected flag is set.  The notes and the scheduled fields are kept. *)
Theorem untouched_edit_cuts_seconds (entry : MedicationHistory.t)
    (st : PrescriptionHistoryModal.EditState) (actual : JSDate.t) :
  PrescriptionHistoryModal.table st !! MedicationHistory.id entry = Some entry ->
  MedicationHistory.id entry <> EmptyString ->
  MedicationHistory.actual_taken_datetime entry = Some actual ->
  fourDigitYear actual ->
  exists editing saved stored,
    HistoryView.handleEditEntry entry st = Some editing
    /\ PrescriptionHistoryModal.handleSaveEdit false editing
       = (saved, PrescriptionHistoryModal.Saved)
    /\ PrescriptionHistoryModal.table saved !! MedicationHistory.id entry
       = Some (MedicationHistory.mk
                 (MedicationHistory.id entry) (MedicationHistory.user_id entry)
                 (MedicationHistory.prescription_id entry)
                 (MedicationHistory.prescription_name entry)
                 (MedicationHistory.dosage entry)
                 (MedicationHistory.scheduled_date entry)
                 (MedicationHistory.scheduled_time entry)
                 (Some stored)
                 (MedicationHistory.quantity_taken entry) true
                 (MedicationHistory.notes entry))
    /\ PrescriptionHistoryModal.editingEntry saved = None
    /\ format_datetime_local stored = format_datetime_local actual
    /\ JSDate.getSeconds stored = 0
    /\ JSDate.getMilliseconds stored = 0.
Proof.
  intros Hrow Hid Hactual Hy.
  destruct (format_parse_roundtrip actual Hy) as [_ Hparse].
  destruct (format_floor_minute actual) as (Htxt & Hsec & Hms).
  unfold HistoryView.handleEditEntry. rewrite Hactual.
  eexists. eexists. exists (actual - actual mod 60000). split; [reflexivity|].
  assert (Htext : format_datetime_local actual <> EmptyString).
  { intros E. rewrite E, parse_empty in Hparse. discriminate. }
  rewrite (handleSaveEdit_succeeds _ (MedicationHistory.id entry) (actual - actual mod 60000));
    try assumption; try reflexivity.
  split; [reflexivity|]. cbn [PrescriptionHistoryModal.table
    PrescriptionHistoryModal.editingEntry PrescriptionHistoryModal.editNotes].
  split; [rewrite lookup_alter_eq, Hrow; reflexivity|].
  split; [reflexivity|]. split; [exact Htxt|]. split; [exact Hsec|exact Hms].
Qed.

Lemma untouched_edit_cuts_seconds_witness :
  let entry := Sample.historyAt "h1" "p1" (JSDate.make 2024 1 10 8 10 42) in
  let st :=
    {| PrescriptionHistoryModal.table := {[ "h1"%string := entry ]};
       PrescriptionHistoryModal.editingEntry := None;
       PrescriptionHistoryModal.editDateTime := EmptyString;
       PrescriptionHistoryModal.editNotes := EmptyString |} in
  exists editing saved stored,
    HistoryView.handleEditEntry entry st = Some editing
    /\ PrescriptionHistoryModal.handleSaveEdit false editing
       = (saved, PrescriptionHistoryModal.Saved)
    /\ PrescriptionHistoryModal.table saved !! "h1"%string
       = Some (MedicationHistory.mk "h1" "u1" "p1" EmptyString EmptyString
                 "2024-01-10" "08:00:00" (Some stored) 1 true EmptyString)
    /\ PrescriptionHistoryModal.editingEntry saved = None
    /\ format_datetime_local stored = "2024-01-10T08:10"%string
    /\ JSDate.getSeconds stored = 0
    /\ JSDate.getMilliseconds stored = 0.
Proof.
  apply (untouched_edit_cuts_seconds
           (Sample.historyAt "h1" "p1" (JSDate.make 2024 1 10 8 10 42))
           {| PrescriptionHistoryModal.table :=
                {[ "h1"%string := Sample.historyAt "h1" "p1" (JSDate.make 2024 1 10 8 10 42) ]};
              PrescriptionHistoryModal.editingEntry := None;
              PrescriptionHistoryModal.editDateTime := EmptyString;
              PrescriptionHistoryModal.editNotes := EmptyString |}
           (JSDate.make 2024 1 10 8 10 42)).
  - vm_compute. reflexivity.
  - discriminate.
  - reflexivity.
  - unfold fourDigitYear. split; vm_compute; discriminate.
Defined.

(** X16.  The entries of the history view are the entries of the history
    that pass its filters.  With both dates
    given an entry passes exactly when its time taken is a date whose day
    lies between the start day and the end day, both included; an entry
    without a readable time taken is dropped.  With a prescription selected
    it must carry the name of that prescription. *)
Theorem history_view_filters (st : HistoryView.FilterState) (entry : MedicationHistory.t) :
  In entry (HistoryView.applyFilters st) <->
  In entry (HistoryView.history st)
  /\ (forall startDay endDay,
        HistoryView.startDate st = Some startDay ->
        HistoryView.endDate st = Some endDay ->
        exists taken,
          MedicationHistory.actual_taken_datetime entry = Some taken
          /\ startDay <= JSDate.dayNumber taken <= endDay)
  /\ (HistoryView.selectedPrescription st <> "all"%string ->
      MedicationHistory.prescription_name entry = HistoryView.selectedPrescription st).
Proof.
  assert (Hrange : forall startDay endDay,
            HistoryView.inDateRange startDay endDay entry = true <->
            exists taken,
              MedicationHistory.actual_taken_datetime entry = Some taken
              /\ startDay <= JSDate.dayNumber taken <= endDay).
  { intros startDay endDay. unfold HistoryView.inDateRange.
    destruct (MedicationHistory.actual_taken_datetime entry) as [taken|].
    - rewrite andb_true_iff, !Z.leb_le. unfold JSDate.dayNumber, JSDate.msPerDay.
      split.
      + intros H. exists taken. split; [reflexivity|].
        Z.to_euclidean_division_equations; lia.
      + intros [t [E H]]. injection E as <-. Z.to_euclidean_division_equations; lia.
    - split; [discriminate|]. intros [t [E _]]. discriminate. }
  unfold HistoryView.applyFilters. rewrite Array_sort_In.
  destruct (String.eqb_spec (HistoryView.selectedPrescription st) "all") as [E1|E1];
    cbn [negb];
    destruct (HistoryView.startDate st) as [startDay|];
    destruct (HistoryView.endDate st) as [endDay|];
    rewrite ?filter_In, ?String.eqb_eq, ?Hrange;
    (split;
     [intros H; repeat split; try tauto; try congruence;
      try (intros s e Es Ee; injection Es as <-; injection Ee as <-; tauto);
      try (intros s e Es Ee; discriminate)
     |intros (Hin & Hdates & Hname); repeat split; auto]).
Qed.

(** X17.  Saving an edit never adds or removes a history entry and never
    changes an entry other than the one under edit; of that one it keeps
    the identity and the scheduled fields.  Unless the save succeeds
    nothing changes at all, the form included. *)
Theorem save_edit_touches_only_edited_entry (refused : bool)
    (st : PrescriptionHistoryModal.EditState) :
  let st' := fst (PrescriptionHistoryModal.handleSaveEdit refused st) in
  let outcome := snd (PrescriptionHistoryModal.handleSaveEdit refused st) in
  (outcome <> PrescriptionHistoryModal.Saved -> st' = st)
  /\ (forall id, PrescriptionHistoryModal.editingEntry st <> Some id ->
        PrescriptionHistoryModal.table st' !! id = PrescriptionHistoryModal.table st !! id)
  /\ (forall id, PrescriptionHistoryModal.table st' !! id = None <->
                 PrescriptionHistoryModal.table st !! id = None)
  /\ (forall id row',
        PrescriptionHistoryModal.table st' !! id = Some row' ->
        exists row,
          PrescriptionHistoryModal.table st !! id = Some row
          /\ MedicationHistory.id row' = MedicationHistory.id row
          /\ MedicationHistory.user_id row' = MedicationHistory.user_id row
          /\ MedicationHistory.prescription_id row' = MedicationHistory.prescription_id row
          /\ MedicationHistory.scheduled_date row' = MedicationHistory.scheduled_date row
          /\ MedicationHistory.scheduled_time row' = MedicationHistory.scheduled_time row
          /\ MedicationHistory.quantity_taken row' = MedicationHistory.quantity_taken row).
Proof.
  intros st' outcome.
  destruct (PrescriptionHistoryModal.handleSaveEdit refused st) as [st1 out1] eqn:E.
  subst st' outcome. cbn [fst snd].
  split; [apply (handleSaveEdit_otherwise refused _ _ _ E)|].
  destruct out1;
    try (assert (st1 = st) as -> by (apply (handleSaveEdit_otherwise refused _ _ _ E);
                                     discriminate);
         split; [reflexivity|]; split; [reflexivity|];
         intros id row' H; exists row'; repeat split; assumption).
  destruct (handleSaveEdit_Saved _ _ _ E) as (entryId & actual & Ee & _ & _ & Et).
  rewrite Et. split; [|split].
  - intros id Hne. apply lookup_alter_ne. congruence.
  - intros id. destruct (decide (entryId = id)) as [->|Hne].
    + rewrite lookup_alter_eq.
      destruct (PrescriptionHistoryModal.table st !! id); simpl;
        split; intros; congruence.
    + now rewrite lookup_alter_ne.
  - intros id row'. destruct (decide (entryId = id)) as [->|Hne].
    + rewrite lookup_alter_eq.
      destruct (PrescriptionHistoryModal.table st !! id) as [row|]; simpl; [|discriminate].
      intros H. injection H as <-. exists row. repeat split.
    + rewrite lookup_alter_ne by assumption. intros H. exists row'. repeat split.
      assumption.
Qed.

(** X18.  In the history view every entry the stats bar counts as on time
    is shown in green: the stats bar compares the unrounded distance with
    15 minutes, the colour the rounded one. *)
Theorem counted_on_time_is_shown_green (entry : MedicationHistory.t) :
  PrescriptionHistoryModal.isOnTime entry = true ->
  PrescriptionHistoryModal.getTimeDifferenceColor
    (MedicationHistory.scheduled_date entry) (MedicationHistory.scheduled_time entry)
    (MedicationHistory.actual_taken_datetime entry)
  = "text-green-600 bg-green-50"%string.
Proof.
  unfold PrescriptionHistoryModal.isOnTime,
    PrescriptionHistoryModal.getTimeDifferenceColor,
    PrescriptionHistoryModal.diffMinutesOf.
  destruct (PrescriptionHistoryModal.scheduledDateTimeOf _ _) as [scheduled|];
    [|discriminate].
  destruct (MedicationHistory.actual_taken_datetime entry) as [actual|]; [|discriminate].
  change 15%Q with (inject_Z 15). rewrite minutes_le_iff. intros H.
  apply Z.leb_le in H.
  fold (offsetMinutes scheduled actual). rewrite offsetMinutes_eq.
  assert (Hle : Z.abs ((actual - scheduled + 30000) / 60000) <= 15)
    by (Z.to_euclidean_division_equations; lia).
  apply Z.leb_le in Hle. now rewrite Hle.
Qed.

Lemma counted_on_time_is_shown_green_witness :
  PrescriptionHistoryModal.getTimeDifferenceColor
    "2024-01-10" "08:00:00" (Some Sample.at_0810)
  = "text-green-600 bg-green-50"%string.
Proof.
  apply (counted_on_time_is_shown_green (Sample.historyAt "h1" "p1" Sample.at_0810)).
  vm_compute. reflexivity.
Defined.

(** The converse fails: an entry taken 15 minutes and 20 seconds late is
    green without being counted as on time. *)
Example green_entry_not_counted_on_time :
  let entry := Sample.historyAt "h1" "p1" Sample.at_0815_20 in
  PrescriptionHistoryModal.getTimeDifferenceColor
    (MedicationHistory.scheduled_date entry) (MedicationHistory.scheduled_time entry)
    (MedicationHistory.actual_taken_datetime entry)
  = "text-green-600 bg-green-50"%string
  /\ PrescriptionHistoryModal.isOnTime entry = false.
Proof. split; vm_compute; reflexivity. Qed.

(* ===================================================================== *)
(** * The prescription form *)
(* ===================================================================== *)



(** The texts of two numbers below 10 are in the order of the numbers. *)
Lemma digit_order_all : checkFrom digitOrderOk 0 10 = true.
Proof. vm_compute. reflexivity. Qed.

Lemma digit_order (a b : Z) :
  0 <= a < 10 -> 0 <= b < 10 ->
  PrescriptionForm.compareText (PrescriptionForm.Number_toString a)
                               (PrescriptionForm.Number_toString b)
  = Z.sgn (a - b).
Proof.
  intros Ha Hb.
  pose proof (checkFrom_spec digitOrderOk _ 0 digit_order_all a ltac:(simpl; lia)) as H.
  unfold digitOrderOk in H.
  pose proof (checkFrom_spec _ _ 0 H b ltac:(simpl; lia)) as H'.
  now apply Z.eqb_eq in H'.
Qed.

Section SortExt.
Context {A : Type} (c1 c2 : A -> A -> Z).

Lemma sort_insert_ext (x : A) (l : list A) :
  (forall y, In y l -> (c1 x y <=? 0) = (c2 x y <=? 0)) ->
  sort_insert c1 x l = sort_insert c2 x l.
Proof.
  induction l as [|y l IH]; simpl; intros H; [reflexivity|].
  rewrite (H y) by auto. destruct (c2 x y <=? 0); [reflexivity|].
  f_equal. apply IH. auto.
Qed.

Lemma Array_sort_ext (l : list A) :
  (forall x y, In x l -> In y l -> (c1 x y <=? 0) = (c2 x y <=? 0)) ->
  Array_sort c1 l = Array_sort c2 l.
Proof.
  induction l as [|x l IH]; simpl; intros H; [reflexivity|].
  rewrite IH by auto. apply sort_insert_ext.
  intros y Hy. apply Array_sort_In in Hy. auto.
Qed.

End SortExt.

(** On numbers below 10 the default sort, which compares texts, orders by
    value. *)
Lemma sortDefault_digits (l : list Z) :
  List.Forall (fun d => 0 <= d < 10) l ->
  PrescriptionForm.sortDefault l = Array_sort (fun a b => a - b) l.
Proof.
  intros H. rewrite List.Forall_forall in H. unfold PrescriptionForm.sortDefault.
  apply Array_sort_ext. intros x y Hx Hy. rewrite digit_order by auto.
  destruct (Z.leb_spec (Z.sgn (x - y)) 0); destruct (Z.leb_spec (x - y) 0); lia.
Qed.

(** Beyond 9 it does not. *)
Example sortDefault_by_text : PrescriptionForm.sortDefault [2; 10] = [10; 2].
Proof. reflexivity. Qed.

Lemma ascending_NoDup (l : list Z) : StronglySorted Z.lt l -> List.NoDup l.
Proof.
  induction 1 as [|x l Hs IH Hall]; constructor; [|assumption].
  intros Hin. rewrite List.Forall_forall in Hall. specialize (Hall x Hin). lia.
Qed.

Lemma ascending_of_sorted (l : list Z) : Sorted Z.le l -> List.NoDup l -> StronglySorted Z.lt l.
Proof.
  intros Hs Hnd. apply Sorted_StronglySorted in Hs; [|intros a b c; lia].
  induction Hs as [|x l Hs IH Hall]; constructor.
  - apply IH. now inversion Hnd.
  - inversion Hnd as [|? ? Hx Hnd']; subst. rewrite List.Forall_forall in *.
    intros y Hy. specialize (Hall y Hy).
    assert (x <> y) by (intros ->; contradiction). lia.
Qed.

Lemma ascending_filter (P : Z -> bool) (l : list Z) :
  StronglySorted Z.lt l -> StronglySorted Z.lt (List.filter P l).
Proof.
  induction 1 as [|x l Hs IH Hall]; simpl; [constructor|].
  destruct (P x); [|assumption]. constructor; [assumption|].
  rewrite List.Forall_forall in *. intros y Hy. apply filter_In in Hy as [Hy _]. auto.
Qed.

(** Two ascending lists without repetition that hold the same numbers are
    the same list. *)
Lemma ascending_unique (l1 : list Z) :
  forall l2, StronglySorted Z.lt l1 -> StronglySorted Z.lt l2 ->
    (forall d, In d l1 <-> In d l2) -> l1 = l2.
Proof.
  induction l1 as [|x l1 IH]; intros l2 H1 H2 Hsame.
  - destruct l2 as [|y l2]; [reflexivity|]. destruct (proj2 (Hsame y)). simpl. auto.
  - destruct l2 as [|y l2]; [destruct (proj1 (Hsame x)); simpl; auto|].
    inversion H1 as [|? ? Hs1 Hall1]; inversion H2 as [|? ? Hs2 Hall2]; subst.
    rewrite List.Forall_forall in Hall1, Hall2.
    assert (x = y) as ->.
    { destruct (proj1 (Hsame x) ltac:(simpl; auto)) as [E|Hx]; [auto|].
      destruct (proj2 (Hsame y) ltac:(simpl; auto)) as [E|Hy]; [auto|].
      specialize (Hall1 y Hy). specialize (Hall2 x Hx). lia. }
    f_equal. apply IH; try assumption.
    intros d. split; intros Hd.
    + destruct (proj1 (Hsame d) ltac:(simpl; auto)) as [E|Hd2]; [|assumption].
      specialize (Hall1 d Hd). lia.
    + destruct (proj2 (Hsame d) ltac:(simpl; auto)) as [E|Hd1]; [|assumption].
      specialize (Hall2 d Hd). lia.
Qed.

(** The days of a dosing time after a day was toggled. *)
Lemma toggled_days (day : Z) (days : list Z) :
  isWeekdayNumber day ->
  List.Forall isWeekdayNumber days ->
  StronglySorted Z.lt days ->
  let toggled :=
    if includes days day
    then List.filter (fun d => negb (d =? day)) days
    else PrescriptionForm.sortDefault (days ++ [day]) in
  List.Forall isWeekdayNumber toggled
  /\ StronglySorted Z.lt toggled
  /\ (forall d, In d toggled <->
                (d = day /\ ~ In day days) \/ (d <> day /\ In d days)).
Proof.
  intros Hday Hdays Hs toggled. subst toggled.
  destruct (includes days day) eqn:E.
  - apply includes_In in E. split; [|split].
    + rewrite List.Forall_forall in *. intros d Hd. apply filter_In in Hd as [Hd _]. auto.
    + now apply ascending_filter.
    + intros d. rewrite filter_In, negb_true_iff, Z.eqb_neq. split.
      * intros [Hd Hne]. auto.
      * intros [[-> Hn]|[Hne Hd]]; [contradiction|auto].
  - assert (Hn : ~ In day days).
    { intros Hin. apply includes_In in Hin. congruence. }
    assert (Hall : List.Forall (fun d => 0 <= d < 10) (days ++ [day])).
    { rewrite List.Forall_forall in *. intros d Hd. apply in_app_or in Hd as [Hd|[<-|[]]].
      - specialize (Hdays d Hd). unfold isWeekdayNumber in Hdays. lia.
      - unfold isWeekdayNumber in Hday. lia. }
    rewrite (sortDefault_digits _ Hall).
    assert (Hmem : forall d, In d (Array_sort (fun a b => a - b) (days ++ [day])) <->
                             (d = day /\ ~ In day days) \/ (d <> day /\ In d days)).
    { intros d. rewrite Array_sort_In, in_app_iff. simpl. split.
      - intros [Hd|[<-|[]]]; [right|left; auto].
        split; [|assumption]. intros ->. contradiction.
      - intros [[-> _]|[_ Hd]]; auto. }
    split; [|split; [|exact Hmem]].
    + rewrite List.Forall_forall in *. intros d Hd.
      apply Hmem in Hd as [[-> _]|[_ Hd]]; auto.
    + apply ascending_of_sorted; [apply Array_sort_sorted|].
      apply (Permutation_NoDup (Permutation_sym (Array_sort_perm _ _))).
      apply (Permutation_NoDup (Permutation_cons_append days day)).
      constructor; [assumption|now apply ascending_NoDup].
Qed.

(** X20.  Toggling a weekday of a dosing time in the form switches that
    day and no other, leaves the other dosing times, the time and the
    quantity alone, and keeps the days ascending without repetition;
    toggling the same day again gives back the schedules as they were.
    This holds for days kept as the weekday numbers 1 to 7 in ascending
    order, as the form creates them. *)
Theorem toggle_day_switches_one_day (timeIndex : nat) (day : Z)
    (schedules : list PrescriptionForm.Schedule) (s : PrescriptionForm.Schedule) :
  schedules !! timeIndex = Some s ->
  isWeekdayNumber day ->
  List.Forall isWeekdayNumber (PrescriptionForm.days_of_week s) ->
  StronglySorted Z.lt (PrescriptionForm.days_of_week s) ->
  exists updated s',
    PrescriptionForm.toggleDay timeIndex day schedules = Some updated
    /\ updated !! timeIndex = Some s'
    /\ (forall other, other <> timeIndex -> updated !! other = schedules !! other)
    /\ PrescriptionForm.dose_time s' = PrescriptionForm.dose_time s
    /\ PrescriptionForm.quantity s' = PrescriptionForm.quantity s
    /\ List.Forall isWeekdayNumber (PrescriptionForm.days_of_week s')
    /\ StronglySorted Z.lt (PrescriptionForm.days_of_week s')
    /\ (In day (PrescriptionForm.days_of_week s') <->
        ~ In day (PrescriptionForm.days_of_week s))
    /\ (forall d, d <> day ->
          (In d (PrescriptionForm.days_of_week s') <->
           In d (PrescriptionForm.days_of_week s)))
    /\ PrescriptionForm.toggleDay timeIndex day updated = Some schedules.
Proof.
  intros Hlook Hday Hdays Hs.
  pose proof (lookup_lt_Some _ _ _ Hlook) as Hlt.
  destruct (toggled_days day _ Hday Hdays Hs) as (Hr & Hs' & Hmem).
  unfold PrescriptionForm.toggleDay at 1. rewrite Hlook.
  set (days' := if includes (PrescriptionForm.days_of_week s) day then _ else _) in *.
  set (s' := {| PrescriptionForm.dose_time := PrescriptionForm.dose_time s;
                PrescriptionForm.quantity := PrescriptionForm.quantity s;
                PrescriptionForm.days_of_week := days' |}).
  exists (<[timeIndex := s']> schedules), s'.
  assert (Hlook' : <[timeIndex := s']> schedules !! timeIndex = Some s')
    by now apply list_lookup_insert_eq.
  split; [reflexivity|]. split; [assumption|].
  split; [intros other Hne; apply list_lookup_insert_ne; congruence|].
  split; [reflexivity|]. split; [reflexivity|].
  unfold PrescriptionForm.toggleDay. rewrite Hlook'. unfold s'.
  cbn [PrescriptionForm.dose_time PrescriptionForm.quantity PrescriptionForm.days_of_week].
  split; [assumption|]. split; [assumption|].
  split; [rewrite Hmem; tauto|]. split; [intros d Hne; rewrite Hmem; tauto|].
  destruct (toggled_days day days' Hday Hr Hs') as (_ & Hs'' & Hmem'').
  cbv zeta in Hs'', Hmem''.
  rewrite (ascending_unique _ (PrescriptionForm.days_of_week s) Hs'' Hs).
  - rewrite list_insert_insert_eq. f_equal. destruct s. now apply list_insert_id.
  - intros d. rewrite Hmem'', !Hmem.
    destruct (Z.eq_dec d day) as [->|Hne];
      destruct (in_dec Z.eq_dec day (PrescriptionForm.days_of_week s));
      intuition congruence.
Qed.

Lemma toggle_day_switches_one_day_witness :
  exists updated s',
    PrescriptionForm.toggleDay 0 3
      [{| PrescriptionForm.dose_time := "08:00"; PrescriptionForm.quantity := 1;
          PrescriptionForm.days_of_week := [1; 2; 5] |}] = Some updated
    /\ updated !! 0%nat = Some s'
    /\ PrescriptionForm.days_of_week s' = [1; 2; 3; 5].
Proof.
  destruct (toggle_day_switches_one_day 0 3
              [{| PrescriptionForm.dose_time := "08:00"; PrescriptionForm.quantity := 1;
                  PrescriptionForm.days_of_week := [1; 2; 5] |}]
              {| PrescriptionForm.dose_time := "08:00"; PrescriptionForm.quantity := 1;
                 PrescriptionForm.days_of_week := [1; 2; 5] |})
    as (updated & s' & Ht & Hl & _).
  - reflexivity.
  - unfold isWeekdayNumber. lia.
  - repeat constructor; unfold isWeekdayNumber; simpl; lia.
  - repeat constructor; lia.
  - exists updated, s'. split; [assumption|]. split; [assumption|].
    vm_compute in Ht. injection Ht as <-. vm_compute in Hl. injection Hl as <-.
    reflexivity.
Defined.

(* ===================================================================== *)
(** * The schedule screen of a day and the daily view *)
(* ===================================================================== *)

Lemma sort_insert_map {A B : Type} (f : A -> B) (c : B -> B -> Z) (x : A) (l : list A) :
  sort_insert c (f x) (map f l) = map f (sort_insert (fun a b => c (f a) (f b)) x l).
Proof.
  induction l as [|y l IH]; simpl; [reflexivity|].
  destruct (c (f x) (f y) <=? 0); simpl; [reflexivity|]. now rewrite IH.
Qed.

Lemma Array_sort_map {A B : Type} (f : A -> B) (c : B -> B -> Z) (l : list A) :
  Array_sort c (map f l) = map f (Array_sort (fun a b => c (f a) (f b)) l).
Proof.
  induction l as [|x l IH]; simpl; [reflexivity|]. now rewrite IH, sort_insert_map.
Qed.

Lemma find_ext_eq {A : Type} (P Q : A -> bool) (l : list A) :
  (forall x, P x = Q x) -> find P l = find Q l.
Proof.
  intros H. induction l as [|x l IH]; simpl; [reflexivity|]. now rewrite H, IH.
Qed.

Lemma map_flat_map_comm {A B C : Type} (f : B -> C) (g : A -> list B) (l : list A) :
  map f (flat_map g l) = flat_map (fun x => map f (g x)) l.
Proof.
  induction l as [|x l IH]; simpl; [reflexivity|]. now rewrite map_app, IH.
Qed.

Lemma filter_length_le {A : Type} (P Q : A -> bool) (l : list A) :
  (forall x, In x l -> P x = true -> Q x = true) ->
  (List.length (List.filter P l) <= List.length (List.filter Q l))%nat.
Proof.
  induction l as [|x l IH]; simpl; intros H; [lia|].
  assert (IH' := IH (fun y Hy => H y (or_intror Hy))).
  destruct (P x) eqn:EP.
  - rewrite (H x (or_introl eq_refl) EP). simpl. lia.
  - destruct (Q x); simpl; lia.
Qed.

(** X21.  The schedule screen of a day shows the doses the daily view shows
    for that single day without filters, in the same order, with the same
    quantity and the same history event.  It marks a dose as taken exactly
    when a history event is linked: the log events, which the daily view
    consults for the doses without history event, play no part in it.  So
    its total is that of the daily view, it never counts more doses as
    taken, and its pending count includes the doses the daily view shows
    as missed. *)
Theorem schedule_screen_is_daily_view_of_the_day :
  forall (prescriptions : list Prescription.t) (doseSchedules : list DoseSchedule.t)
         (logs : list MedicationLog.t) (history : list MedicationHistory.t)
         (now selectedDate : JSDate.t),
  exists daily,
    generateScheduledDoses
      (singleDayState prescriptions doseSchedules logs history selectedDate) now
    = Some daily
    /\ DoseScheduleScreen.generateDosesForDate prescriptions doseSchedules history
         selectedDate
       = map screenDoseOf daily
    /\ let screen :=
         DoseScheduleScreen.getStats
           (DoseScheduleScreen.generateDosesForDate prescriptions doseSchedules history
              selectedDate) in
       let view := DailyPrescriptionsModal.getStats daily in
       DoseScheduleScreen.total screen = DailyPrescriptionsModal.total view
       /\ DoseScheduleScreen.statsTaken screen <= DailyPrescriptionsModal.taken view
       /\ DailyPrescriptionsModal.missed view + DailyPrescriptionsModal.pending view
          <= DoseScheduleScreen.pending screen.
Proof.
  intros ps ds ls hs now selectedDate.
  set (st := singleDayState ps ds ls hs selectedDate).
  destruct (generateScheduledDoses_perm st now (JSDate.dayNumber selectedDate)
              (JSDate.dayNumber selectedDate) eq_refl eq_refl)
    as (daily & Hgen & _ & Hin).
  exists daily. split; [exact Hgen|].
  assert (Heq : Some (DoseScheduleScreen.generateDosesForDate ps ds
                        hs selectedDate)
                = option_map (map screenDoseOf) (generateScheduledDoses st now)).
  { unfold st.
    cbn [singleDayState generateScheduledDoses startDate endDate selectedPrescription
         statusFilter sortOrder].
    change (negb (String.eqb "all" "all")) with false. cbv iota.
    set (start := JSDate.dayNumber selectedDate * JSDate.msPerDay).
    assert (Hfuel : daysFuel start (start + 86399000) = 1%nat).
    { unfold daysFuel, JSDate.msPerDay.
      replace (start + 86399000 - start) with 86399000 by lia. reflexivity. }
    rewrite Hfuel. cbn [forEachDay option_map].
    assert (Hle : (start <=? start + 86399000) = true) by (apply Z.leb_le; lia).
    rewrite Hle, app_nil_r. f_equal.
    unfold DoseScheduleScreen.generateDosesForDate.
    match goal with
    | |- _ = map _ (Array_sort _ ?l) =>
        transitivity
          (Array_sort (fun a b => DoseScheduleScreen.scheduledDateTime a
                                  - DoseScheduleScreen.scheduledDateTime b)
                      (map screenDoseOf l));
        [|exact (Array_sort_map screenDoseOf
                   (fun a b => DoseScheduleScreen.scheduledDateTime a
                               - DoseScheduleScreen.scheduledDateTime b) l)]
    end.
    f_equal. rewrite map_flat_map_comm. apply flat_map_ext. intros prescription.
    unfold DoseScheduleScreen.dosesOfPrescription, dosesOfPrescription.
    unfold singleDayState.
    cbn [doseSchedules history logs].
    assert (Hday : JSDate.dayNumber start = JSDate.dayNumber selectedDate).
    { unfold start, JSDate.dayNumber, JSDate.msPerDay. apply Z.div_mul. lia. }
    rewrite (generateScheduledTimes_same_day _ start selectedDate Hday).
    rewrite map_map. apply map_ext. intros scheduledTime.
    unfold screenDoseOf, reconcile.
    assert (Hfind : forall h, historyMatches prescription start scheduledTime h
                              = historyMatches prescription selectedDate scheduledTime h).
    { intros h. unfold historyMatches.
      now rewrite (format_date_same_day start selectedDate Hday). }
    rewrite (find_ext_eq _ _ hs Hfind).
    destruct (find (historyMatches prescription selectedDate scheduledTime) hs);
      [reflexivity|].
    destruct (find (logMatches scheduledTime) ls); [reflexivity|].
    destruct (scheduledTime <? now); reflexivity. }
  rewrite Hgen in Heq. cbn [option_map] in Heq. injection Heq as Heq.
  split; [exact Heq|]. rewrite Heq.
  assert (Hlinked : forall dose, In dose daily ->
            match ScheduledDose.historyEntry dose with Some _ => true | None => false end
            = true ->
            Status.eqb (ScheduledDose.status dose) Status.taken = true).
  { intros dose Hd Hh. destruct (proj1 (Hin dose) Hd) as [Hrange _].
    apply dosesOfRange_In in Hrange as (day & p & t & _ & _ & _ & ->).
    pose proof (reconcile_coherent p
      (List.filter (fun ds => String.eqb (DoseSchedule.prescription_id ds) (Prescription.id p))
                   (doseSchedules st))
      (history st) (logs st) now (day * JSDate.msPerDay) t) as Hc.
    unfold coherentDose in Hc.
    destruct (ScheduledDose.historyEntry _) as [h|]; [|discriminate].
    destruct (ScheduledDose.log _); [contradiction|].
    destruct Hc as [-> _]. reflexivity. }
  unfold DoseScheduleScreen.getStats, DailyPrescriptionsModal.getStats,
    DailyPrescriptionsModal.countStatus.
  cbn [DoseScheduleScreen.total DoseScheduleScreen.statsTaken DoseScheduleScreen.pending
       DailyPrescriptionsModal.total DailyPrescriptionsModal.taken
       DailyPrescriptionsModal.missed DailyPrescriptionsModal.pending].
  rewrite length_map, filter_map_length.
  pose proof (filter_length_le _ _ daily Hlinked) as Hle.
  pose proof (status_counts_sum ScheduledDose.status daily) as Hsum.
  rewrite <- !filter_length_count in Hsum.
  cbn [screenDoseOf DoseScheduleScreen.taken].
  split; [reflexivity|]. lia.
Qed.

(** A dose with a log event "taken" and no history event: taken in the
    daily view, not taken on the schedule screen. *)
Example taken_by_log_not_on_schedule_screen :
  option_map (map ScheduledDose.status)
    (generateScheduledDoses
       (singleDayState [Sample.aspirin] [Sample.rule_0800] [Sample.log_aspirin_taken] []
          Sample.day) Sample.evening)
  = Some [Status.taken]
  /\ map DoseScheduleScreen.taken
       (DoseScheduleScreen.generateDosesForDate [Sample.aspirin] [Sample.rule_0800] []
          Sample.day)
     = [false].
Proof. split; vm_compute; reflexivity. Qed.
